(** * RISC-V interrupt pipeline and IPI layer: a shallow embedding

    The development follows the three source units it embeds:
    - [IrqPipelineH]: arch/riscv/include/asm/irq_pipeline.h
      (virtual interrupt flag, timer register snapshot);
    - [IrqPipeline]: the stage-entry dispatcher [arch_do_IRQ_pipelined];
    - [Smp]: the IPI multiplexer and the cross-CPU control operations.

    C integers are modelled as [Z] with the wrap-around written out where
    the code relies on it; a per-CPU variable is a function of the CPU
    number, an array is a list indexed by IPI number or by CPU number, a
    CPU mask is a bitmap; calls into collaborators outside these units are
    recorded in a trace of events. *)

From Stdlib Require Import ZArith Lia List Bool.
From stdpp Require Import base tactics decidable numbers list functions.
Import ListNotations.

Local Open Scope Z_scope.

(* ===================================================================== *)
(** ** arch/riscv/include/asm/irq_pipeline.h                              *)
(* ===================================================================== *)

Module IrqPipelineH.

(** C's logical negation on an integer. *)
Definition lnot_int (x : Z) : Z := if x =? 0 then 1 else 0.

Section VirtualFlag.

(** [CONFIG_RISCV_M_MODE] selects which status bit is the interrupt
    enable bit. *)
Variable CONFIG_RISCV_M_MODE : bool.

Definition RISCV_STATUS_SIE_BIT : Z := 1.
Definition RISCV_STATIS_SS_BIT : Z := 31.
Definition RISCV_STATUS_MIE_BIT : Z := 3.

Definition RISCV_STATUS_IE_BIT : Z :=
  if CONFIG_RISCV_M_MODE then RISCV_STATUS_MIE_BIT else RISCV_STATUS_SIE_BIT.

(** Modelled from the spec: [SR_IE] is declared in asm/csr.h, which is
    not among the sources; it is "the real hardware enable bit" of the
    status word, the bit [RISCV_STATUS_IE_BIT] numbers. *)
Definition SR_IE : Z := Z.shiftl 1 RISCV_STATUS_IE_BIT.

(** Modelled from the spec: [native_irqs_disabled_flags] lives in
    asm/irqflags.h, which is not among the sources; it derives the
    disabled status "from the real hardware enable bit": nonzero exactly
    when that bit is clear in [flags]. *)
Definition native_irqs_disabled_flags (flags : Z) : Z :=
  lnot_int (Z.land flags SR_IE).

(** The per-CPU virtual flag: "stalled" or "not stalled". *)
Record cpu_state : Type := { inband_stalled : bool }.

(** Modelled from the spec: the generic in-band stall primitives
    ([inband_irq_save], [inband_irq_enable], [inband_irq_disable],
    [inband_irqs_disabled], [inband_irq_restore]) live in the generic
    pipeline core, which is not among the sources.  The spec's contract:
    save "returns the current virtual flag state and leaves it
    unchanged", disable "sets the virtual flag to stalled", enable
    "clears it", restore "sets the flag to exactly state". *)
Definition inband_irq_save (st : cpu_state) : Z * cpu_state :=
  (Z.b2z (inband_stalled st), st).

Definition inband_irq_enable (st : cpu_state) : cpu_state :=
  {| inband_stalled := false |}.

Definition inband_irq_disable (st : cpu_state) : cpu_state :=
  {| inband_stalled := true |}.

Definition inband_irqs_disabled (st : cpu_state) : Z :=
  Z.b2z (inband_stalled st).

Definition inband_irq_restore (x : Z) (st : cpu_state) : cpu_state :=
  {| inband_stalled := negb (x =? 0) |}.

(** [(!stalled) << RISCV_STATUS_IE_BIT] *)
Definition arch_irqs_virtual_to_native_flags (stalled : Z) : Z :=
  Z.shiftl (lnot_int stalled) RISCV_STATUS_IE_BIT.

(** [barrier()] only constrains the compiler; it has no effect on the
    state of a sequential model and is left out below. *)
Definition arch_local_irq_save (st : cpu_state) : Z * cpu_state :=
  let '(stalled, st') := inband_irq_save st in
  (arch_irqs_virtual_to_native_flags stalled, st').

Definition arch_local_irq_enable (st : cpu_state) : cpu_state :=
  inband_irq_enable st.

Definition arch_local_irq_disable (st : cpu_state) : cpu_state :=
  inband_irq_disable st.

Definition arch_local_save_flags (st : cpu_state) : Z :=
  arch_irqs_virtual_to_native_flags (inband_irqs_disabled st).

Definition arch_irqs_disabled_flags (flags : Z) : Z :=
  native_irqs_disabled_flags flags.

Definition arch_local_irq_restore (flags : Z) (st : cpu_state) : cpu_state :=
  inband_irq_restore (arch_irqs_disabled_flags flags) st.

Definition arch_irqs_disabled (st : cpu_state) : Z :=
  arch_irqs_disabled_flags (arch_local_save_flags st).

(** A critical section body: enable and disable calls, and nested
    save/.../restore blocks to any depth. *)
#[warnings="-register-all"]
Inductive irq_op : Type :=
| op_enable
| op_disable
| op_save_restore (body : list irq_op).

Fixpoint run_op (o : irq_op) (st : cpu_state) : cpu_state :=
  match o with
  | op_enable => arch_local_irq_enable st
  | op_disable => arch_local_irq_disable st
  | op_save_restore body =>
      let '(flags, st1) := arch_local_irq_save st in
      arch_local_irq_restore flags
        (fold_left (fun s o' => run_op o' s) body st1)
  end.

Definition run_ops (ops : list irq_op) (st : cpu_state) : cpu_state :=
  fold_left (fun s o => run_op o s) ops st.

End VirtualFlag.

(** *** Timer register snapshot *)

(** Modelled from the spec: [struct pt_regs] is declared in asm/ptrace.h,
    which is not among the sources.  Its fields are the ones
    [arch_save_timer_regs] names, and the [t6] register between [t5] and
    [status]. *)
Inductive reg : Type :=
| epc | ra | sp | gp | tp | t0 | t1 | t2 | s0 | s1
| a0 | a1 | a2 | a3 | a4 | a5 | a6 | a7
| s2 | s3 | s4 | s5 | s6 | s7 | s8 | s9 | s10 | s11
| t3 | t4 | t5 | t6
| status | badaddr | cause | orig_a0.

#[global] Instance reg_eq_dec : EqDecision reg.
Proof. solve_decision. Defined.

(** A register frame maps each field to its value; memory maps each
    address to the frame stored there, so that [dst] and [src] may be the
    same object. *)
Abbreviation pt_regs := (reg -> Z).
Abbreviation ptr := nat.
Abbreviation mem := (nat -> reg -> Z).

(** [dst->f = src->f] *)
Definition assign (f : reg) (dst src : ptr) (m : mem) : mem :=
  <[dst := <[f := m src f]> (m dst)]> m.

(** The assignments of [arch_save_timer_regs], in source order. *)
Definition timer_saved_fields : list reg :=
  [ epc; ra; sp; gp; tp; t0; t1; t2; s0; s1;
    a0; a1; a2; a3; a4; a5; a6; a7;
    s2; s3; s4; s5; s6; s7; s8; s9; s10; s11;
    t3; t4; t5;
    status; badaddr; cause; orig_a0 ].

Definition arch_save_timer_regs (dst src : ptr) (m : mem) : mem :=
  fold_left (fun m' f => assign f dst src m') timer_saved_fields m.

(** *** Tick stealing *)

(** [!(regs->status & SR_IE)]: the tick is stolen when the interrupted
    context ran with interrupts off. *)
Definition arch_steal_pipelined_tick (CONFIG_RISCV_M_MODE : bool)
    (regs : pt_regs) : bool :=
  Z.land (regs status) (SR_IE CONFIG_RISCV_M_MODE) =? 0.

End IrqPipelineH.


(* ===================================================================== *)
(** ** The stage-entry dispatcher                                         *)
(* ===================================================================== *)

Module IrqPipeline.

Definition irq_desc : Type := Z.
Definition ptr : Type := nat.

(** Calls the dispatcher makes into the reentrancy tracker and into the
    generic descriptor layer.  [ev_handle_irq_desc] records the register
    frame that is active while the descriptor handler runs. *)
Inductive event : Type :=
| ev_ct_irq_enter
| ev_rcu_irq_enter_check_tick
| ev_handle_irq_desc (desc : irq_desc) (active_regs : ptr)
| ev_ct_irq_exit.

#[global] Instance event_eq_dec : EqDecision event.
Proof. solve_decision. Defined.

(** What the dispatcher takes from its build and from its collaborator:
    [handle_irq_desc_regs desc r] is the active-frame pointer the
    descriptor handler leaves behind when entered with [r] active. *)
Record platform : Type := {
  CONFIG_TINY_RCU : bool;
  handle_irq_desc_regs : irq_desc -> ptr -> ptr
}.

(** The state of the interrupted CPU: whether [current] is the idle task,
    the state of the reentrancy tracker, the per-CPU [__irq_regs] pointer,
    the address of this CPU's [irq_pipeline.tick_regs], and the calls made
    so far.

    Modelled from the spec: the tracker is "the external accounting
    mechanism that must be told when a CPU begins/stops watching", and is
    not among the sources.  [watch_depth] is the number of start
    transitions it was told of and that are not yet undone; the tracker is
    stopped exactly at depth 0. *)
Record cpu : Type := mkCpu {
  current_is_idle : bool;
  watch_depth : nat;
  irq_regs : ptr;
  tick_regs : ptr;
  trace : list event
}.

Definition log (e : event) (w : cpu) : cpu :=
  mkCpu (current_is_idle w) (watch_depth w) (irq_regs w) (tick_regs w)
        (trace w ++ [e]).

(** Modelled from the spec: the tracker's two entry points, which are not
    among the sources.  [ct_irq_enter] is the "start watching" transition
    and [ct_irq_exit] the "stop watching" transition that undoes one;
    the tick check leaves the tracker as it is. *)
Definition ct_irq_enter (w : cpu) : cpu :=
  mkCpu (current_is_idle w) (S (watch_depth w)) (irq_regs w) (tick_regs w)
        (trace w ++ [ev_ct_irq_enter]).

Definition ct_irq_exit (w : cpu) : cpu :=
  mkCpu (current_is_idle w) (Nat.pred (watch_depth w)) (irq_regs w)
        (tick_regs w) (trace w ++ [ev_ct_irq_exit]).

Definition rcu_irq_enter_check_tick (w : cpu) : cpu :=
  log ev_rcu_irq_enter_check_tick w.

Definition tracker_stopped (w : cpu) : bool := Nat.eqb (watch_depth w) 0.

(** Modelled from the spec: [IRQENTRY_INBAND_UNSTALLED] is an enumerator
    of the generic entry code, which is not among the sources; only its
    identity matters here. *)
Definition IRQENTRY_INBAND_UNSTALLED : Z := 0.

Record irqentry_state_t : Type := {
  exit_rcu : bool;
  stage_info : Z
}.

Section Dispatcher.

Variable p : platform.

Definition pipeline_enter_rcu (w : cpu) : irqentry_state_t * cpu :=
  if negb (CONFIG_TINY_RCU p) && current_is_idle w then
    ({| exit_rcu := true; stage_info := IRQENTRY_INBAND_UNSTALLED |},
     ct_irq_enter w)
  else
    ({| exit_rcu := false; stage_info := IRQENTRY_INBAND_UNSTALLED |},
     rcu_irq_enter_check_tick w).

Definition pipeline_exit_rcu (state : irqentry_state_t) (w : cpu) : cpu :=
  if exit_rcu state then ct_irq_exit w else w.

(** Modelled from the spec: [set_irq_regs] is the generic accessor of the
    per-CPU active-frame pointer, not among the sources; it installs the
    new frame "saving the previous pointer", which it returns. *)
Definition set_irq_regs (new_regs : ptr) (w : cpu) : ptr * cpu :=
  (irq_regs w,
   mkCpu (current_is_idle w) (watch_depth w) new_regs (tick_regs w)
         (trace w)).

(** Modelled from the spec: [handle_irq_desc] is the generic
    interrupt-descriptor handler, a collaborator that is not among the
    sources.  The call is recorded with the frame active at that point,
    and the handler may leave another frame pointer behind. *)
Definition handle_irq_desc (desc : irq_desc) (w : cpu) : cpu :=
  let w1 := log (ev_handle_irq_desc desc (irq_regs w)) w in
  mkCpu (current_is_idle w1) (watch_depth w1)
        (handle_irq_desc_regs p desc (irq_regs w)) (tick_regs w1) (trace w1).

Definition arch_do_IRQ_pipelined (desc : irq_desc) (w : cpu) : cpu :=
  let regs := tick_regs w in
  let '(state, w1) := pipeline_enter_rcu w in
  let '(old_regs, w2) := set_irq_regs regs w1 in
  let w3 := handle_irq_desc desc w2 in
  let '(_, w4) := set_irq_regs old_regs w3 in
  pipeline_exit_rcu state w4.

End Dispatcher.

(** The events a run appended to the trace. *)
Definition events_since (w w' : cpu) : list event :=
  drop (length (trace w)) (trace w').

(** The condition in the specification's words, "the CPU was idle with the
    tracker stopped", to be compared with the test [pipeline_enter_rcu]
    makes. *)
Definition idle_tracker_stopped (w : cpu) : bool :=
  current_is_idle w && tracker_stopped w.

(** A run of interrupts taken one after the other on the same CPU. *)
Definition run_irqs (p : platform) (descs : list irq_desc) (w : cpu) : cpu :=
  fold_left (fun w' desc => arch_do_IRQ_pipelined p desc w') descs w.

Definition is_handler_call (e : event) : bool :=
  match e with
  | ev_handle_irq_desc _ _ => true
  | _ => false
  end.

End IrqPipeline.


(* ===================================================================== *)
(** ** SMP initialisation and IPI support                                 *)
(* ===================================================================== *)

Module Smp.

(** *** C integer conversions *)

(** Conversion to [unsigned int] and to [int] (32 bits, two's complement). *)
Definition to_uint (x : Z) : Z := x mod 2 ^ 32.
Definition to_int (x : Z) : Z := (x + 2 ^ 31) mod 2 ^ 32 - 2 ^ 31.

Definition BITS_PER_LONG : Z := 64.
Definition ULONG_MAX : Z := 2 ^ BITS_PER_LONG - 1.

(** Number of trailing zero bits of a positive number. *)
Fixpoint ctz (q : positive) : Z :=
  match q with
  | xO q' => 1 + ctz q'
  | _ => 0
  end.

(** [ffs(int x)]: one plus the index of the least significant set bit of
    the 32-bit pattern the argument is converted to, zero when no bit is
    set. *)
Definition ffs (x : Z) : Z :=
  match to_uint x with
  | Zpos q => 1 + ctz q
  | _ => 0
  end.

(** *** Enumerations and constants *)

Inductive ipi_message_type : Type :=
| IPI_RESCHEDULE
| IPI_CALL_FUNC
| IPI_CPU_STOP
| IPI_CPU_CRASH_STOP
| IPI_IRQ_WORK
| IPI_TIMER.

Definition ipi_nr (t : ipi_message_type) : Z :=
  match t with
  | IPI_RESCHEDULE => 0
  | IPI_CALL_FUNC => 1
  | IPI_CPU_STOP => 2
  | IPI_CPU_CRASH_STOP => 3
  | IPI_IRQ_WORK => 4
  | IPI_TIMER => 5
  end.

Definition IPI_MAX : Z := 6.

Definition ipi_of_nr (n : Z) : option ipi_message_type :=
  match n with
  | 0 => Some IPI_RESCHEDULE
  | 1 => Some IPI_CALL_FUNC
  | 2 => Some IPI_CPU_STOP
  | 3 => Some IPI_CPU_CRASH_STOP
  | 4 => Some IPI_IRQ_WORK
  | 5 => Some IPI_TIMER
  | _ => None
  end.

(** From asm/irq_pipeline.h. *)
Definition OOB_NR_IPI : Z := 3.
Definition OOB_IPI_OFFSET : Z := 1.

(** Modelled from the spec: [ENOENT], [INVALID_HARTID], [USEC_PER_SEC] and
    [SYSTEM_RUNNING] are declared in headers that are not among the
    sources.  [INVALID_HARTID] is the all-ones word that marks an
    unassigned entry; the timeout is "on the order of one second, in
    one-microsecond steps". *)
Definition ENOENT : Z := 2.
Definition INVALID_HARTID : Z := ULONG_MAX.
Definition USEC_PER_SEC : Z := 1000000.
Definition SYSTEM_RUNNING : Z := 3.

(** *** The logical CPU to hart table *)

(** The loop of [riscv_hartid_to_cpuid], entered at index [i] with [n]
    iterations left.  An index past the end of the table compares unequal. *)
Fixpoint riscv_hartid_to_cpuid_from (map : list Z) (hartid : Z)
    (n i : nat) : Z :=
  match n with
  | O => - ENOENT
  | S n' =>
      if bool_decide (map !! i = Some hartid) then Z.of_nat i
      else riscv_hartid_to_cpuid_from map hartid n' (S i)
  end.

Definition riscv_hartid_to_cpuid (NR_CPUS : nat) (map : list Z)
    (hartid : Z) : Z :=
  riscv_hartid_to_cpuid_from map hartid NR_CPUS 0.

(** The initialiser [[0 ... NR_CPUS-1] = INVALID_HARTID]. *)
Definition cpuid_to_hartid_map_init (NR_CPUS : nat) : list Z :=
  replicate NR_CPUS INVALID_HARTID.

(** [cpuid_to_hartid_map(0) = boot_cpu_hartid] *)
Definition smp_setup_processor_id (boot_cpu_hartid : Z) (map : list Z)
    : list Z :=
  <[0%nat := boot_cpu_hartid]> map.

(** *** Events and state *)

Definition irq_desc : Type := Z.

Inductive warn_site : Type :=
| WARN_oob_ipi_range
| WARN_virq_base_set
| WARN_nr_below_IPI_MAX
| WARN_request_err
| WARN_ONCE_no_virq_base.

(** Calls into collaborators (scheduler, deferred work, timer broadcast,
    interrupt controller, log). *)
Inductive event : Type :=
| ev_scheduler_ipi
| ev_generic_smp_call_function_interrupt
| ev_crash_save_cpu (cpu : nat)
| ev_local_irq_disable_full
| ev_cpu_stop (cpu : nat)
| ev_irq_work_run
| ev_tick_receive_broadcast
| ev_unhandled_IPI (cpu : nat) (ipi : Z)
| ev_ipi_send_mask (desc : option irq_desc) (dest : Z)
| ev_WARN (site : warn_site)
| ev_request_percpu_irq (irq : Z)
| ev_irq_set_status_flags_hidden (irq : Z)
| ev_enable_percpu_irq (irq : Z)
| ev_pr_crit_stopping
| ev_pr_warn_failed_to_stop (mask : Z).

#[global] Instance warn_site_eq_dec : EqDecision warn_site.
Proof. solve_decision. Defined.

#[global] Instance event_eq_dec : EqDecision event.
Proof. solve_decision. Defined.

(** The build options, the executing CPU and the collaborators' answers.
    A CPU mask is a bitmap: bit [c] stands for logical CPU [c].
    [remote_cpus t (online, countdown)] is what the other CPUs make of the
    online mask and of the crash-stop countdown during microsecond [t]. *)
Record platform : Type := {
  CONFIG_IRQ_PIPELINE : bool;
  irq_pipeline_debug : bool;
  CONFIG_KEXEC_CORE : bool;
  CONFIG_HOTPLUG_CPU : bool;
  CONFIG_GENERIC_CLOCKEVENTS_BROADCAST : bool;
  NR_CPUS : nat;
  smp_processor_id : nat;
  system_state : Z;
  cpu_has_hotplug : nat -> bool;
  irq_to_desc : Z -> option irq_desc;
  request_percpu_irq : Z -> Z;
  remote_cpus : Z -> Z * Z -> Z * Z
}.

(** The variables of the unit.  [ipi_desc] and each [ipi_counts c] are
    arrays of [IPI_MAX] entries; [ipi_messages] and [ipi_counts] are
    per-CPU; [now_us] counts the microseconds spent in [udelay]. *)
Record world : Type := mkWorld {
  ipi_virq_base : Z;
  nr_ipi : Z;
  ipi_desc : list (option irq_desc);
  ipi_messages : nat -> Z;
  ipi_counts : nat -> list Z;
  cpu_online_mask : Z;
  waiting_for_crash_ipi : Z;
  cpus_stopped : Z;
  riscv_ipi_for_rfence : bool;
  ipi_enable_warned : bool;
  now_us : Z;
  trace : list event
}.

Definition set_ipi_virq_base (v : Z) (w : world) : world :=
  mkWorld v (nr_ipi w) (ipi_desc w) (ipi_messages w) (ipi_counts w)
    (cpu_online_mask w) (waiting_for_crash_ipi w) (cpus_stopped w)
    (riscv_ipi_for_rfence w) (ipi_enable_warned w) (now_us w) (trace w).

Definition set_nr_ipi (v : Z) (w : world) : world :=
  mkWorld (ipi_virq_base w) v (ipi_desc w) (ipi_messages w) (ipi_counts w)
    (cpu_online_mask w) (waiting_for_crash_ipi w) (cpus_stopped w)
    (riscv_ipi_for_rfence w) (ipi_enable_warned w) (now_us w) (trace w).

Definition set_ipi_desc (v : list (option irq_desc)) (w : world) : world :=
  mkWorld (ipi_virq_base w) (nr_ipi w) v (ipi_messages w) (ipi_counts w)
    (cpu_online_mask w) (waiting_for_crash_ipi w) (cpus_stopped w)
    (riscv_ipi_for_rfence w) (ipi_enable_warned w) (now_us w) (trace w).

Definition set_ipi_messages (v : nat -> Z) (w : world) : world :=
  mkWorld (ipi_virq_base w) (nr_ipi w) (ipi_desc w) v (ipi_counts w)
    (cpu_online_mask w) (waiting_for_crash_ipi w) (cpus_stopped w)
    (riscv_ipi_for_rfence w) (ipi_enable_warned w) (now_us w) (trace w).

Definition set_ipi_counts (v : nat -> list Z) (w : world) : world :=
  mkWorld (ipi_virq_base w) (nr_ipi w) (ipi_desc w) (ipi_messages w) v
    (cpu_online_mask w) (waiting_for_crash_ipi w) (cpus_stopped w)
    (riscv_ipi_for_rfence w) (ipi_enable_warned w) (now_us w) (trace w).

Definition set_cpu_online_mask (v : Z) (w : world) : world :=
  mkWorld (ipi_virq_base w) (nr_ipi w) (ipi_desc w) (ipi_messages w)
    (ipi_counts w) v (waiting_for_crash_ipi w) (cpus_stopped w)
    (riscv_ipi_for_rfence w) (ipi_enable_warned w) (now_us w) (trace w).

Definition set_waiting_for_crash_ipi (v : Z) (w : world) : world :=
  mkWorld (ipi_virq_base w) (nr_ipi w) (ipi_desc w) (ipi_messages w)
    (ipi_counts w) (cpu_online_mask w) v (cpus_stopped w)
    (riscv_ipi_for_rfence w) (ipi_enable_warned w) (now_us w) (trace w).

Definition set_cpus_stopped (v : Z) (w : world) : world :=
  mkWorld (ipi_virq_base w) (nr_ipi w) (ipi_desc w) (ipi_messages w)
    (ipi_counts w) (cpu_online_mask w) (waiting_for_crash_ipi w) v
    (riscv_ipi_for_rfence w) (ipi_enable_warned w) (now_us w) (trace w).

Definition set_riscv_ipi_for_rfence (v : bool) (w : world) : world :=
  mkWorld (ipi_virq_base w) (nr_ipi w) (ipi_desc w) (ipi_messages w)
    (ipi_counts w) (cpu_online_mask w) (waiting_for_crash_ipi w)
    (cpus_stopped w) v (ipi_enable_warned w) (now_us w) (trace w).

Definition set_ipi_enable_warned (v : bool) (w : world) : world :=
  mkWorld (ipi_virq_base w) (nr_ipi w) (ipi_desc w) (ipi_messages w)
    (ipi_counts w) (cpu_online_mask w) (waiting_for_crash_ipi w)
    (cpus_stopped w) (riscv_ipi_for_rfence w) v (now_us w) (trace w).

Definition set_now_us (v : Z) (w : world) : world :=
  mkWorld (ipi_virq_base w) (nr_ipi w) (ipi_desc w) (ipi_messages w)
    (ipi_counts w) (cpu_online_mask w) (waiting_for_crash_ipi w)
    (cpus_stopped w) (riscv_ipi_for_rfence w) (ipi_enable_warned w) v
    (trace w).

Definition log (e : event) (w : world) : world :=
  mkWorld (ipi_virq_base w) (nr_ipi w) (ipi_desc w) (ipi_messages w)
    (ipi_counts w) (cpu_online_mask w) (waiting_for_crash_ipi w)
    (cpus_stopped w) (riscv_ipi_for_rfence w) (ipi_enable_warned w)
    (now_us w) (trace w ++ [e]).

(** How a call ends: it returns, the CPU is parked for good in a
    [wait_for_interrupt] loop, or the behaviour is undefined (an access
    outside an array, or [unreachable()]). *)
Inductive result : Type :=
| Ret (w : world)
| Parked (w : world)
| Fault.

Definition bind (r : result) (k : world -> result) : result :=
  match r with
  | Ret w => k w
  | Parked w => Parked w
  | Fault => Fault
  end.

Notation "r >>= k" := (bind r k) (at level 50, left associativity).

Section Operations.

Variable p : platform.

(** *** CPU masks *)

Definition cpumask_test_cpu (cpu : nat) (mask : Z) : bool :=
  Z.testbit mask (Z.of_nat cpu).

Definition cpumask_clear_cpu (cpu : nat) (mask : Z) : Z :=
  Z.clearbit mask (Z.of_nat cpu).

Definition cpumask_of (cpu : nat) : Z := Z.shiftl 1 (Z.of_nat cpu).

Definition cpumask_weight (mask : Z) : Z :=
  Z.of_nat (length (filter (fun c => cpumask_test_cpu c mask = true)
                           (seq 0 (NR_CPUS p)))).

Definition for_each_cpu (mask : Z) (body : nat -> world -> world)
    (w : world) : world :=
  fold_left (fun w' cpu => if cpumask_test_cpu cpu mask then body cpu w'
                           else w')
            (seq 0 (NR_CPUS p)) w.

Definition num_online_cpus (w : world) : Z :=
  cpumask_weight (cpu_online_mask w).

Definition cpu_online (cpu : nat) (w : world) : bool :=
  cpumask_test_cpu cpu (cpu_online_mask w).

(** [set_cpu_online(cpu, false)] *)
Definition set_cpu_offline (cpu : nat) (w : world) : world :=
  set_cpu_online_mask (cpumask_clear_cpu cpu (cpu_online_mask w)) w.

(** [for (i = 0; i < n; i++) body] *)
Definition for_upto (n : Z) (body : Z -> world -> world) (w : world)
    : world :=
  fold_left (fun w' i => body i w') (seqZ 0 n) w.

(** *** Receiving *)

Definition ipi_stop (w : world) : result :=
  Parked (set_cpu_offline (smp_processor_id p) w).

Definition ipi_cpu_crash_stop (cpu : nat) (w : world) : result :=
  if CONFIG_KEXEC_CORE p then
    let w1 := log (ev_crash_save_cpu cpu) w in
    let w2 :=
      set_waiting_for_crash_ipi (to_int (waiting_for_crash_ipi w1 - 1)) w1 in
    let w3 := log ev_local_irq_disable_full w2 in
    let w4 :=
      if CONFIG_HOTPLUG_CPU p && cpu_has_hotplug p cpu
      then log (ev_cpu_stop cpu) w3 else w3 in
    Parked w4
  else Fault.

Definition __handle_IPI (irq : Z) (w : world) : result :=
  let ipi := to_int (irq - ipi_virq_base w) in
  match ipi_of_nr ipi with
  | Some IPI_RESCHEDULE => Ret (log ev_scheduler_ipi w)
  | Some IPI_CALL_FUNC => Ret (log ev_generic_smp_call_function_interrupt w)
  | Some IPI_CPU_STOP => ipi_stop w
  | Some IPI_CPU_CRASH_STOP => ipi_cpu_crash_stop (smp_processor_id p) w
  | Some IPI_IRQ_WORK => Ret (log ev_irq_work_run w)
  | Some IPI_TIMER =>
      if CONFIG_GENERIC_CLOCKEVENTS_BROADCAST p
      then Ret (log ev_tick_receive_broadcast w)
      else Ret (log (ev_unhandled_IPI (smp_processor_id p) ipi) w)
  | None => Ret (log (ev_unhandled_IPI (smp_processor_id p) ipi) w)
  end.

(** [clear_bit(nr, pmsg)] on this CPU's [ipi_messages] word; a bit number
    past the word addresses memory outside the variable. *)
Definition clear_bit_this_cpu (nr : Z) (w : world) : result :=
  if nr <? BITS_PER_LONG then
    let cpu := smp_processor_id p in
    Ret (set_ipi_messages
           (<[cpu := Z.clearbit (ipi_messages w cpu) nr]> (ipi_messages w)) w)
  else Fault.

(** [__this_cpu_inc(ipi_counts[nr])], an [unsigned int] counter. *)
Definition this_cpu_inc_ipi_counts (nr : Z) (w : world) : result :=
  if nr <? IPI_MAX then
    let cpu := smp_processor_id p in
    Ret (set_ipi_counts
           (<[cpu := alter (fun c => to_uint (c + 1)) (Z.to_nat nr)
                       (ipi_counts w cpu)]> (ipi_counts w)) w)
  else Fault.

(** The drain loop of the pipelined [handle_IPI]; [None] when [fuel]
    iterations were not enough. *)
Fixpoint handle_IPI_loop (fuel : nat) (w : world) : option result :=
  if ipi_messages w (smp_processor_id p) =? 0 then Some (Ret w)
  else
    match fuel with
    | O => None
    | S fuel' =>
        let ipinr := to_uint (ffs (ipi_messages w (smp_processor_id p)) - 1) in
        match clear_bit_this_cpu ipinr w
              >>= this_cpu_inc_ipi_counts ipinr
              >>= __handle_IPI (to_int ipinr) with
        | Ret w' => handle_IPI_loop fuel' w'
        | r => Some r
        end
    end.

(** Each iteration that continues clears one of the [IPI_MAX] counted
    bits, so [IPI_MAX] iterations and a last test always suffice. *)
Definition handle_IPI_fuel : nat := 7.

Definition handle_IPI (irq : Z) (w : world) : option result :=
  if CONFIG_IRQ_PIPELINE p then handle_IPI_loop handle_IPI_fuel w
  else Some (__handle_IPI irq w).

(** *** Sending *)

(** [__ipi_send_mask(ipi_desc[op], mask)]; [wmb()] before it orders
    stores between CPUs and has no effect on this sequential model. *)
Definition __send_ipi_mask (mask : Z) (op : Z) (w : world) : result :=
  if (0 <=? op) && (op <? IPI_MAX) then
    Ret (log (ev_ipi_send_mask (default None (ipi_desc w !! Z.to_nat op))
                               mask) w)
  else Fault.

Definition __send_ipi_single (cpu : nat) (op : Z) (w : world) : result :=
  __send_ipi_mask (cpumask_of cpu) op w.

(** [set_bit(op, &per_cpu(ipi_messages, cpu))] *)
Definition set_bit_ipi_messages (op : ipi_message_type) (cpu : nat)
    (w : world) : world :=
  set_ipi_messages
    (<[cpu := Z.setbit (ipi_messages w cpu) (ipi_nr op)]> (ipi_messages w)) w.

Definition send_ipi_mask (mask : Z) (op : ipi_message_type) (w : world)
    : result :=
  if CONFIG_IRQ_PIPELINE p then
    __send_ipi_mask mask 0 (for_each_cpu mask (set_bit_ipi_messages op) w)
  else __send_ipi_mask mask (ipi_nr op) w.

Definition send_ipi_single (cpu : nat) (op : ipi_message_type) (w : world)
    : result :=
  if CONFIG_IRQ_PIPELINE p then
    __send_ipi_single cpu 0 (set_bit_ipi_messages op cpu w)
  else __send_ipi_single cpu (ipi_nr op) w.

Definition irq_send_oob_ipi (irq : Z) (cpumask : Z) (w : world) : result :=
  let op := to_uint (irq - ipi_virq_base w) in
  if irq_pipeline_debug p
     && ((op <? OOB_IPI_OFFSET) || (OOB_IPI_OFFSET + OOB_NR_IPI <=? op))
  then Ret (log (ev_WARN WARN_oob_ipi_range) w)
  else __send_ipi_mask cpumask op w.

Definition arch_send_call_function_ipi_mask (mask : Z) (w : world)
    : result :=
  send_ipi_mask mask IPI_CALL_FUNC w.

Definition arch_smp_send_reschedule (cpu : nat) (w : world) : result :=
  send_ipi_single cpu IPI_RESCHEDULE w.

(** *** Registration *)

Definition riscv_ipi_enable (w : world) : world :=
  if ipi_virq_base w =? 0 then
    if ipi_enable_warned w then w
    else log (ev_WARN WARN_ONCE_no_virq_base) (set_ipi_enable_warned true w)
  else
    for_upto (nr_ipi w)
      (fun i w' => log (ev_enable_percpu_irq (ipi_virq_base w' + i)) w') w.

Definition riscv_ipi_have_virq_range (w : world) : bool :=
  negb (ipi_virq_base w =? 0).

Definition irqs_pipelined : bool := CONFIG_IRQ_PIPELINE p.

(** The body of the request loop of [riscv_ipi_set_virq_range]. *)
Definition request_ipi (inband_nr_ipi : Z) (i : Z) (w : world) : world :=
  let w1 :=
    if i <? inband_nr_ipi then
      let w' := log (ev_request_percpu_irq (ipi_virq_base w + i)) w in
      if request_percpu_irq p (ipi_virq_base w + i) =? 0 then w'
      else log (ev_WARN WARN_request_err) w'
    else w in
  let w2 :=
    set_ipi_desc (<[Z.to_nat i := irq_to_desc p (ipi_virq_base w1 + i)]>
                    (ipi_desc w1)) w1 in
  log (ev_irq_set_status_flags_hidden (ipi_virq_base w2 + i)) w2.

Definition riscv_ipi_set_virq_range (virq nr : Z) (use_for_rfence : bool)
    (w : world) : world :=
  if negb (ipi_virq_base w =? 0) then log (ev_WARN WARN_virq_base_set) w
  else
    let w1 := if nr <? IPI_MAX then log (ev_WARN WARN_nr_below_IPI_MAX) w
              else w in
    let w2 := set_nr_ipi (Z.min nr IPI_MAX) w1 in
    let w3 := set_ipi_virq_base virq w2 in
    let inband_nr_ipi := if irqs_pipelined then 1 else nr_ipi w3 in
    let w4 := for_upto (nr_ipi w3) (request_ipi inband_nr_ipi) w3 in
    let w5 := riscv_ipi_enable w4 in
    set_riscv_ipi_for_rfence use_for_rfence w5.

(** *** Stopping the other CPUs *)

(** [udelay(1)]: one microsecond passes, during which the other CPUs act
    on the online mask and on the crash-stop countdown. *)
Definition udelay_1 (w : world) : world :=
  let '(online, countdown) :=
    remote_cpus p (now_us w) (cpu_online_mask w, waiting_for_crash_ipi w) in
  set_now_us (now_us w + 1)
    (set_waiting_for_crash_ipi countdown (set_cpu_online_mask online w)).

(** [while (cond && timeout--) udelay(1);] *)
Fixpoint busy_wait (cond : world -> bool) (timeout : nat) (w : world)
    : world :=
  if cond w then
    match timeout with
    | O => w
    | S timeout' => busy_wait cond timeout' (udelay_1 w)
    end
  else w.

Definition smp_send_stop (w : world) : result :=
  (if 1 <? num_online_cpus w then
     let mask := cpumask_clear_cpu (smp_processor_id p) (cpu_online_mask w) in
     let w1 := if system_state p <=? SYSTEM_RUNNING
               then log ev_pr_crit_stopping w else w in
     send_ipi_mask mask IPI_CPU_STOP w1
   else Ret w)
  >>= fun w2 =>
  let w3 := busy_wait (fun w' => 1 <? num_online_cpus w')
                      (Z.to_nat USEC_PER_SEC) w2 in
  if 1 <? num_online_cpus w3
  then Ret (log (ev_pr_warn_failed_to_stop (cpu_online_mask w3)) w3)
  else Ret w3.

Definition num_other_online_cpus (w : world) : Z :=
  to_uint (num_online_cpus w - Z.b2z (cpu_online (smp_processor_id p) w)).

Definition crash_smp_send_stop (w : world) : result :=
  if negb (cpus_stopped w =? 0) then Ret w
  else
    let w1 := set_cpus_stopped 1 w in
    if num_other_online_cpus w1 =? 0 then Ret w1
    else
      let mask :=
        cpumask_clear_cpu (smp_processor_id p) (cpu_online_mask w1) in
      let w2 :=
        set_waiting_for_crash_ipi (to_int (num_other_online_cpus w1)) w1 in
      let w3 := log ev_pr_crit_stopping w2 in
      send_ipi_mask mask IPI_CPU_CRASH_STOP w3 >>= fun w4 =>
      let w5 := busy_wait (fun w' => 0 <? waiting_for_crash_ipi w')
                          (Z.to_nat USEC_PER_SEC) w4 in
      if 0 <? waiting_for_crash_ipi w5
      then Ret (log (ev_pr_warn_failed_to_stop mask) w5)
      else Ret w5.

Definition smp_crash_stop_failed (w : world) : bool :=
  0 <? waiting_for_crash_ipi w.

End Operations.

(** The events a run appended to the trace. *)
Definition events_since (w w' : world) : list event :=
  drop (length (trace w)) (trace w').

Definition is_ipi_send (e : event) : bool :=
  match e with
  | ev_ipi_send_mask _ _ => true
  | _ => false
  end.

(** What every state of the request loop keeps, and how far the
    descriptor table is filled after [i] iterations. *)
Definition request_inv (p : platform) (virq nr : Z) (w0 : world) (i : Z)
    (w : world) : Prop :=
  ipi_virq_base w = virq
  /\ nr_ipi w = nr
  /\ ipi_enable_warned w = ipi_enable_warned w0
  /\ length (ipi_desc w) = length (ipi_desc w0)
  /\ (forall j : nat, Z.of_nat j < i -> (j < length (ipi_desc w0))%nat ->
        ipi_desc w !! j = Some (irq_to_desc p (virq + Z.of_nat j)))
  /\ (forall j : nat, i <= Z.of_nat j -> ipi_desc w !! j = ipi_desc w0 !! j)
  /\ exists evs, trace w = trace w0 ++ evs.

(** Two states that differ at most in the pending-IPI words. *)
Definition same_but_messages (w w' : world) : Prop :=
  ipi_virq_base w' = ipi_virq_base w
  /\ nr_ipi w' = nr_ipi w
  /\ ipi_desc w' = ipi_desc w
  /\ ipi_counts w' = ipi_counts w
  /\ cpu_online_mask w' = cpu_online_mask w
  /\ waiting_for_crash_ipi w' = waiting_for_crash_ipi w
  /\ cpus_stopped w' = cpus_stopped w
  /\ now_us w' = now_us w
  /\ trace w' = trace w.

(** Two states that differ at most in what the other CPUs and the clock
    change: the online mask, the countdown and the elapsed time. *)
Definition same_but_remote (w w' : world) : Prop :=
  ipi_virq_base w' = ipi_virq_base w
  /\ nr_ipi w' = nr_ipi w
  /\ ipi_desc w' = ipi_desc w
  /\ ipi_messages w' = ipi_messages w
  /\ ipi_counts w' = ipi_counts w
  /\ cpus_stopped w' = cpus_stopped w
  /\ trace w' = trace w.

(** *** The remaining entry points *)

Section MoreOperations.

Variable p : platform.

(** Only built with [CONFIG_IRQ_WORK]. *)
Definition arch_irq_work_raise (w : world) : result :=
  send_ipi_single p (smp_processor_id p) IPI_IRQ_WORK w.

Definition arch_send_call_function_single_ipi (cpu : nat) (w : world)
    : result :=
  send_ipi_single p cpu IPI_CALL_FUNC w.

(** Only built with [CONFIG_GENERIC_CLOCKEVENTS_BROADCAST]. *)
Definition tick_broadcast (mask : Z) (w : world) : result :=
  send_ipi_mask p mask IPI_TIMER w.

End MoreOperations.

(** The reasons pending in a word, lowest first. *)
Definition pending_reasons (m : Z) : list Z :=
  filter (fun r => Z.testbit m r = true) (seqZ 0 IPI_MAX).

(** The call [__handle_IPI(irq)] makes when it returns, for the base the
    range is registered at; [None] for the two reasons that stop the CPU. *)
Definition __handle_IPI_event (p : platform) (base irq : Z) : option event :=
  match ipi_of_nr (to_int (irq - base)) with
  | Some IPI_RESCHEDULE => Some ev_scheduler_ipi
  | Some IPI_CALL_FUNC => Some ev_generic_smp_call_function_interrupt
  | Some IPI_CPU_STOP => None
  | Some IPI_CPU_CRASH_STOP => None
  | Some IPI_IRQ_WORK => Some ev_irq_work_run
  | Some IPI_TIMER =>
      if CONFIG_GENERIC_CLOCKEVENTS_BROADCAST p
      then Some ev_tick_receive_broadcast
      else Some (ev_unhandled_IPI (smp_processor_id p) (to_int (irq - base)))
  | None => Some (ev_unhandled_IPI (smp_processor_id p) (to_int (irq - base)))
  end.

(** The calls the request loop of [riscv_ipi_set_virq_range] makes for
    line [virq + i]. *)
Definition request_events (p : platform) (virq inband_nr_ipi i : Z)
    : list event :=
  (if i <? inband_nr_ipi then
     ev_request_percpu_irq (virq + i)
     :: (if request_percpu_irq p (virq + i) =? 0 then []
         else [ev_WARN WARN_request_err])
   else [])
  ++ [ev_irq_set_status_flags_hidden (virq + i)].

(** A state with more events in its trace. *)
Definition with_events (evs : list event) (w : world) : world :=
  mkWorld (ipi_virq_base w) (nr_ipi w) (ipi_desc w) (ipi_messages w)
    (ipi_counts w) (cpu_online_mask w) (waiting_for_crash_ipi w)
    (cpus_stopped w) (riscv_ipi_for_rfence w) (ipi_enable_warned w)
    (now_us w) (trace w ++ evs).

Definition is_request (e : event) : bool :=
  match e with
  | ev_request_percpu_irq _ => true
  | _ => false
  end.

Definition is_enable (e : event) : bool :=
  match e with
  | ev_enable_percpu_irq _ => true
  | _ => false
  end.

End Smp.


(* ===================================================================== *)
(** ** Sample configurations and states                                   *)
(* ===================================================================== *)

Module Sample.

(** Two register frames at addresses 0 and 1, told apart by their values. *)
Definition frames : IrqPipelineH.mem :=
  fun q f => if bool_decide (q = 0%nat) then 7 else 100.

(** The idle task of a tree-RCU build, interrupted with frame 5 active and
    its tick frame at address 9; the handler leaves frame 6 behind. *)
Definition dispatcher_platform : IrqPipeline.platform :=
  {| IrqPipeline.CONFIG_TINY_RCU := false;
     IrqPipeline.handle_irq_desc_regs := fun _ _ => 6%nat |}.

Definition idle_cpu : IrqPipeline.cpu :=
  IrqPipeline.mkCpu true 0 5%nat 9%nat [].

(** The idle task interrupted while the tracker is already watching, as
    when an interrupt arrives during the handling of another one that was
    taken in the idle task. *)
Definition watching_idle_cpu : IrqPipeline.cpu :=
  IrqPipeline.mkCpu true 1 5%nat 9%nat [].

(** A hart table of four logical CPUs: the boot CPU on hart 3, CPU 1 on
    hart 5, CPU 2 unassigned, CPU 3 on hart 5 again. *)
Definition hart_table : list Z := [3; 5; Smp.INVALID_HARTID; 5].

(** Four CPUs, the code running on CPU 0 of a system that is up; every
    line has a descriptor, requests succeed, and the other CPUs leave the
    online mask and acknowledge the crash stop during the third
    microsecond of a wait. *)
Definition smp_platform (pipelined debug : bool) : Smp.platform :=
  {| Smp.CONFIG_IRQ_PIPELINE := pipelined;
     Smp.irq_pipeline_debug := debug;
     Smp.CONFIG_KEXEC_CORE := true;
     Smp.CONFIG_HOTPLUG_CPU := false;
     Smp.CONFIG_GENERIC_CLOCKEVENTS_BROADCAST := true;
     Smp.NR_CPUS := 4;
     Smp.smp_processor_id := 0;
     Smp.system_state := Smp.SYSTEM_RUNNING;
     Smp.cpu_has_hotplug := fun _ => false;
     Smp.irq_to_desc := fun irq => Some irq;
     Smp.request_percpu_irq := fun _ => 0;
     Smp.remote_cpus := fun t s => if t <? 2 then s else (Z.land (fst s) 1, 0)
  |}.

(** The state at boot, before any registration, with the CPUs of
    [online] up. *)
Definition boot_world (online : Z) : Smp.world :=
  Smp.mkWorld 0 Smp.IPI_MAX (replicate 6 None) (fun _ => 0)
    (fun _ => replicate 6 0) online 0 0 false false 0 [].

(** The state after the IPI range was registered at line 8 with eight
    lines, all four CPUs online. *)
Definition registered_world (pipelined : bool) : Smp.world :=
  Smp.riscv_ipi_set_virq_range (smp_platform pipelined false) 8 8 false
    (boot_world 15).

(** The same with the rescheduling bit pending on CPU 0. *)
Definition resched_pending_world : Smp.world :=
  Smp.set_ipi_messages (fun c => if bool_decide (c = 0%nat) then 1 else 0)
    (registered_world true).

(** The four-CPU platform with other CPUs that never react, and with
    other CPUs that are all gone and have acknowledged after a
    microsecond. *)
Definition deaf_platform (pipelined : bool) : Smp.platform :=
  {| Smp.CONFIG_IRQ_PIPELINE := pipelined;
     Smp.irq_pipeline_debug := false;
     Smp.CONFIG_KEXEC_CORE := true;
     Smp.CONFIG_HOTPLUG_CPU := false;
     Smp.CONFIG_GENERIC_CLOCKEVENTS_BROADCAST := true;
     Smp.NR_CPUS := 4;
     Smp.smp_processor_id := 0;
     Smp.system_state := Smp.SYSTEM_RUNNING;
     Smp.cpu_has_hotplug := fun _ => false;
     Smp.irq_to_desc := fun irq => Some irq;
     Smp.request_percpu_irq := fun _ => 0;
     Smp.remote_cpus := fun _ s => s
  |}.

Definition prompt_platform (pipelined : bool) : Smp.platform :=
  {| Smp.CONFIG_IRQ_PIPELINE := pipelined;
     Smp.irq_pipeline_debug := false;
     Smp.CONFIG_KEXEC_CORE := true;
     Smp.CONFIG_HOTPLUG_CPU := false;
     Smp.CONFIG_GENERIC_CLOCKEVENTS_BROADCAST := true;
     Smp.NR_CPUS := 4;
     Smp.smp_processor_id := 0;
     Smp.system_state := Smp.SYSTEM_RUNNING;
     Smp.cpu_has_hotplug := fun _ => false;
     Smp.irq_to_desc := fun irq => Some irq;
     Smp.request_percpu_irq := fun _ => 0;
     Smp.remote_cpus := fun _ s => (Z.land (fst s) 1, 0)
  |}.

(** The registered state with the rescheduling and IRQ-work bits pending
    on CPU 0. *)
Definition two_pending_world : Smp.world :=
  Smp.set_ipi_messages (fun c => if bool_decide (c = 0%nat) then 17 else 0)
    (registered_world true).

(** The state the pipelined handler leaves when it returns from
    [two_pending_world]. *)
Definition two_pending_handled : Smp.world :=
  match Smp.handle_IPI (smp_platform true false) 8 two_pending_world with
  | Some (Smp.Ret w') => w'
  | _ => two_pending_world
  end.

End Sample.


(** Unfold the field updates and reduce the projections applied to them. *)
Ltac smp_fields :=
  unfold Smp.log, Smp.set_ipi_virq_base, Smp.set_nr_ipi, Smp.set_ipi_desc,
    Smp.set_ipi_messages, Smp.set_ipi_counts, Smp.set_cpu_online_mask,
    Smp.set_waiting_for_crash_ipi, Smp.set_cpus_stopped,
    Smp.set_riscv_ipi_for_rfence, Smp.set_ipi_enable_warned,
    Smp.set_now_us in *;
  cbn beta iota zeta delta
      [Smp.ipi_virq_base Smp.nr_ipi Smp.ipi_desc Smp.ipi_messages
       Smp.ipi_counts Smp.cpu_online_mask Smp.waiting_for_crash_ipi
       Smp.cpus_stopped Smp.riscv_ipi_for_rfence Smp.ipi_enable_warned
       Smp.now_us Smp.trace] in *.


(* ===================================================================== *)
(** ** Facts about asm/irq_pipeline.h                                     *)
(* ===================================================================== *)

Section VirtualFlagFacts.

Import IrqPipelineH.

Variable m_mode : bool.

(** The native encoding of a virtual flag decodes to the same flag. *)
Lemma flags_roundtrip (stalled : bool) :
  arch_irqs_disabled_flags m_mode
    (arch_irqs_virtual_to_native_flags m_mode (Z.b2z stalled))
  = Z.b2z stalled.
Proof. by destruct m_mode, stalled. Qed.

(** Restoring looks only at the captured flags, never at the flag the
    intervening calls left behind. *)
Lemma restore_ignores_current (flags : Z) (st st' : cpu_state) :
  arch_local_irq_restore m_mode flags st
  = arch_local_irq_restore m_mode flags st'.
Proof. reflexivity. Qed.

Lemma save_then_restore (st st' : cpu_state) :
  inband_stalled
    (arch_local_irq_restore m_mode (fst (arch_local_irq_save m_mode st)) st')
  = inband_stalled st.
Proof.
  unfold arch_local_irq_restore, arch_local_irq_save, inband_irq_save,
    inband_irq_restore; cbn [fst inband_stalled].
  rewrite flags_roundtrip. by destruct (inband_stalled st).
Qed.

(** C5: whatever enable, disable and nested save/restore calls run in
    between, restoring the flags captured by [arch_local_irq_save] puts the
    virtual stall flag back to its value at capture; the encoding
    round-trips for both flag values; a save/.../restore block as a whole
    leaves the flag as it found it, at any nesting depth. *)
Theorem irq_save_restore_roundtrip (st : cpu_state) (ops : list irq_op) :
  inband_stalled
    (arch_local_irq_restore m_mode
       (fst (arch_local_irq_save m_mode st))
       (run_ops m_mode ops (snd (arch_local_irq_save m_mode st))))
  = inband_stalled st
  /\ (forall stalled : bool,
        arch_irqs_disabled_flags m_mode
          (arch_irqs_virtual_to_native_flags m_mode (Z.b2z stalled))
        = Z.b2z stalled)
  /\ inband_stalled (run_op m_mode (op_save_restore ops) st)
     = inband_stalled st.
Proof.
  split; [apply save_then_restore|].
  split; [apply flags_roundtrip|].
  cbn [run_op].
  destruct (arch_local_irq_save m_mode st) as [flags st1] eqn:E.
  replace flags with (fst (arch_local_irq_save m_mode st)) by (by rewrite E).
  apply save_then_restore.
Qed.

End VirtualFlagFacts.

Section TimerRegsFacts.

Import IrqPipelineH.

Variables dst src : ptr.

(** The memory after assigning the fields of [l] in turn. *)
Lemma assign_fields (l : list reg) (m : mem) :
  let m' := fold_left (fun m0 f => assign f dst src m0) l m in
  (forall q, q <> dst -> m' q = m q)
  /\ (forall f, m' dst f = if bool_decide (f ∈ l) then m src f else m dst f).
Proof.
  revert m. induction l as [|f0 l IH]; intros m; cbn [fold_left].
  - split; [done|]. intros f. rewrite bool_decide_eq_false_2; [done|].
    apply not_elem_of_nil.
  - destruct (IH (assign f0 dst src m)) as [Hframe Hdst].
    assert (Hsrc : forall f, assign f0 dst src m src f = m src f).
    { intros f. unfold assign. destruct (decide (dst = src)) as [->|Hne].
      - rewrite fn_lookup_insert. destruct (decide (f0 = f)) as [->|Hf].
        + by rewrite fn_lookup_insert.
        + by rewrite fn_lookup_insert_ne.
      - by rewrite fn_lookup_insert_ne. }
    split.
    + intros q Hq. rewrite Hframe by done. unfold assign.
      by rewrite fn_lookup_insert_ne.
    + intros f. rewrite Hdst, Hsrc. unfold assign.
      rewrite fn_lookup_insert.
      destruct (decide (f = f0)) as [->|Hf].
      * rewrite fn_lookup_insert.
        rewrite (bool_decide_eq_true_2 (f0 ∈ f0 :: l)) by apply list_elem_of_here.
        by destruct (bool_decide (f0 ∈ l)).
      * rewrite fn_lookup_insert_ne by done.
        destruct (decide (f ∈ l)) as [Hin|Hin].
        -- rewrite !bool_decide_eq_true_2; [done| |done].
           by apply list_elem_of_further.
        -- rewrite !bool_decide_eq_false_2; [done| |done].
           intros [?|?]%elem_of_cons; done.
Qed.

(** C10: [arch_save_timer_regs] copies every field but [t6] from [src] to
    [dst], leaves [dst->t6] as it was, leaves [src] unchanged (also when
    both name the same frame), and touches no other frame. *)
Theorem arch_save_timer_regs_frame (m : mem) :
  (forall f, f <> t6 ->
     arch_save_timer_regs dst src m dst f = m src f)
  /\ arch_save_timer_regs dst src m dst t6 = m dst t6
  /\ (forall f, arch_save_timer_regs dst src m src f = m src f)
  /\ (forall q, q <> dst -> arch_save_timer_regs dst src m q = m q).
Proof.
  destruct (assign_fields timer_saved_fields m) as [Hframe Hdst].
  fold (arch_save_timer_regs dst src m) in Hframe, Hdst.
  assert (Hcopied : forall f, f <> t6 ->
            arch_save_timer_regs dst src m dst f = m src f).
  { intros f Hf. rewrite Hdst. destruct f; try done; by vm_compute. }
  assert (Hkept : arch_save_timer_regs dst src m dst t6 = m dst t6).
  { rewrite Hdst. by vm_compute. }
  repeat split; try done.
  intros f. destruct (decide (src = dst)) as [->|Hne].
  - destruct (decide (f = t6)) as [->|Hf]; [done|by apply Hcopied].
  - by rewrite Hframe.
Qed.

End TimerRegsFacts.

(** The frame at address 0 receives [epc] from the frame at address 1 and
    keeps its own [t6]. *)
Lemma arch_save_timer_regs_frame_witness :
  IrqPipelineH.arch_save_timer_regs 0 1 Sample.frames 0%nat IrqPipelineH.epc
  = 100
  /\ IrqPipelineH.arch_save_timer_regs 0 1 Sample.frames 0%nat IrqPipelineH.t6
     = 7.
Proof.
  split.
  - apply (proj1 (arch_save_timer_regs_frame 0 1 Sample.frames)).
    discriminate.
  - apply (proj1 (proj2 (arch_save_timer_regs_frame 0 1 Sample.frames))).
Defined.


(* ===================================================================== *)
(** ** Facts about the stage-entry dispatcher                             *)
(* ===================================================================== *)

Section DispatcherFacts.

Import IrqPipeline.

Variable p : platform.

Lemma events_since_app (w w' : cpu) (evs : list event) :
  trace w' = trace w ++ evs -> events_since w w' = evs.
Proof.
  intros H. unfold events_since. rewrite H. by rewrite drop_app_length.
Qed.

(** C6, as the code has it: the dispatcher performs the "start watching"
    transition exactly when [pipeline_enter_rcu] sets [exit_rcu], which
    is exactly when the idle task was interrupted on a build without
    [CONFIG_TINY_RCU], whatever the state of the tracker, and only the
    tick check otherwise; a start is matched by exactly one stop, after
    the handler, so that the tracker is left at the depth it was found
    at; the descriptor handler runs with the tick frame installed, and the
    previous frame pointer is back in place on return, whatever the
    handler left there. *)
Theorem arch_do_IRQ_pipelined_balanced (desc : irq_desc) (w : cpu) :
  let w' := arch_do_IRQ_pipelined p desc w in
  let started := exit_rcu (fst (pipeline_enter_rcu p w)) in
  started = negb (CONFIG_TINY_RCU p) && current_is_idle w
  /\ trace w' =
       trace w
       ++ [if started then ev_ct_irq_enter else ev_rcu_irq_enter_check_tick;
           ev_handle_irq_desc desc (tick_regs w)]
       ++ (if started then [ev_ct_irq_exit] else [])
  /\ count_occ event_eq_dec (events_since w w') ev_ct_irq_enter
     = (if started then 1 else 0)%nat
  /\ count_occ event_eq_dec (events_since w w') ev_ct_irq_exit
     = (if started then 1 else 0)%nat
  /\ count_occ event_eq_dec (events_since w w') ev_rcu_irq_enter_check_tick
     = (if started then 0 else 1)%nat
  /\ watch_depth w' = watch_depth w
  /\ irq_regs w' = irq_regs w.
Proof.
  intros w' started.
  assert (Hstarted : started = negb (CONFIG_TINY_RCU p) && current_is_idle w).
  { subst started. unfold pipeline_enter_rcu.
    by destruct (negb (CONFIG_TINY_RCU p) && current_is_idle w). }
  assert (Htrace : trace w' =
    trace w
    ++ [if started then ev_ct_irq_enter else ev_rcu_irq_enter_check_tick;
        ev_handle_irq_desc desc (tick_regs w)]
    ++ (if started then [ev_ct_irq_exit] else [])).
  { rewrite Hstarted. subst w'.
    unfold arch_do_IRQ_pipelined, pipeline_enter_rcu.
    destruct (negb (CONFIG_TINY_RCU p) && current_is_idle w);
      cbn; by rewrite <- ?app_assoc. }
  split; [exact Hstarted|]. split; [exact Htrace|].
  rewrite (events_since_app _ _ _ Htrace).
  repeat split.
  - by destruct started.
  - by destruct started.
  - by destruct started.
  - subst w'. unfold arch_do_IRQ_pipelined, pipeline_enter_rcu,
      pipeline_exit_rcu.
    by destruct (negb (CONFIG_TINY_RCU p) && current_is_idle w).
  - subst w'. unfold arch_do_IRQ_pipelined, pipeline_enter_rcu,
      pipeline_exit_rcu.
    by destruct (negb (CONFIG_TINY_RCU p) && current_is_idle w).
Qed.

End DispatcherFacts.

(** C6, as the specification states it, fails: the idle task interrupted
    while the tracker is already watching is not "idle with the tracker
    stopped", and the dispatcher still makes the start transition, once,
    with its matching stop. *)
Lemma arch_do_IRQ_pipelined_starts_while_watching :
  IrqPipeline.CONFIG_TINY_RCU Sample.dispatcher_platform = false
  /\ IrqPipeline.current_is_idle Sample.watching_idle_cpu = true
  /\ IrqPipeline.tracker_stopped Sample.watching_idle_cpu = false
  /\ IrqPipeline.idle_tracker_stopped Sample.watching_idle_cpu = false
  /\ IrqPipeline.events_since Sample.watching_idle_cpu
       (IrqPipeline.arch_do_IRQ_pipelined Sample.dispatcher_platform 3
          Sample.watching_idle_cpu)
     = [IrqPipeline.ev_ct_irq_enter;
        IrqPipeline.ev_handle_irq_desc 3 9%nat;
        IrqPipeline.ev_ct_irq_exit].
Proof. repeat split. Qed.


(* ===================================================================== *)
(** ** Facts about the hart table lookup                                  *)
(* ===================================================================== *)

Section HartidFacts.

Import Smp.

Variables (map : list Z) (hartid : Z).

(** The loop entered at [i] with [n] iterations left returns the first
    matching index of [i, i+n), or [-ENOENT] when there is none. *)
Lemma riscv_hartid_to_cpuid_from_spec (n i : nat) :
  (exists k : nat,
      (i <= k < i + n)%nat
      /\ map !! k = Some hartid
      /\ (forall j : nat, (i <= j < k)%nat -> map !! j <> Some hartid)
      /\ riscv_hartid_to_cpuid_from map hartid n i = Z.of_nat k)
  \/ ((forall j : nat, (i <= j < i + n)%nat -> map !! j <> Some hartid)
      /\ riscv_hartid_to_cpuid_from map hartid n i = - ENOENT).
Proof.
  revert i. induction n as [|n IH]; intros i; cbn [riscv_hartid_to_cpuid_from].
  - right. split; [intros j Hj; lia | done].
  - case_bool_decide as Hi.
    + left. exists i. repeat split; try done; try lia.
    + destruct (IH (S i)) as [(k & Hk & Hm & Hmin & Hr) | [Hnone Hr]].
      * left. exists k. repeat split; try done; try lia.
        intros j Hj. destruct (decide (j = i)) as [->|]; [done|].
        apply Hmin; lia.
      * right. split; [|done]. intros j Hj.
        destruct (decide (j = i)) as [->|]; [done|]. apply Hnone; lia.
Qed.

End HartidFacts.

(** C9: for every hart identifier, [riscv_hartid_to_cpuid] returns the
    smallest logical CPU index below [NR_CPUS] whose table entry equals
    it, and [-ENOENT], which is no index, when no entry does; on the
    initial table, every entry of which is [INVALID_HARTID], every other
    identifier is not found. *)
Theorem riscv_hartid_to_cpuid_least (NR_CPUS : nat) (map : list Z)
    (hartid : Z) :
  (forall k : nat,
      (k < NR_CPUS)%nat ->
      map !! k = Some hartid ->
      (forall j : nat, (j < k)%nat -> map !! j <> Some hartid) ->
      Smp.riscv_hartid_to_cpuid NR_CPUS map hartid = Z.of_nat k)
  /\ ((forall k : nat, (k < NR_CPUS)%nat -> map !! k <> Some hartid) ->
      Smp.riscv_hartid_to_cpuid NR_CPUS map hartid = - Smp.ENOENT)
  /\ (Smp.riscv_hartid_to_cpuid NR_CPUS map hartid < 0 ->
      Smp.riscv_hartid_to_cpuid NR_CPUS map hartid = - Smp.ENOENT
      /\ forall k : nat, (k < NR_CPUS)%nat -> map !! k <> Some hartid)
  /\ (hartid <> Smp.INVALID_HARTID ->
      Smp.riscv_hartid_to_cpuid NR_CPUS
        (Smp.cpuid_to_hartid_map_init NR_CPUS) hartid = - Smp.ENOENT).
Proof.
  unfold Smp.riscv_hartid_to_cpuid.
  assert (Hnone : forall m : list Z,
    (forall k : nat, (k < NR_CPUS)%nat -> m !! k <> Some hartid) ->
    Smp.riscv_hartid_to_cpuid_from m hartid NR_CPUS 0 = - Smp.ENOENT).
  { intros m Hm.
    destruct (riscv_hartid_to_cpuid_from_spec m hartid NR_CPUS 0)
      as [(k' & Hk' & Hm' & _ & _) | [_ Hr]]; [|done].
    exfalso. apply (Hm k'); [lia | done]. }
  split; [|split; [|split]].
  - intros k Hk Hmk Hmin.
    destruct (riscv_hartid_to_cpuid_from_spec map hartid NR_CPUS 0)
      as [(k' & Hk' & Hm' & Hmin' & Hr) | [Hno _]].
    + rewrite Hr. f_equal.
      destruct (Nat.lt_trichotomy k k') as [Hlt | [-> | Hgt]]; [|done|].
      * exfalso. apply (Hmin' k); [lia | done].
      * exfalso. by apply (Hmin k').
    + exfalso. apply (Hno k); [lia | done].
  - apply Hnone.
  - intros Hneg.
    destruct (riscv_hartid_to_cpuid_from_spec map hartid NR_CPUS 0)
      as [(k' & _ & _ & _ & Hr) | [Hno Hr]].
    + rewrite Hr in Hneg. lia.
    + split; [done|]. intros k Hk. apply Hno. lia.
  - intros Hne. apply Hnone. intros k Hk.
    unfold Smp.cpuid_to_hartid_map_init.
    rewrite lookup_replicate_2 by done. congruence.
Qed.

(** On the sample table, hart 5 is logical CPU 1, the first of the two
    entries that hold it, and hart 9 is not found. *)
Lemma riscv_hartid_to_cpuid_least_witness :
  Smp.riscv_hartid_to_cpuid 4 Sample.hart_table 5 = 1
  /\ Smp.riscv_hartid_to_cpuid 4 Sample.hart_table 9 = -2.
Proof.
  split.
  - apply (proj1 (riscv_hartid_to_cpuid_least 4 Sample.hart_table 5) 1%nat).
    + lia.
    + reflexivity.
    + intros j Hj. assert (j = 0%nat) as -> by lia. discriminate.
  - apply (proj1 (proj2 (riscv_hartid_to_cpuid_least 4 Sample.hart_table 9))).
    intros k Hk.
    destruct k as [|[|[|[|k]]]]; [discriminate..|lia].
Defined.


(* ===================================================================== *)
(** ** Facts about IPI registration and out-of-band sends                 *)
(* ===================================================================== *)

Section RegistrationFacts.

Import Smp.

Variable p : platform.

Lemma smp_events_since_app (w w' : world) (evs : list event) :
  trace w' = trace w ++ evs -> events_since w w' = evs.
Proof.
  intros H. unfold events_since. rewrite H. by rewrite drop_app_length.
Qed.

(** Induction over the iterations of a counted loop. *)
Lemma for_upto_ind (P : Z -> world -> Prop) (body : Z -> world -> world)
    (k : nat) (w : world) :
  P 0 w ->
  (forall i w', 0 <= i < Z.of_nat k -> P i w' -> P (i + 1) (body i w')) ->
  P (Z.of_nat k) (for_upto (Z.of_nat k) body w).
Proof.
  unfold for_upto. induction k as [|k IH]; intros H0 Hstep; [done|].
  rewrite seqZ_S, fold_left_app. cbn [fold_left].
  replace (Z.of_nat (S k)) with (Z.of_nat k + 1) by lia.
  rewrite Z.add_0_l. apply Hstep; [lia|].
  apply IH; [done|]. intros i w' Hi. apply Hstep. lia.
Qed.

Lemma for_upto_nonpos (body : Z -> world -> world) (n : Z) (w : world) :
  n <= 0 -> for_upto n body w = w.
Proof. intros Hn. unfold for_upto. by rewrite seqZ_nil. Qed.

Lemma request_ipi_inv (virq nr inband : Z) (w0 : world) (i : Z) (w : world) :
  0 <= i ->
  request_inv p virq nr w0 i w ->
  request_inv p virq nr w0 (i + 1) (request_ipi p inband i w).
Proof.
  intros Hi (Hb & Hn & Hw & Hlen & Hset & Hrest & evs & Htr).
  assert (Hfields : forall w1,
    w1 = (if i <? inband
          then let w' := log (ev_request_percpu_irq (ipi_virq_base w + i)) w in
               if request_percpu_irq p (ipi_virq_base w + i) =? 0 then w'
               else log (ev_WARN WARN_request_err) w'
          else w) ->
    ipi_virq_base w1 = virq /\ nr_ipi w1 = nr
    /\ ipi_enable_warned w1 = ipi_enable_warned w0
    /\ ipi_desc w1 = ipi_desc w
    /\ exists evs1, trace w1 = trace w0 ++ evs1).
  { intros w1 ->. destruct (i <? inband); cbn zeta;
      [destruct (request_percpu_irq p (ipi_virq_base w + i) =? 0)|];
      cbn; rewrite ?Htr, <- ?app_assoc; eauto 10. }
  unfold request_ipi.
  destruct (Hfields _ eq_refl) as (Hb1 & Hn1 & Hw1 & Hd1 & evs1 & Htr1).
  set (w1 := if i <? inband then _ else w) in *.
  unfold request_inv. smp_fields. rewrite Hd1, Hb1.
  repeat split; try done.
  - by rewrite length_insert.
  - intros j Hj Hjlen.
    destruct (decide (j = Z.to_nat i)) as [->|Hne].
    + rewrite list_lookup_insert_eq by lia. by rewrite Z2Nat.id.
    + rewrite list_lookup_insert_ne by done. apply Hset; lia.
  - intros j Hj. rewrite list_lookup_insert_ne by lia. apply Hrest. lia.
  - exists (evs1 ++ [ev_irq_set_status_flags_hidden (virq + i)]).
    by rewrite Htr1, <- app_assoc.
Qed.

Lemma riscv_ipi_enable_keeps (w : world) :
  ipi_virq_base w <> 0 ->
  ipi_virq_base (riscv_ipi_enable w) = ipi_virq_base w
  /\ nr_ipi (riscv_ipi_enable w) = nr_ipi w
  /\ ipi_desc (riscv_ipi_enable w) = ipi_desc w
  /\ exists evs, trace (riscv_ipi_enable w) = trace w ++ evs.
Proof.
  intros Hb. unfold riscv_ipi_enable.
  destruct (ipi_virq_base w =? 0) eqn:E; [lia|].
  destruct (Z_le_gt_dec (nr_ipi w) 0) as [Hle|Hgt].
  { rewrite for_upto_nonpos by done. repeat split. by exists []; rewrite app_nil_r. }
  set (body := fun i w' => log (ev_enable_percpu_irq (ipi_virq_base w' + i)) w').
  assert (Hk : forall k : nat,
    let w' := for_upto (Z.of_nat k) body w in
    ipi_virq_base w' = ipi_virq_base w /\ nr_ipi w' = nr_ipi w
    /\ ipi_desc w' = ipi_desc w /\ exists evs, trace w' = trace w ++ evs).
  { intros k.
    apply (for_upto_ind (fun _ w' =>
      ipi_virq_base w' = ipi_virq_base w /\ nr_ipi w' = nr_ipi w
      /\ ipi_desc w' = ipi_desc w /\ exists evs, trace w' = trace w ++ evs)).
    - repeat split. by exists []; rewrite app_nil_r.
    - intros i w' _ (? & ? & ? & evs & Htr). subst body. smp_fields.
      repeat split; try done. eexists. by rewrite Htr, <- app_assoc. }
  specialize (Hk (Z.to_nat (nr_ipi w))). by rewrite Z2Nat.id in Hk by lia.
Qed.

Lemma riscv_ipi_enable_unset (w : world) :
  ipi_virq_base w = 0 ->
  ipi_virq_base (riscv_ipi_enable w) = 0
  /\ nr_ipi (riscv_ipi_enable w) = nr_ipi w
  /\ ipi_desc (riscv_ipi_enable w) = ipi_desc w
  /\ exists evs, trace (riscv_ipi_enable w) = trace w ++ evs.
Proof.
  intros Hb. unfold riscv_ipi_enable. rewrite Hb. cbn.
  destruct (ipi_enable_warned w); cbn; repeat split; try done.
  - by exists []; rewrite app_nil_r.
  - by eexists.
Qed.

(** The first call of [riscv_ipi_set_virq_range]: what it establishes. *)
Lemma riscv_ipi_set_virq_range_first (virq nr : Z) (rf : bool) (w : world) :
  ipi_virq_base w = 0 ->
  let w' := riscv_ipi_set_virq_range p virq nr rf w in
  ipi_virq_base w' = virq
  /\ nr_ipi w' = Z.min nr IPI_MAX
  /\ length (ipi_desc w') = length (ipi_desc w)
  /\ (forall j : nat, Z.of_nat j < Z.min nr IPI_MAX ->
        (j < length (ipi_desc w))%nat ->
        ipi_desc w' !! j = Some (irq_to_desc p (virq + Z.of_nat j)))
  /\ (forall j : nat, Z.min nr IPI_MAX <= Z.of_nat j ->
        ipi_desc w' !! j = ipi_desc w !! j)
  /\ exists evs,
       trace w' =
         trace w
         ++ (if nr <? IPI_MAX then [ev_WARN WARN_nr_below_IPI_MAX] else [])
         ++ evs.
Proof.
  intros Hb w'. subst w'. unfold riscv_ipi_set_virq_range.
  rewrite Hb. cbn [Z.eqb negb].
  set (w1 := if nr <? IPI_MAX then _ else w).
  set (w3 := set_ipi_virq_base virq (set_nr_ipi (Z.min nr IPI_MAX) w1)).
  assert (H1 : ipi_desc w1 = ipi_desc w
               /\ trace w1 = trace w ++
                    (if nr <? IPI_MAX then [ev_WARN WARN_nr_below_IPI_MAX]
                     else [])).
  { subst w1. destruct (nr <? IPI_MAX); cbn; [done|by rewrite app_nil_r]. }
  destruct H1 as [Hd1 Ht1].
  set (n := Z.min nr IPI_MAX) in *.
  set (inband := if irqs_pipelined p then 1 else nr_ipi w3).
  assert (Hloop : request_inv p virq n w3 (Z.max 0 n)
                     (for_upto (nr_ipi w3) (request_ipi p inband) w3)).
  { change (nr_ipi w3) with n.
    destruct (Z_le_gt_dec n 0) as [Hle|Hgt].
    - rewrite for_upto_nonpos by done. rewrite Z.max_l by done.
      repeat split; try done; [intros j Hj; lia | by exists []; rewrite app_nil_r].
    - rewrite Z.max_r by lia.
      assert (Hk : forall k : nat,
        request_inv p virq n w3 (Z.of_nat k)
          (for_upto (Z.of_nat k) (request_ipi p inband) w3)).
      { intros k. apply (for_upto_ind (request_inv p virq n w3)).
        + repeat split; try done.
          * intros j Hj. lia.
          * by exists []; rewrite app_nil_r.
        + intros i w' Hi Hinv. apply request_ipi_inv; [lia|done]. }
      specialize (Hk (Z.to_nat n)). by rewrite Z2Nat.id in Hk by lia. }
  set (w4 := for_upto (nr_ipi w3) (request_ipi p inband) w3) in *.
  destruct Hloop as (Hb4 & Hn4 & _ & Hlen4 & Hset4 & Hrest4 & evs4 & Htr4).
  assert (Hen : ipi_virq_base (riscv_ipi_enable w4) = virq
                /\ nr_ipi (riscv_ipi_enable w4) = n
                /\ ipi_desc (riscv_ipi_enable w4) = ipi_desc w4
                /\ exists evs, trace (riscv_ipi_enable w4) = trace w4 ++ evs).
  { destruct (decide (virq = 0)) as [Hz|Hnz].
    - destruct (riscv_ipi_enable_unset w4) as (? & ? & ? & ?); [congruence|].
      repeat split; congruence.
    - destruct (riscv_ipi_enable_keeps w4) as (? & ? & ? & ?); [congruence|].
      repeat split; congruence. }
  destruct Hen as (Hb5 & Hn5 & Hd5 & evs5 & Htr5).
  cbn. rewrite Hd5.
  change (length (ipi_desc w3)) with (length (ipi_desc w1)) in *.
  change (ipi_desc w3) with (ipi_desc w1) in *.
  change (trace w3) with (trace w1) in *.
  rewrite Hd1 in *.
  repeat split; try done.
  - intros j Hj Hjl. apply Hset4; [lia|done].
  - intros j Hj. apply Hrest4. lia.
  - exists (evs4 ++ evs5). by rewrite Htr5, Htr4, Ht1, <- !app_assoc.
Qed.

End RegistrationFacts.

(** C3, as the code has it: registering fewer lines than there are IPI
    numbers is reported by a warning, the first thing the call does, and
    the call then goes on with the lines it was given: [ipi_virq_base]
    becomes [virq], [nr_ipi] becomes [nr], the first [nr] entries of the
    descriptor table are looked up from the lines [virq], [virq + 1], ...
    and the entries from [nr] on are left alone. *)
Theorem riscv_ipi_set_virq_range_short (p : Smp.platform) (virq nr : Z)
    (use_for_rfence : bool) (w : Smp.world)
    (Hfresh : Smp.ipi_virq_base w = 0) (Hnr : nr < Smp.IPI_MAX) :
  (exists evs,
      Smp.trace (Smp.riscv_ipi_set_virq_range p virq nr use_for_rfence w)
      = Smp.trace w ++ Smp.ev_WARN Smp.WARN_nr_below_IPI_MAX :: evs)
  /\ Smp.ipi_virq_base
       (Smp.riscv_ipi_set_virq_range p virq nr use_for_rfence w) = virq
  /\ Smp.nr_ipi (Smp.riscv_ipi_set_virq_range p virq nr use_for_rfence w)
     = nr
  /\ (forall j : nat,
        Z.of_nat j < nr -> (j < length (Smp.ipi_desc w))%nat ->
        Smp.ipi_desc (Smp.riscv_ipi_set_virq_range p virq nr use_for_rfence w)
          !! j
        = Some (Smp.irq_to_desc p (virq + Z.of_nat j)))
  /\ (forall j : nat,
        nr <= Z.of_nat j ->
        Smp.ipi_desc (Smp.riscv_ipi_set_virq_range p virq nr use_for_rfence w)
          !! j
        = Smp.ipi_desc w !! j).
Proof.
  destruct (riscv_ipi_set_virq_range_first p virq nr use_for_rfence w Hfresh)
    as (Hb & Hn & _ & Hset & Hrest & evs & Htr).
  rewrite Z.min_l in * by lia.
  apply Z.ltb_lt in Hnr as Hnr'. rewrite Hnr' in Htr.
  repeat split; try done.
  by exists evs.
Qed.

(** Three lines registered at line 8 on the boot state. *)
Lemma riscv_ipi_set_virq_range_short_witness :
  Smp.ipi_virq_base
    (Smp.riscv_ipi_set_virq_range (Sample.smp_platform true false) 8 3 false
       (Sample.boot_world 15)) = 8
  /\ Smp.nr_ipi
       (Smp.riscv_ipi_set_virq_range (Sample.smp_platform true false) 8 3
          false (Sample.boot_world 15)) = 3.
Proof.
  destruct (riscv_ipi_set_virq_range_short (Sample.smp_platform true false)
              8 3 false (Sample.boot_world 15) eq_refl eq_refl)
    as (_ & Hb & Hn & _).
  split; assumption.
Defined.

(** C3, as the specification states it, fails: with three lines registered on the
    boot state the call is no no-op; a line is requested, and
    [ipi_virq_base], [nr_ipi] and the descriptor table all change. *)
Lemma riscv_ipi_set_virq_range_short_not_noop :
  3 < Smp.IPI_MAX
  /\ Smp.ipi_virq_base (Sample.boot_world 15) = 0
  /\ In (Smp.ev_request_percpu_irq 8)
       (Smp.trace
          (Smp.riscv_ipi_set_virq_range (Sample.smp_platform true false)
             8 3 false (Sample.boot_world 15)))
  /\ Smp.ipi_virq_base
       (Smp.riscv_ipi_set_virq_range (Sample.smp_platform true false)
          8 3 false (Sample.boot_world 15))
     <> Smp.ipi_virq_base (Sample.boot_world 15)
  /\ Smp.nr_ipi
       (Smp.riscv_ipi_set_virq_range (Sample.smp_platform true false)
          8 3 false (Sample.boot_world 15))
     <> Smp.nr_ipi (Sample.boot_world 15)
  /\ Smp.ipi_desc
       (Smp.riscv_ipi_set_virq_range (Sample.smp_platform true false)
          8 3 false (Sample.boot_world 15))
     <> Smp.ipi_desc (Sample.boot_world 15).
Proof.
  repeat split; try done.
  vm_compute. tauto.
Qed.

(** C4: once a first call has set a nonzero [ipi_virq_base], any further
    call only warns: the state is the one the first call left, with
    [ipi_virq_base], [nr_ipi] and the descriptor table as the first call
    established them, and the warning is the only event: no line is
    requested or enabled again. *)
Theorem riscv_ipi_set_virq_range_once (p : Smp.platform)
    (virq nr : Z) (use_for_rfence : bool)
    (virq' nr' : Z) (use_for_rfence' : bool) (w : Smp.world)
    (Hfresh : Smp.ipi_virq_base w = 0) (Hvirq : virq <> 0) :
  let w1 := Smp.riscv_ipi_set_virq_range p virq nr use_for_rfence w in
  let w2 := Smp.riscv_ipi_set_virq_range p virq' nr' use_for_rfence' w1 in
  w2 = Smp.log (Smp.ev_WARN Smp.WARN_virq_base_set) w1
  /\ Smp.events_since w1 w2 = [Smp.ev_WARN Smp.WARN_virq_base_set]
  /\ Smp.ipi_virq_base w2 = virq
  /\ Smp.nr_ipi w2 = Z.min nr Smp.IPI_MAX
  /\ Smp.ipi_desc w2 = Smp.ipi_desc w1
  /\ Smp.riscv_ipi_for_rfence w2 = Smp.riscv_ipi_for_rfence w1.
Proof.
  intros w1 w2.
  destruct (riscv_ipi_set_virq_range_first p virq nr use_for_rfence w Hfresh)
    as (Hb & Hn & _).
  fold w1 in Hb, Hn.
  assert (Hw2 : w2 = Smp.log (Smp.ev_WARN Smp.WARN_virq_base_set) w1).
  { subst w2. unfold Smp.riscv_ipi_set_virq_range at 1. rewrite Hb.
    destruct (virq =? 0) eqn:E; [lia|done]. }
  split; [done|]. rewrite Hw2.
  split; [by apply smp_events_since_app|].
  done.
Qed.

(** A second registration, at line 20, after the first at line 8. *)
Lemma riscv_ipi_set_virq_range_once_witness :
  Smp.ipi_virq_base
    (Smp.riscv_ipi_set_virq_range (Sample.smp_platform true false) 20 6 true
       (Smp.riscv_ipi_set_virq_range (Sample.smp_platform true false)
          8 8 false (Sample.boot_world 15))) = 8.
Proof.
  refine (proj1 (proj2 (proj2
    (riscv_ipi_set_virq_range_once (Sample.smp_platform true false)
       8 8 false 20 6 true (Sample.boot_world 15) eq_refl _)))).
  discriminate.
Defined.

Section OobSendFacts.

Import Smp.

Variable p : platform.

(** Whether [op] lies in the window reserved for out-of-band IPIs. *)
Lemma oob_window_test (op : Z) :
  (op <? OOB_IPI_OFFSET) || (OOB_IPI_OFFSET + OOB_NR_IPI <=? op)
  = negb ((OOB_IPI_OFFSET <=? op) && (op <? OOB_IPI_OFFSET + OOB_NR_IPI)).
Proof.
  destruct (Z.ltb_spec op OOB_IPI_OFFSET),
    (Z.leb_spec (OOB_IPI_OFFSET + OOB_NR_IPI) op),
    (Z.leb_spec OOB_IPI_OFFSET op),
    (Z.ltb_spec op (OOB_IPI_OFFSET + OOB_NR_IPI)); cbn; try done; lia.
Qed.

(** C2, as the code has it: the range check is made only when pipeline
    debugging is on; there, a line outside the window draws the warning and
    nothing is sent.  A line inside the window is raised through its own
    descriptor for the target mask and the pending-IPI words are not
    touched.  With debugging off there is no check: the send goes ahead
    with whatever [op] was computed. *)
Theorem irq_send_oob_ipi_checked (irq cpumask : Z) (w : world) :
  (irq_pipeline_debug p = true ->
   (OOB_IPI_OFFSET <=? to_uint (irq - ipi_virq_base w))
   && (to_uint (irq - ipi_virq_base w) <? OOB_IPI_OFFSET + OOB_NR_IPI)
   = false ->
   irq_send_oob_ipi p irq cpumask w
   = Ret (log (ev_WARN WARN_oob_ipi_range) w))
  /\ ((OOB_IPI_OFFSET <=? to_uint (irq - ipi_virq_base w))
      && (to_uint (irq - ipi_virq_base w) <? OOB_IPI_OFFSET + OOB_NR_IPI)
      = true ->
      exists w',
        irq_send_oob_ipi p irq cpumask w = Ret w'
        /\ trace w' =
             trace w
             ++ [ev_ipi_send_mask
                   (default None
                      (ipi_desc w
                         !! Z.to_nat (to_uint (irq - ipi_virq_base w))))
                   cpumask]
        /\ ipi_messages w' = ipi_messages w)
  /\ (irq_pipeline_debug p = false ->
      irq_send_oob_ipi p irq cpumask w
      = __send_ipi_mask cpumask (to_uint (irq - ipi_virq_base w)) w).
Proof.
  unfold irq_send_oob_ipi. rewrite oob_window_test.
  set (op := to_uint (irq - ipi_virq_base w)).
  split; [|split].
  - intros -> ->. done.
  - intros Hin. rewrite Hin, andb_false_r.
    unfold __send_ipi_mask.
    apply andb_true_iff in Hin as [Hlo Hhi].
    apply Z.leb_le in Hlo. apply Z.ltb_lt in Hhi.
    unfold OOB_IPI_OFFSET, OOB_NR_IPI in *.
    destruct (Z.leb_spec 0 op); [|lia].
    destruct (Z.ltb_spec op IPI_MAX); [|unfold IPI_MAX in *; lia].
    cbn [andb]. eexists. split; [done|]. done.
  - intros ->. done.
Qed.

End OobSendFacts.

(** In a debugging build, line 8 (the in-band line, [op = 0]) is refused;
    line 9 ([op = 1]) is raised through its descriptor. *)
Lemma irq_send_oob_ipi_checked_witness :
  Smp.irq_send_oob_ipi (Sample.smp_platform true true) 8 2
    (Sample.registered_world true)
  = Smp.Ret (Smp.log (Smp.ev_WARN Smp.WARN_oob_ipi_range)
               (Sample.registered_world true))
  /\ exists w',
       Smp.irq_send_oob_ipi (Sample.smp_platform true true) 9 2
         (Sample.registered_world true) = Smp.Ret w'
       /\ Smp.trace w' =
            Smp.trace (Sample.registered_world true)
            ++ [Smp.ev_ipi_send_mask (Some 9) 2].
Proof.
  split.
  - apply (proj1 (irq_send_oob_ipi_checked (Sample.smp_platform true true)
                    8 2 (Sample.registered_world true))); reflexivity.
  - destruct (proj1 (proj2 (irq_send_oob_ipi_checked
                (Sample.smp_platform true true) 9 2
                (Sample.registered_world true))) eq_refl)
      as (w' & Hr & Ht & _).
    exists w'. split; [exact Hr | exact Ht].
Defined.

(** C2, as the specification states it, fails: in a production build (debugging off)
    a send to line 8, whose [op = 0] is outside the window, draws no
    warning and is not dropped; the line is raised. *)
Lemma irq_send_oob_ipi_production_unchecked :
  Smp.irq_pipeline_debug (Sample.smp_platform true false) = false
  /\ Smp.to_uint (8 - Smp.ipi_virq_base (Sample.registered_world true)) = 0
  /\ 0 < Smp.OOB_IPI_OFFSET
  /\ Smp.irq_send_oob_ipi (Sample.smp_platform true false) 8 2
       (Sample.registered_world true)
     = Smp.Ret (Smp.log (Smp.ev_ipi_send_mask (Some 8) 2)
                  (Sample.registered_world true))
  /\ Smp.irq_send_oob_ipi (Sample.smp_platform true false) 8 2
       (Sample.registered_world true)
     <> Smp.Ret (Smp.log (Smp.ev_WARN Smp.WARN_oob_ipi_range)
                   (Sample.registered_world true)).
Proof.
  assert (Hsend :
    Smp.irq_send_oob_ipi (Sample.smp_platform true false) 8 2
      (Sample.registered_world true)
    = Smp.Ret (Smp.log (Smp.ev_ipi_send_mask (Some 8) 2)
                 (Sample.registered_world true))) by (vm_compute; reflexivity).
  split; [reflexivity|]. split; [vm_compute; reflexivity|].
  split; [reflexivity|]. split; [exact Hsend|].
  rewrite Hsend. intros H.
  apply (f_equal (fun r => match r with
                           | Smp.Ret w => Smp.trace w
                           | _ => []
                           end)) in H.
  vm_compute in H. discriminate.
Qed.


(* ===================================================================== *)
(** ** Facts about sending and about the bounded waits                    *)
(* ===================================================================== *)

Section StopFacts.

Import Smp.

Variable p : platform.

Lemma same_but_messages_refl (w : world) : same_but_messages w w.
Proof. by repeat split. Qed.

Lemma set_bit_ipi_messages_same (op : ipi_message_type) (cpu : nat)
    (w : world) :
  same_but_messages w (set_bit_ipi_messages op cpu w).
Proof. by repeat split. Qed.

Lemma same_but_messages_trans (w1 w2 w3 : world) :
  same_but_messages w1 w2 -> same_but_messages w2 w3 ->
  same_but_messages w1 w3.
Proof.
  unfold same_but_messages. intros H12 H23.
  destruct H12 as (? & ? & ? & ? & ? & ? & ? & ? & ?).
  destruct H23 as (? & ? & ? & ? & ? & ? & ? & ? & ?).
  repeat split; congruence.
Qed.

Lemma for_each_cpu_same (mask : Z) (op : ipi_message_type) (w : world) :
  same_but_messages w (for_each_cpu p mask (set_bit_ipi_messages op) w).
Proof.
  unfold for_each_cpu. generalize (seq 0 (NR_CPUS p)) as cpus.
  intros cpus. revert w.
  assert (H : forall w0 w, same_but_messages w0 w ->
    same_but_messages w0
      (fold_left (fun w' cpu => if cpumask_test_cpu cpu mask
                                then set_bit_ipi_messages op cpu w' else w')
                 cpus w)).
  { induction cpus as [|c cpus IH]; intros w0 w Hw; cbn [fold_left]; [done|].
    apply IH. destruct (cpumask_test_cpu c mask); [|done].
    eapply same_but_messages_trans; [exact Hw|].
    apply set_bit_ipi_messages_same. }
  intros w. apply H, same_but_messages_refl.
Qed.

Lemma setbit_idem (a n : Z) : Z.setbit (Z.setbit a n) n = Z.setbit a n.
Proof. unfold Z.setbit. by rewrite <- Z.lor_assoc, Z.lor_diag. Qed.

(** The pending words after the marking loop of a pipelined send: the
    reason's bit is set for the CPUs of the mask, the other words are as
    they were. *)
Lemma for_each_cpu_messages (mask : Z) (op : ipi_message_type) (w : world)
    (c : nat) :
  ipi_messages (for_each_cpu p mask (set_bit_ipi_messages op) w) c
  = if bool_decide (c < NR_CPUS p)%nat && cpumask_test_cpu c mask
    then Z.setbit (ipi_messages w c) (ipi_nr op)
    else ipi_messages w c.
Proof.
  unfold for_each_cpu.
  assert (H : forall cpus w0,
    ipi_messages
      (fold_left (fun w' cpu => if cpumask_test_cpu cpu mask
                                then set_bit_ipi_messages op cpu w' else w')
                 cpus w0) c
    = if bool_decide (c ∈ cpus) && cpumask_test_cpu c mask
      then Z.setbit (ipi_messages w0 c) (ipi_nr op)
      else ipi_messages w0 c).
  { induction cpus as [|a cpus IH]; intros w0; cbn [fold_left].
    - by rewrite bool_decide_eq_false_2 by apply not_elem_of_nil.
    - rewrite IH. clear IH.
      destruct (decide (a = c)) as [->|Hne].
      + rewrite (bool_decide_eq_true_2 (c ∈ c :: cpus))
          by apply list_elem_of_here.
        destruct (cpumask_test_cpu c mask) eqn:Et.
        * unfold set_bit_ipi_messages. smp_fields.
          rewrite fn_lookup_insert, setbit_idem.
          by destruct (bool_decide (c ∈ cpus)).
        * by rewrite !andb_false_r.
      + assert (Hmsg : ipi_messages
                  (if cpumask_test_cpu a mask
                   then set_bit_ipi_messages op a w0 else w0) c
                = ipi_messages w0 c).
        { destruct (cpumask_test_cpu a mask); [|done].
          unfold set_bit_ipi_messages. smp_fields.
          by rewrite fn_lookup_insert_ne. }
        rewrite Hmsg.
        assert (Hin : bool_decide (c ∈ a :: cpus) = bool_decide (c ∈ cpus)).
        { apply bool_decide_ext. rewrite elem_of_cons.
          split; [intros [?|?]; [congruence|done] | by right]. }
        by rewrite Hin. }
  rewrite H.
  assert (Hin : bool_decide (c ∈ seq 0 (NR_CPUS p))
                = bool_decide (c < NR_CPUS p)%nat).
  { apply bool_decide_ext. rewrite elem_of_seq. lia. }
  by rewrite Hin.
Qed.

(** A send with one of the enumerated reasons always returns, having
    raised exactly one line for the mask; in a pipelined build the line is
    the shared one, number 0. *)
Lemma send_ipi_mask_ret (mask : Z) (op : ipi_message_type) (w : world) :
  exists w',
    send_ipi_mask p mask op w = Ret w'
    /\ trace w' =
         trace w
         ++ [ev_ipi_send_mask
               (default None
                  (ipi_desc w
                     !! Z.to_nat (if CONFIG_IRQ_PIPELINE p then 0
                                  else ipi_nr op)))
               mask]
    /\ cpu_online_mask w' = cpu_online_mask w
    /\ waiting_for_crash_ipi w' = waiting_for_crash_ipi w
    /\ cpus_stopped w' = cpus_stopped w
    /\ now_us w' = now_us w
    /\ forall c : nat,
         ipi_messages w' c
         = if CONFIG_IRQ_PIPELINE p
              && (bool_decide (c < NR_CPUS p)%nat && cpumask_test_cpu c mask)
           then Z.setbit (ipi_messages w c) (ipi_nr op)
           else ipi_messages w c.
Proof.
  unfold send_ipi_mask. destruct (CONFIG_IRQ_PIPELINE p).
  - destruct (for_each_cpu_same mask op w)
      as (_ & _ & Hd & _ & Ho & Hw & Hs & Hn & Ht).
    unfold __send_ipi_mask. cbn [Z.leb Z.ltb andb Z.compare IPI_MAX].
    eexists. split; [done|]. smp_fields. rewrite Hd, Ht.
    repeat split; try done. intros c. cbn [andb].
    apply for_each_cpu_messages.
  - unfold __send_ipi_mask.
    assert (Hop : (0 <=? ipi_nr op) && (ipi_nr op <? IPI_MAX) = true)
      by (by destruct op).
    rewrite Hop. eexists. split; [done|]. by repeat split.
Qed.

Lemma udelay_1_same (w : world) :
  same_but_remote w (udelay_1 p w)
  /\ now_us (udelay_1 p w) = now_us w + 1.
Proof.
  unfold udelay_1. destruct (remote_cpus p _ _). by repeat split.
Qed.

Lemma iter_udelay_1_same (k : nat) (w : world) :
  same_but_remote w (Nat.iter k (udelay_1 p) w)
  /\ now_us (Nat.iter k (udelay_1 p) w) = now_us w + Z.of_nat k.
Proof.
  induction k as [|k [IH Hn]]; [split; [by repeat split | cbn; lia]|].
  rewrite Nat.iter_succ.
  destruct (udelay_1_same (Nat.iter k (udelay_1 p) w)) as [Hs Hn'].
  split; [|lia].
  unfold same_but_remote in *.
  destruct IH as (? & ? & ? & ? & ? & ? & ?).
  destruct Hs as (? & ? & ? & ? & ? & ? & ?).
  repeat split; congruence.
Qed.

(** The wait polls for a number [k] of microseconds that is at most the
    timeout; the condition held at every earlier poll; and either the
    timeout was exhausted or the condition is false on exit. *)
Lemma busy_wait_spec (cond : world -> bool) (n : nat) (w : world) :
  exists k : nat,
    (k <= n)%nat
    /\ busy_wait p cond n w = Nat.iter k (udelay_1 p) w
    /\ Forall (fun j => cond (Nat.iter j (udelay_1 p) w) = true) (seq 0 k)
    /\ (k = n \/ cond (busy_wait p cond n w) = false).
Proof.
  revert w. induction n as [|n IH]; intros w; cbn [busy_wait].
  - exists 0%nat. destruct (cond w); repeat split; try done; auto.
  - destruct (cond w) eqn:E.
    + destruct (IH (udelay_1 p w)) as (k & Hk & Hr & Hall & Hend).
      exists (S k). split; [lia|]. split; [by rewrite Nat.iter_succ_r|].
      split.
      * cbn [seq]. constructor; [done|].
        rewrite <- seq_shift. apply Forall_map.
        eapply Forall_impl; [|exact Hall]. intros j Hj. cbn beta in *.
        by rewrite Nat.iter_succ_r.
      * destruct Hend as [->|Hend]; [by left | by right].
    + exists 0%nat. split; [lia|]. repeat split; try done. by right.
Qed.

End StopFacts.

Section StopAllFacts.

Import Smp.

Variable p : platform.

(** C8: [smp_send_stop] always returns.  When more than one CPU is online
    it first raises the stop IPI for the online CPUs other than itself (in
    a pipelined build, on the shared line with the stop bit marked in
    their pending words).  Its wait then makes [k] one-microsecond polling
    steps, [k] at most [USEC_PER_SEC]; more than one CPU was online at
    each earlier poll, and the wait ends either with the timeout used up
    or with at most one CPU online.  A warning that lists the online mask
    is logged exactly when more than one CPU is online at the end, and
    nothing else is logged. *)
Theorem smp_send_stop_bounded (w : world) :
  exists (w2 w' : world) (k : nat),
    (if 1 <? num_online_cpus p w
     then trace w2 =
            trace w
            ++ (if system_state p <=? SYSTEM_RUNNING
                then [ev_pr_crit_stopping] else [])
            ++ [ev_ipi_send_mask
                  (default None
                     (ipi_desc w
                        !! Z.to_nat (if CONFIG_IRQ_PIPELINE p then 0
                                     else ipi_nr IPI_CPU_STOP)))
                  (cpumask_clear_cpu (smp_processor_id p)
                     (cpu_online_mask w))]
          /\ forall c : nat,
               ipi_messages w2 c
               = if CONFIG_IRQ_PIPELINE p
                    && (bool_decide (c < NR_CPUS p)%nat
                        && cpumask_test_cpu c
                             (cpumask_clear_cpu (smp_processor_id p)
                                (cpu_online_mask w)))
                 then Z.setbit (ipi_messages w c) (ipi_nr IPI_CPU_STOP)
                 else ipi_messages w c
     else w2 = w)
    /\ cpu_online_mask w2 = cpu_online_mask w
    /\ now_us w2 = now_us w
    /\ Z.of_nat k <= USEC_PER_SEC
    /\ Forall (fun j => 1 < num_online_cpus p (Nat.iter j (udelay_1 p) w2))
              (seq 0 k)
    /\ (Z.of_nat k = USEC_PER_SEC
        \/ num_online_cpus p (Nat.iter k (udelay_1 p) w2) <= 1)
    /\ smp_send_stop p w = Ret w'
    /\ now_us w' = now_us w + Z.of_nat k
    /\ cpu_online_mask w' = cpu_online_mask (Nat.iter k (udelay_1 p) w2)
    /\ trace w' =
         trace w2
         ++ (if 1 <? num_online_cpus p w'
             then [ev_pr_warn_failed_to_stop (cpu_online_mask w')] else []).
Proof.
  assert (Hsend : exists w2,
    (if 1 <? num_online_cpus p w
     then send_ipi_mask p
            (cpumask_clear_cpu (smp_processor_id p) (cpu_online_mask w))
            IPI_CPU_STOP
            (if system_state p <=? SYSTEM_RUNNING
             then log ev_pr_crit_stopping w else w)
     else Ret w) = Ret w2
    /\ (if 1 <? num_online_cpus p w
        then trace w2 =
               trace w
               ++ (if system_state p <=? SYSTEM_RUNNING
                   then [ev_pr_crit_stopping] else [])
               ++ [ev_ipi_send_mask
                     (default None
                        (ipi_desc w
                           !! Z.to_nat (if CONFIG_IRQ_PIPELINE p then 0
                                        else ipi_nr IPI_CPU_STOP)))
                     (cpumask_clear_cpu (smp_processor_id p)
                        (cpu_online_mask w))]
             /\ forall c : nat,
                  ipi_messages w2 c
                  = if CONFIG_IRQ_PIPELINE p
                       && (bool_decide (c < NR_CPUS p)%nat
                           && cpumask_test_cpu c
                                (cpumask_clear_cpu (smp_processor_id p)
                                   (cpu_online_mask w)))
                    then Z.setbit (ipi_messages w c) (ipi_nr IPI_CPU_STOP)
                    else ipi_messages w c
        else w2 = w)
    /\ cpu_online_mask w2 = cpu_online_mask w
    /\ now_us w2 = now_us w).
  { destruct (1 <? num_online_cpus p w); [|by exists w].
    set (w1 := if system_state p <=? SYSTEM_RUNNING then _ else w).
    destruct (send_ipi_mask_ret p
                (cpumask_clear_cpu (smp_processor_id p) (cpu_online_mask w))
                IPI_CPU_STOP w1) as (w2 & Hr & Ht & Ho & _ & _ & Hn & Hmsg).
    exists w2. split; [done|].
    assert (H1 : trace w1 = trace w ++
                   (if system_state p <=? SYSTEM_RUNNING
                    then [ev_pr_crit_stopping] else [])
                 /\ cpu_online_mask w1 = cpu_online_mask w
                 /\ now_us w1 = now_us w
                 /\ ipi_desc w1 = ipi_desc w
                 /\ ipi_messages w1 = ipi_messages w).
    { subst w1. destruct (system_state p <=? SYSTEM_RUNNING);
        smp_fields; by rewrite ?app_nil_r. }
    destruct H1 as (Ht1 & Ho1 & Hn1 & Hd1 & Hm1).
    split; [|split; congruence].
    split.
    - by rewrite Ht, Ht1, Hd1, <- app_assoc.
    - intros c. by rewrite Hmsg, Hm1. }
  destruct Hsend as (w2 & Hr & Hb & Ho2 & Hn2).
  set (cond := fun w' : world => 1 <? num_online_cpus p w').
  destruct (busy_wait_spec p cond (Z.to_nat USEC_PER_SEC) w2)
    as (k & Hk & Hw3 & Hall & Hend).
  destruct (iter_udelay_1_same p k w2) as [Hsame Hnow].
  assert (Hrun : smp_send_stop p w =
    Ret (if cond (Nat.iter k (udelay_1 p) w2)
         then log (ev_pr_warn_failed_to_stop
                     (cpu_online_mask (Nat.iter k (udelay_1 p) w2)))
                  (Nat.iter k (udelay_1 p) w2)
         else Nat.iter k (udelay_1 p) w2)).
  { unfold smp_send_stop. rewrite Hr. cbn [bind]. fold cond. rewrite Hw3.
    unfold cond. cbn beta.
    destruct (1 <? num_online_cpus p (Nat.iter k (udelay_1 p) w2));
      reflexivity. }
  rewrite Hw3 in Hend. clear Hw3.
  set (w3 := Nat.iter k (udelay_1 p) w2) in *.
  assert (Htr3 : trace w3 = trace w2) by apply Hsame.
  exists w2.
  exists (if cond w3
          then log (ev_pr_warn_failed_to_stop (cpu_online_mask w3)) w3
          else w3).
  exists k.
  split; [exact Hb|]. split; [exact Ho2|]. split; [exact Hn2|].
  split; [unfold USEC_PER_SEC in *; lia|].
  split.
  { eapply Forall_impl; [|exact Hall]. intros j Hj. subst cond.
    cbn beta in Hj. by apply Z.ltb_lt. }
  split.
  { destruct Hend as [->|Hend]; [left; by rewrite Z2Nat.id|right].
    subst cond. cbn beta in Hend. by apply Z.ltb_ge. }
  split; [exact Hrun|].
  unfold cond. destruct (1 <? num_online_cpus p w3) eqn:E.
  - split; [smp_fields; lia|]. split; [reflexivity|].
    change (num_online_cpus p (log (ev_pr_warn_failed_to_stop
                                      (cpu_online_mask w3)) w3))
      with (num_online_cpus p w3).
    rewrite E. smp_fields. by rewrite Htr3.
  - split; [lia|]. split; [reflexivity|].
    rewrite E. by rewrite app_nil_r.
Qed.

(** C7: on a state where the guard is not yet set, a first call of
    [crash_smp_send_stop] sets the guard and returns; a second call in
    succession returns at once with the state untouched, so without a
    broadcast and with the countdown as it stands.  Over the two calls the
    crash-stop IPI is raised once when another CPU is online, and when
    none is the first call does nothing but set the guard. *)
Theorem crash_smp_send_stop_once (w : world)
    (Hfresh : cpus_stopped w = 0) :
  exists w1 w2 : world,
    crash_smp_send_stop p w = Ret w1
    /\ crash_smp_send_stop p w1 = Ret w2
    /\ w2 = w1
    /\ cpus_stopped w1 = 1
    /\ length (List.filter is_ipi_send (events_since w w2))
       = (if num_other_online_cpus p w =? 0 then 0%nat else 1%nat)
    /\ (if num_other_online_cpus p w =? 0
        then w1 = set_cpus_stopped 1 w
        else firstn 2 (events_since w w2) =
               [ev_pr_crit_stopping;
                ev_ipi_send_mask
                  (default None
                     (ipi_desc w
                        !! Z.to_nat (if CONFIG_IRQ_PIPELINE p then 0
                                     else ipi_nr IPI_CPU_CRASH_STOP)))
                  (cpumask_clear_cpu (smp_processor_id p)
                     (cpu_online_mask w))]).
Proof.
  assert (Hsecond : forall w1, cpus_stopped w1 = 1 ->
            crash_smp_send_stop p w1 = Ret w1).
  { intros w1 H1. unfold crash_smp_send_stop. by rewrite H1. }
  unfold crash_smp_send_stop at 1. rewrite Hfresh. cbn [Z.eqb negb].
  change (num_other_online_cpus p (set_cpus_stopped 1 w))
    with (num_other_online_cpus p w).
  destruct (num_other_online_cpus p w =? 0) eqn:E.
  - exists (set_cpus_stopped 1 w), (set_cpus_stopped 1 w).
    split; [done|]. split; [by apply Hsecond|].
    repeat split. unfold events_since. smp_fields.
    by rewrite drop_all.
  - set (w3 := log ev_pr_crit_stopping _).
    set (mask := cpumask_clear_cpu (smp_processor_id p) _).
    destruct (send_ipi_mask_ret p mask IPI_CPU_CRASH_STOP w3)
      as (w4 & Hr & Ht & _ & _ & Hs & _).
    rewrite Hr. cbn [bind].
    set (cond := fun w' : world => 0 <? waiting_for_crash_ipi w').
    destruct (busy_wait_spec p cond (Z.to_nat USEC_PER_SEC) w4)
      as (k & _ & Hw5 & _ & _).
    destruct (iter_udelay_1_same p k w4) as [Hsame _].
    rewrite <- Hw5 in Hsame. clear Hw5.
    set (w5 := busy_wait p cond (Z.to_nat USEC_PER_SEC) w4) in *.
    destruct Hsame as (_ & _ & _ & _ & _ & Hs5 & Ht5).
    assert (Htr : trace w5 =
              trace w ++ [ev_pr_crit_stopping;
                          ev_ipi_send_mask
                            (default None
                               (ipi_desc w3
                                  !! Z.to_nat
                                       (if CONFIG_IRQ_PIPELINE p then 0
                                        else ipi_nr IPI_CPU_CRASH_STOP)))
                            mask]).
    { rewrite Ht5, Ht. subst w3. smp_fields. by rewrite <- app_assoc. }
    assert (Hst : cpus_stopped w5 = 1) by (by rewrite Hs5, Hs).
    destruct (0 <? waiting_for_crash_ipi w5).
    + eexists _, _. split; [done|]. split; [by apply Hsecond|].
      split; [done|]. split; [done|].
      erewrite smp_events_since_app;
        [|smp_fields; rewrite Htr, <- app_assoc; reflexivity].
      split; [done|]. reflexivity.
    + exists w5, w5. split; [done|]. split; [by apply Hsecond|].
      split; [done|]. split; [done|].
      rewrite (smp_events_since_app _ _ _ Htr).
      split; [done|]. reflexivity.
Qed.

End StopAllFacts.

(** From the registered state with four CPUs online, the crash stop runs
    once over two calls. *)
Lemma crash_smp_send_stop_once_witness :
  exists w1 w2 : Smp.world,
    Smp.crash_smp_send_stop (Sample.smp_platform true false)
      (Sample.registered_world true) = Smp.Ret w1
    /\ Smp.crash_smp_send_stop (Sample.smp_platform true false) w1
       = Smp.Ret w2
    /\ w2 = w1.
Proof.
  destruct (crash_smp_send_stop_once (Sample.smp_platform true false)
              (Sample.registered_world true) eq_refl)
    as (w1 & w2 & H1 & H2 & H3 & _).
  exists w1, w2. repeat split; assumption.
Defined.


(* ===================================================================== *)
(** ** Facts about the in-band receive handler                            *)
(* ===================================================================== *)

Section ReceiveFacts.

Import Smp.

Variable p : platform.

Lemma to_int_small (x : Z) : - 2 ^ 31 <= x < 2 ^ 31 -> to_int x = x.
Proof. intros Hx. unfold to_int. rewrite Z.mod_small; lia. Qed.

Lemma ipi_of_nr_neg (x : Z) : x < 0 -> ipi_of_nr x = None.
Proof. by destruct x. Qed.

(** Whenever the drain loop returns, this CPU's pending word is zero. *)
Lemma handle_IPI_loop_drained (fuel : nat) (w w' : world) :
  handle_IPI_loop p fuel w = Some (Ret w') ->
  ipi_messages w' (smp_processor_id p) = 0.
Proof.
  revert w. induction fuel as [|fuel IH]; intros w; cbn [handle_IPI_loop].
  - destruct (ipi_messages w (smp_processor_id p) =? 0) eqn:E; [|done].
    intros [= <-]. by apply Z.eqb_eq.
  - destruct (ipi_messages w (smp_processor_id p) =? 0) eqn:E.
    + intros [= <-]. by apply Z.eqb_eq.
    + destruct (_ >>= _ >>= _) as [w1| |]; [apply IH|done|done].
Qed.

(** Sending a reason that is already pending leaves the target's pending
    word as it is: senders of one reason coalesce into one bit. *)
Lemma set_bit_ipi_messages_idem (op : ipi_message_type) (cpu : nat)
    (w : world) :
  ipi_messages (set_bit_ipi_messages op cpu (set_bit_ipi_messages op cpu w))
    cpu
  = ipi_messages (set_bit_ipi_messages op cpu w) cpu.
Proof.
  unfold set_bit_ipi_messages. smp_fields. rewrite !fn_lookup_insert.
  apply Z.bits_inj'. intros n Hn.
  rewrite !Z.setbit_eqb by (by destruct op).
  by destruct (ipi_nr op =? n).
Qed.

Lemma ctz_nonneg (q : positive) : 0 <= ctz q.
Proof. induction q; cbn [ctz]; lia. Qed.

Lemma ctz_set (q : positive) : Z.testbit (Zpos q) (ctz q) = true.
Proof.
  induction q as [q IH|q IH|]; cbn [ctz]; [reflexivity| |reflexivity].
  replace (1 + ctz q) with (Z.succ (ctz q)) by lia.
  change (Zpos q~0) with (2 * Zpos q). by rewrite Z.double_bits_succ.
Qed.

Lemma ctz_lowest (q : positive) (i : Z) :
  0 <= i < ctz q -> Z.testbit (Zpos q) i = false.
Proof.
  revert i. induction q as [q IH|q IH|]; intros i Hi; cbn [ctz] in Hi;
    [lia| |lia].
  destruct (decide (i = 0)) as [->|Hne]; [reflexivity|].
  replace i with (Z.succ (i - 1)) by lia.
  change (Zpos q~0) with (2 * Zpos q). rewrite Z.double_bits_succ.
  apply IH. lia.
Qed.

Lemma ctz_pow (q : positive) : 2 ^ ctz q <= Zpos q.
Proof.
  induction q as [q IH|q IH|]; cbn [ctz]; [lia| |lia].
  assert (Hpow : 2 ^ (1 + ctz q) = 2 * 2 ^ ctz q).
  { rewrite Z.pow_add_r; [reflexivity | lia | apply ctz_nonneg]. }
  rewrite Hpow. lia.
Qed.

Lemma to_uint_testbit (x i : Z) :
  0 <= i < 32 -> Z.testbit (to_uint x) i = Z.testbit x i.
Proof. intros Hi. unfold to_uint. apply Z.mod_pow2_bits_low. lia. Qed.

(** With no bit set in the low half, [ffs(x) - 1] wraps to the largest
    [unsigned int]. *)
Lemma ffs_zero (x : Z) : ffs x = 0 -> to_uint (ffs x - 1) = 2 ^ 32 - 1.
Proof. by intros ->. Qed.

(** Otherwise [ffs(x) - 1] is the index of the lowest set bit. *)
Lemma ffs_lowest (x : Z) :
  ffs x <> 0 ->
  0 <= ffs x - 1 < 32
  /\ to_uint (ffs x - 1) = ffs x - 1
  /\ Z.testbit x (ffs x - 1) = true
  /\ forall i, 0 <= i < ffs x - 1 -> Z.testbit x i = false.
Proof.
  unfold ffs. destruct (to_uint x) as [|q|q] eqn:E; [done| |done].
  intros _. replace (1 + ctz q - 1) with (ctz q) by lia.
  pose proof (ctz_nonneg q) as Hge. pose proof (ctz_pow q) as Hpow.
  assert (Hlt : ctz q < 32).
  { destruct (Z_lt_ge_dec (ctz q) 32) as [|Hbig]; [done|exfalso].
    assert (2 ^ 32 <= 2 ^ ctz q) by (apply Z.pow_le_mono_r; lia).
    assert (to_uint x < 2 ^ 32) by (unfold to_uint; apply Z.mod_pos_bound; lia).
    lia. }
  split; [lia|]. split; [unfold to_uint; apply Z.mod_small; lia|].
  split.
  - rewrite <- to_uint_testbit, E by lia. apply ctz_set.
  - intros i Hi. rewrite <- to_uint_testbit, E by lia. by apply ctz_lowest.
Qed.

Lemma __handle_IPI_ret (irq : Z) (w w1 : world) :
  __handle_IPI p irq w = Ret w1 -> exists e, w1 = log e w.
Proof.
  unfold __handle_IPI, ipi_stop, ipi_cpu_crash_stop.
  destruct (ipi_of_nr _) as [[]|];
    repeat match goal with
           | |- context [if ?b then _ else _] => destruct b
           end;
    intros [= <-]; by eexists.
Qed.

(** One turn of the drain loop that goes on to the next: the reason taken
    is the lowest pending bit and is one of the counted reasons; the bit
    is cleared, its counter goes up by one, and one call is made. *)
Lemma handle_IPI_iteration (w w1 : world) :
  clear_bit_this_cpu p
    (to_uint (ffs (ipi_messages w (smp_processor_id p)) - 1)) w
  >>= this_cpu_inc_ipi_counts p
        (to_uint (ffs (ipi_messages w (smp_processor_id p)) - 1))
  >>= __handle_IPI p
        (to_int (to_uint (ffs (ipi_messages w (smp_processor_id p)) - 1)))
  = Ret w1 ->
  0 <= ffs (ipi_messages w (smp_processor_id p)) - 1 < IPI_MAX
  /\ Z.testbit (ipi_messages w (smp_processor_id p))
       (ffs (ipi_messages w (smp_processor_id p)) - 1) = true
  /\ (forall i, 0 <= i < ffs (ipi_messages w (smp_processor_id p)) - 1 ->
        Z.testbit (ipi_messages w (smp_processor_id p)) i = false)
  /\ ipi_messages w1 (smp_processor_id p)
     = Z.clearbit (ipi_messages w (smp_processor_id p))
         (ffs (ipi_messages w (smp_processor_id p)) - 1)
  /\ ipi_counts w1 (smp_processor_id p)
     = alter (fun c => to_uint (c + 1))
         (Z.to_nat (ffs (ipi_messages w (smp_processor_id p)) - 1))
         (ipi_counts w (smp_processor_id p))
  /\ exists e, trace w1 = trace w ++ [e].
Proof.
  set (m := ipi_messages w (smp_processor_id p)).
  unfold clear_bit_this_cpu, this_cpu_inc_ipi_counts.
  destruct (to_uint (ffs m - 1) <? BITS_PER_LONG) eqn:E64; [|done].
  cbn [bind].
  destruct (to_uint (ffs m - 1) <? IPI_MAX) eqn:E6; [|done].
  cbn [bind]. intros Hret.
  apply __handle_IPI_ret in Hret as (e & ->).
  apply Z.ltb_lt in E6.
  destruct (decide (ffs m = 0)) as [Hz|Hnz].
  { rewrite ffs_zero in E6 by done. unfold IPI_MAX in E6. lia. }
  destruct (ffs_lowest m Hnz) as (Hk & Hu & Hset & Hlow).
  rewrite Hu in *. smp_fields. rewrite !fn_lookup_insert.
  repeat split; try done; try lia. by eexists.
Qed.

(** The drain loop never runs out of its iterations: the reasons are taken
    in ascending order and there are [IPI_MAX] of them. *)
Lemma handle_IPI_loop_total (fuel : nat) (lo : Z) (w : world) :
  0 <= lo <= IPI_MAX ->
  (forall i, 0 <= i < lo ->
     Z.testbit (ipi_messages w (smp_processor_id p)) i = false) ->
  IPI_MAX - lo < Z.of_nat fuel ->
  handle_IPI_loop p fuel w <> None.
Proof.
  revert lo w. induction fuel as [|fuel IH]; intros lo w Hlo Hclear Hfuel;
    [lia|].
  cbn [handle_IPI_loop].
  destruct (ipi_messages w (smp_processor_id p) =? 0); [done|].
  destruct (_ >>= _ >>= _) as [w1| |] eqn:E; [|done|done].
  apply handle_IPI_iteration in E as (Hk & Hset & Hlow & Hm1 & _).
  set (k := ffs (ipi_messages w (smp_processor_id p)) - 1) in *.
  assert (lo <= k).
  { destruct (Z_lt_ge_dec k lo) as [Hlt|]; [|lia].
    rewrite Hclear in Hset by lia. done. }
  apply (IH (k + 1)); [lia| |lia].
  intros i Hi. rewrite Hm1.
  destruct (decide (i = k)) as [->|Hne].
  - apply Z.clearbit_eq.
  - rewrite Z.clearbit_neq by lia. apply Hlow. lia.
Qed.

(** [handle_IPI] always ends: it returns, parks the CPU or faults. *)
Lemma handle_IPI_ends (irq : Z) (w : world) : handle_IPI p irq w <> None.
Proof.
  unfold handle_IPI. destruct (CONFIG_IRQ_PIPELINE p); [|done].
  apply (handle_IPI_loop_total handle_IPI_fuel 0); [done| |done].
  intros i Hi. lia.
Qed.

(** C1, at the input where the code departs from it: in a pipelined build
    with the IPI range registered at a positive base, a pending word that
    holds the rescheduling bit alone is drained, and its counter goes up by
    one, but the reason handed on is [0 - ipi_virq_base]: the scheduler
    entry point is not called, an unhandled IPI is logged instead. *)
Theorem handle_IPI_reschedule_unhandled (irq : Z) (w : world)
    (Hpipe : CONFIG_IRQ_PIPELINE p = true)
    (Hbase : 0 < ipi_virq_base w < 2 ^ 31)
    (Hpending : ipi_messages w (smp_processor_id p)
                = Z.shiftl 1 (ipi_nr IPI_RESCHEDULE)) :
  exists w',
    handle_IPI p irq w = Some (Ret w')
    /\ ipi_messages w' (smp_processor_id p) = 0
    /\ ipi_counts w' (smp_processor_id p)
       = alter (fun c => to_uint (c + 1)) (Z.to_nat (ipi_nr IPI_RESCHEDULE))
           (ipi_counts w (smp_processor_id p))
    /\ trace w' =
         trace w
         ++ [ev_unhandled_IPI (smp_processor_id p) (- ipi_virq_base w)]
    /\ ~ In ev_scheduler_ipi (events_since w w').
Proof.
  assert (Hone : Z.shiftl 1 (ipi_nr IPI_RESCHEDULE) = 1) by reflexivity.
  rewrite Hone in Hpending.
  eexists. split.
  { unfold handle_IPI, handle_IPI_fuel. rewrite Hpipe.
    cbn [handle_IPI_loop]. rewrite Hpending.
    change (1 =? 0) with false. cbn iota.
    change (to_uint (ffs 1 - 1)) with 0.
    unfold clear_bit_this_cpu at 1. change (0 <? BITS_PER_LONG) with true.
    cbn iota. cbn [bind].
    unfold this_cpu_inc_ipi_counts at 1. change (0 <? IPI_MAX) with true.
    cbn iota. cbn [bind].
    unfold __handle_IPI at 1. smp_fields. change (to_int 0) with 0.
    rewrite Z.sub_0_l, to_int_small by lia.
    rewrite ipi_of_nr_neg by lia.
    smp_fields. rewrite fn_lookup_insert, Hpending.
    change (Z.clearbit 1 0 =? 0) with true. cbn iota.
    reflexivity. }
  smp_fields. rewrite !fn_lookup_insert.
  split; [reflexivity|]. split; [reflexivity|]. split; [reflexivity|].
  unfold events_since. smp_fields. rewrite drop_app_length.
  intros [H|[]]. discriminate.
Qed.

End ReceiveFacts.

(** The registered sample state with the rescheduling bit pending: the
    handler returns with [ev_unhandled_IPI 0 (-8)] as its only event. *)
Lemma handle_IPI_reschedule_unhandled_witness :
  exists w',
    Smp.handle_IPI (Sample.smp_platform true false) 8
      Sample.resched_pending_world = Some (Smp.Ret w')
    /\ Smp.trace w' =
         Smp.trace Sample.resched_pending_world
         ++ [Smp.ev_unhandled_IPI 0 (-8)].
Proof.
  destruct (handle_IPI_reschedule_unhandled (Sample.smp_platform true false)
              8 Sample.resched_pending_world eq_refl
              ltac:(vm_compute; split; reflexivity) eq_refl)
    as (w' & Hr & _ & _ & Ht & _).
  exists w'. split; [exact Hr | exact Ht].
Defined.


(* ===================================================================== *)
(** ** Further facts about asm/irq_pipeline.h                             *)
(* ===================================================================== *)

Section HeaderMoreFacts.

Import IrqPipelineH.

Variable m_mode : bool.

(** X1: [arch_irqs_disabled] reads the virtual flag: it is 1 after
    [arch_local_irq_disable], 0 after [arch_local_irq_enable], and after
    [arch_local_irq_restore] it is what [arch_irqs_disabled_flags] says of
    the restored flags; restoring the flags [arch_local_save_flags] has
    just read changes nothing. *)
Theorem arch_irqs_disabled_tracks (st : cpu_state) (flags : Z) :
  arch_irqs_disabled m_mode st = Z.b2z (inband_stalled st)
  /\ arch_irqs_disabled m_mode (arch_local_irq_disable st) = 1
  /\ arch_irqs_disabled m_mode (arch_local_irq_enable st) = 0
  /\ arch_irqs_disabled m_mode (arch_local_irq_restore m_mode flags st)
     = arch_irqs_disabled_flags m_mode flags
  /\ arch_local_irq_restore m_mode (arch_local_save_flags m_mode st) st = st.
Proof.
  assert (Hread : forall st0,
            arch_irqs_disabled m_mode st0 = Z.b2z (inband_stalled st0)).
  { intros st0. unfold arch_irqs_disabled, arch_local_save_flags,
      inband_irqs_disabled. apply flags_roundtrip. }
  split; [apply Hread|].
  split; [by rewrite Hread|]. split; [by rewrite Hread|].
  split.
  - rewrite Hread. unfold arch_local_irq_restore, inband_irq_restore.
    cbn [inband_stalled].
    unfold arch_irqs_disabled_flags, native_irqs_disabled_flags, lnot_int.
    by destruct (Z.land flags (SR_IE m_mode) =? 0).
  - unfold arch_local_irq_restore, arch_local_save_flags,
      inband_irqs_disabled, inband_irq_restore.
    rewrite flags_roundtrip. by destruct st as [[]].
Qed.

Variables a b c : ptr.

(** The frame [dst] holds after a snapshot, field by field. *)
Lemma arch_save_timer_regs_fields (dst src : ptr) (m : mem) (f : reg) :
  arch_save_timer_regs dst src m dst f
  = if bool_decide (f = t6) then m dst t6 else m src f.
Proof.
  destruct (assign_fields dst src timer_saved_fields m) as [_ Hdst].
  fold (arch_save_timer_regs dst src m) in Hdst. rewrite Hdst.
  destruct f; by vm_compute.
Qed.

Lemma arch_save_timer_regs_other (dst src q : ptr) (m : mem) :
  q <> dst -> arch_save_timer_regs dst src m q = m q.
Proof.
  intros Hq. destruct (assign_fields dst src timer_saved_fields m) as [H _].
  by apply H.
Qed.

(** X2: The status word travels with the snapshot, so the tick is stolen for
    the snapshot exactly when it is for the frame it was taken from. *)
Theorem arch_steal_pipelined_tick_saved (m : mem) :
  arch_steal_pipelined_tick m_mode (arch_save_timer_regs a b m a)
  = arch_steal_pipelined_tick m_mode (m b).
Proof.
  unfold arch_steal_pipelined_tick.
  by rewrite (arch_save_timer_regs_fields a b m status).
Qed.

(** X3: Snapshots chain: a snapshot of [a] taken into [b] and then taken from
    [b] into [c] gives [c] the fields of [a], whichever of the three are
    the same frame; taking the same snapshot twice changes nothing more. *)
Theorem arch_save_timer_regs_chain (m : mem) (f : reg) :
  (f <> t6 ->
   arch_save_timer_regs c b (arch_save_timer_regs b a m) c f = m a f)
  /\ (forall q,
        arch_save_timer_regs b a (arch_save_timer_regs b a m) q f
        = arch_save_timer_regs b a m q f).
Proof.
  split.
  - intros Hf. rewrite (arch_save_timer_regs_fields c b).
    rewrite bool_decide_eq_false_2 by done.
    rewrite (arch_save_timer_regs_fields b a).
    by rewrite bool_decide_eq_false_2 by done.
  - intros q. destruct (decide (q = b)) as [->|Hq].
    + rewrite (arch_save_timer_regs_fields b a).
      case_bool_decide as Hf; [by subst f|].
      destruct (decide (a = b)) as [->|Hab].
      * done.
      * rewrite (arch_save_timer_regs_other b a a) by done.
        rewrite (arch_save_timer_regs_fields b a m f).
        by rewrite bool_decide_eq_false_2 by done.
    + by rewrite (arch_save_timer_regs_other b a q) by done.
Qed.

End HeaderMoreFacts.

(** The frame at address 2 receives, through the frame at address 0, the
    [epc] of the frame at address 1. *)
Lemma arch_save_timer_regs_chain_witness :
  IrqPipelineH.arch_save_timer_regs 2 0
    (IrqPipelineH.arch_save_timer_regs 0 1 Sample.frames) 2%nat
    IrqPipelineH.epc = 100.
Proof.
  apply (proj1 (arch_save_timer_regs_chain 1 0 2 Sample.frames
                  IrqPipelineH.epc)).
  discriminate.
Defined.


(* ===================================================================== *)
(** ** Further facts about the stage-entry dispatcher                     *)
(* ===================================================================== *)

Section DispatcherMoreFacts.

Import IrqPipeline.

Variable p : platform.

(** One dispatch, as a change of the trace alone. *)
Lemma arch_do_IRQ_pipelined_run (desc : irq_desc) (w : cpu) :
  arch_do_IRQ_pipelined p desc w
  = mkCpu (current_is_idle w) (watch_depth w) (irq_regs w) (tick_regs w)
      (trace w
       ++ (if negb (CONFIG_TINY_RCU p) && current_is_idle w
           then [ev_ct_irq_enter; ev_handle_irq_desc desc (tick_regs w);
                 ev_ct_irq_exit]
           else [ev_rcu_irq_enter_check_tick;
                 ev_handle_irq_desc desc (tick_regs w)])).
Proof.
  unfold arch_do_IRQ_pipelined, pipeline_enter_rcu.
  destruct (negb (CONFIG_TINY_RCU p) && current_is_idle w);
    unfold pipeline_exit_rcu, handle_irq_desc, ct_irq_enter, ct_irq_exit,
      rcu_irq_enter_check_tick, log; cbn;
    by rewrite <- ?app_assoc.
Qed.

(** X4: Over any run of interrupts taken one after the other, the stop
    transitions made equal the start transitions made, the descriptor
    handler is called once per interrupt, in order and always with the
    tick frame active, and the active-frame pointer ends where it was. *)
Theorem run_irqs_balanced (descs : list irq_desc) (w : cpu) :
  count_occ event_eq_dec (events_since w (run_irqs p descs w))
    ev_ct_irq_exit
  = count_occ event_eq_dec (events_since w (run_irqs p descs w))
      ev_ct_irq_enter
  /\ List.filter is_handler_call (events_since w (run_irqs p descs w))
     = map (fun desc => ev_handle_irq_desc desc (tick_regs w)) descs
  /\ irq_regs (run_irqs p descs w) = irq_regs w.
Proof.
  assert (H : forall w0,
    current_is_idle w0 = current_is_idle w ->
    tick_regs w0 = tick_regs w ->
    exists evs',
      trace (run_irqs p descs w0) = trace w0 ++ evs'
      /\ count_occ event_eq_dec evs' ev_ct_irq_exit
         = count_occ event_eq_dec evs' ev_ct_irq_enter
      /\ List.filter is_handler_call evs'
         = map (fun desc => ev_handle_irq_desc desc (tick_regs w)) descs
      /\ irq_regs (run_irqs p descs w0) = irq_regs w0).
  { unfold run_irqs. induction descs as [|d descs IH]; intros w0 Hi Ht.
    - exists []. cbn. by rewrite app_nil_r.
    - cbn [fold_left]. rewrite arch_do_IRQ_pipelined_run.
      set (w1 := mkCpu _ _ _ _ _).
      destruct (IH w1 Hi Ht) as (evs' & Htr & Hc & Hf & Hr).
      rewrite Htr, Hr. subst w1. cbn [trace irq_regs].
      rewrite <- app_assoc. eexists. split; [reflexivity|].
      rewrite count_occ_app, count_occ_app, List.filter_app, Hf, Hc, Ht.
      by destruct (negb (CONFIG_TINY_RCU p) && current_is_idle w0). }
  destruct (H w eq_refl eq_refl) as (evs' & Htr & Hc & Hf & Hr).
  by rewrite (events_since_app _ _ _ Htr).
Qed.

End DispatcherMoreFacts.


(* ===================================================================== *)
(** ** Further facts about the hart table                                 *)
(* ===================================================================== *)

Section HartidMoreFacts.

Import Smp.

Variable NR_CPUS : nat.

(** X5: A lookup that succeeds names an entry that holds the hart, and on a
    table without repeated harts the lookup of the hart of logical CPU [i]
    gives [i] back. *)
Theorem riscv_hartid_to_cpuid_inverse (map : list Z) (hartid : Z) :
  (0 <= riscv_hartid_to_cpuid NR_CPUS map hartid ->
   riscv_hartid_to_cpuid NR_CPUS map hartid < Z.of_nat NR_CPUS
   /\ map !! Z.to_nat (riscv_hartid_to_cpuid NR_CPUS map hartid)
      = Some hartid)
  /\ (NoDup map ->
      forall i : nat, (i < NR_CPUS)%nat -> map !! i = Some hartid ->
      riscv_hartid_to_cpuid NR_CPUS map hartid = Z.of_nat i).
Proof.
  unfold riscv_hartid_to_cpuid.
  destruct (riscv_hartid_to_cpuid_from_spec map hartid NR_CPUS 0)
    as [(k & Hk & Hm & _ & Hr) | [Hnone Hr]]; rewrite Hr.
  - split.
    + intros _. rewrite Nat2Z.id. split; [lia|done].
    + intros Hnd i Hi Hmi. f_equal.
      by apply (NoDup_lookup map k i hartid).
  - split.
    + unfold ENOENT. lia.
    + intros _ i Hi Hmi. exfalso. apply (Hnone i); [lia|done].
Qed.

(** X6: Once [smp_setup_processor_id] has entered the boot hart, its lookup
    gives logical CPU 0. *)
Theorem smp_setup_processor_id_lookup (map : list Z) (boot_cpu_hartid : Z) :
  (0 < NR_CPUS)%nat ->
  (0 < length map)%nat ->
  riscv_hartid_to_cpuid NR_CPUS
    (smp_setup_processor_id boot_cpu_hartid map) boot_cpu_hartid = 0.
Proof.
  intros Hn Hl. unfold riscv_hartid_to_cpuid, smp_setup_processor_id.
  destruct NR_CPUS as [|n]; [lia|]. cbn [riscv_hartid_to_cpuid_from].
  rewrite list_lookup_insert_eq by done.
  by rewrite bool_decide_eq_true_2.
Qed.

(** X7: The sentinel is found like any other value: on the table as
    initialised the lookup of [INVALID_HARTID] gives logical CPU 0, and
    once the boot hart is entered it gives logical CPU 1, not [-ENOENT]. *)
Theorem riscv_hartid_to_cpuid_sentinel (boot_cpu_hartid : Z) :
  ((0 < NR_CPUS)%nat ->
   riscv_hartid_to_cpuid NR_CPUS (cpuid_to_hartid_map_init NR_CPUS)
     INVALID_HARTID = 0)
  /\ ((1 < NR_CPUS)%nat -> boot_cpu_hartid <> INVALID_HARTID ->
      riscv_hartid_to_cpuid NR_CPUS
        (smp_setup_processor_id boot_cpu_hartid
           (cpuid_to_hartid_map_init NR_CPUS)) INVALID_HARTID = 1).
Proof.
  unfold riscv_hartid_to_cpuid, smp_setup_processor_id,
    cpuid_to_hartid_map_init.
  split.
  - intros Hn. destruct NR_CPUS as [|n]; [lia|].
    cbn [riscv_hartid_to_cpuid_from replicate].
    by rewrite bool_decide_eq_true_2.
  - intros Hn Hne. destruct NR_CPUS as [|[|n]]; [lia|lia|].
    cbn [riscv_hartid_to_cpuid_from replicate].
    rewrite bool_decide_eq_false_2.
    + by rewrite bool_decide_eq_true_2.
    + cbn. congruence.
Qed.

End HartidMoreFacts.

(** On the sample table without its last entry, hart 5 is logical CPU 1
    and the entry found holds hart 5. *)
Lemma riscv_hartid_to_cpuid_inverse_witness :
  Smp.riscv_hartid_to_cpuid 3 [3; 5; Smp.INVALID_HARTID] 5 = 1.
Proof.
  apply (proj2 (riscv_hartid_to_cpuid_inverse 3 [3; 5; Smp.INVALID_HARTID] 5)
           ltac:(apply (bool_decide_unpack _); vm_compute; exact I) 1%nat);
    [lia | reflexivity].
Defined.

Lemma smp_setup_processor_id_lookup_witness :
  Smp.riscv_hartid_to_cpuid 4
    (Smp.smp_setup_processor_id 7 (Smp.cpuid_to_hartid_map_init 4)) 7 = 0.
Proof.
  apply (smp_setup_processor_id_lookup 4 (Smp.cpuid_to_hartid_map_init 4) 7);
    cbn; lia.
Defined.

Lemma riscv_hartid_to_cpuid_sentinel_witness :
  Smp.riscv_hartid_to_cpuid 4
    (Smp.smp_setup_processor_id 7 (Smp.cpuid_to_hartid_map_init 4))
    Smp.INVALID_HARTID = 1.
Proof.
  apply (proj2 (riscv_hartid_to_cpuid_sentinel 4 7)); [lia | discriminate].
Defined.


(* ===================================================================== *)
(** ** Further facts about IPI registration                               *)
(* ===================================================================== *)

Section RegistrationMoreFacts.

Import Smp.

Variable p : platform.

Lemma seqZ_snoc (i : Z) : 0 <= i -> seqZ 0 (i + 1) = seqZ 0 i ++ [i].
Proof. intros Hi. by rewrite seqZ_app by lia. Qed.

Lemma with_events_nil (w : world) : with_events [] w = w.
Proof. destruct w. unfold with_events. cbn. by rewrite app_nil_r. Qed.

Lemma log_with_events (e : event) (evs : list event) (w : world) :
  log e (with_events evs w) = with_events (evs ++ [e]) w.
Proof. unfold log, with_events. cbn. by rewrite app_assoc. Qed.

(** The enabling loop, as a change of the trace alone. *)
Lemma riscv_ipi_enable_events (w : world) :
  ipi_virq_base w <> 0 ->
  riscv_ipi_enable w
  = with_events
      (map (fun i => ev_enable_percpu_irq (ipi_virq_base w + i))
           (seqZ 0 (nr_ipi w))) w.
Proof.
  intros Hb. unfold riscv_ipi_enable.
  destruct (ipi_virq_base w =? 0) eqn:E; [lia|].
  destruct (Z_le_gt_dec (nr_ipi w) 0) as [Hle|Hgt].
  { rewrite for_upto_nonpos, seqZ_nil by done. by rewrite with_events_nil. }
  set (body := fun i w' => log (ev_enable_percpu_irq (ipi_virq_base w' + i)) w').
  assert (Hk : forall k : nat,
    for_upto (Z.of_nat k) body w
    = with_events
        (map (fun i => ev_enable_percpu_irq (ipi_virq_base w + i))
             (seqZ 0 (Z.of_nat k))) w).
  { intros k.
    apply (for_upto_ind (fun i w' =>
      w' = with_events
             (map (fun i => ev_enable_percpu_irq (ipi_virq_base w + i))
                  (seqZ 0 i)) w)).
    - by rewrite with_events_nil.
    - intros i w' Hi ->. subst body. cbn beta.
      rewrite seqZ_snoc, map_app by lia. apply log_with_events. }
  specialize (Hk (Z.to_nat (nr_ipi w))). by rewrite Z2Nat.id in Hk by lia.
Qed.

(** One turn of the request loop, as seen in the trace. *)
Lemma request_ipi_events (virq inband i : Z) (w : world) :
  ipi_virq_base w = virq ->
  ipi_virq_base (request_ipi p inband i w) = virq
  /\ nr_ipi (request_ipi p inband i w) = nr_ipi w
  /\ ipi_enable_warned (request_ipi p inband i w) = ipi_enable_warned w
  /\ trace (request_ipi p inband i w)
     = trace w ++ request_events p virq inband i.
Proof.
  intros Hb. unfold request_ipi, request_events. rewrite Hb.
  destruct (i <? inband); cbn zeta;
    [destruct (request_percpu_irq p (virq + i) =? 0)|];
    smp_fields; rewrite ?Hb, <- ?app_assoc; by repeat split.
Qed.

(** The calls of a first registration, in order. *)
Lemma riscv_ipi_set_virq_range_events (virq nr : Z) (rf : bool)
    (w : world) :
  ipi_virq_base w = 0 ->
  trace (riscv_ipi_set_virq_range p virq nr rf w)
  = trace w
    ++ (if nr <? IPI_MAX then [ev_WARN WARN_nr_below_IPI_MAX] else [])
    ++ flat_map
         (request_events p virq
            (if CONFIG_IRQ_PIPELINE p then 1 else Z.min nr IPI_MAX))
         (seqZ 0 (Z.min nr IPI_MAX))
    ++ (if virq =? 0
        then if ipi_enable_warned w then []
             else [ev_WARN WARN_ONCE_no_virq_base]
        else map (fun i => ev_enable_percpu_irq (virq + i))
                 (seqZ 0 (Z.min nr IPI_MAX))).
Proof.
  intros Hb. unfold riscv_ipi_set_virq_range. rewrite Hb.
  cbn [Z.eqb negb].
  set (w1 := if nr <? IPI_MAX then _ else w).
  set (n := Z.min nr IPI_MAX).
  set (w3 := set_ipi_virq_base virq (set_nr_ipi n w1)).
  assert (H1 : ipi_enable_warned w1 = ipi_enable_warned w
               /\ trace w1 = trace w ++
                    (if nr <? IPI_MAX then [ev_WARN WARN_nr_below_IPI_MAX]
                     else [])).
  { subst w1. destruct (nr <? IPI_MAX); cbn; [done|by rewrite app_nil_r]. }
  destruct H1 as [Hw1 Ht1].
  change (nr_ipi w3) with n. unfold irqs_pipelined.
  set (inband := if CONFIG_IRQ_PIPELINE p then 1 else n).
  assert (Hloop :
    ipi_virq_base (for_upto n (request_ipi p inband) w3) = virq
    /\ nr_ipi (for_upto n (request_ipi p inband) w3) = n
    /\ ipi_enable_warned (for_upto n (request_ipi p inband) w3)
       = ipi_enable_warned w
    /\ trace (for_upto n (request_ipi p inband) w3)
       = trace w1 ++ flat_map (request_events p virq inband) (seqZ 0 n)).
  { destruct (Z_le_gt_dec n 0) as [Hle|Hgt].
    - rewrite for_upto_nonpos, seqZ_nil by done. cbn.
      by rewrite app_nil_r.
    - assert (Hk : forall k : nat,
        let w' := for_upto (Z.of_nat k) (request_ipi p inband) w3 in
        ipi_virq_base w' = virq /\ nr_ipi w' = n
        /\ ipi_enable_warned w' = ipi_enable_warned w
        /\ trace w' = trace w1
             ++ flat_map (request_events p virq inband)
                  (seqZ 0 (Z.of_nat k))).
      { intros k.
        apply (for_upto_ind (fun i w' =>
          ipi_virq_base w' = virq /\ nr_ipi w' = n
          /\ ipi_enable_warned w' = ipi_enable_warned w
          /\ trace w' = trace w1
               ++ flat_map (request_events p virq inband) (seqZ 0 i))).
        - cbn. by rewrite app_nil_r.
        - intros i w' Hi (Hb' & Hn' & Hw' & Ht').
          destruct (request_ipi_events virq inband i w' Hb')
            as (Hb2 & Hn2 & Hw2 & Ht2).
          rewrite seqZ_snoc, flat_map_app by lia. cbn [flat_map].
          rewrite app_nil_r, Ht2, Ht', <- app_assoc.
          repeat split; congruence. }
      specialize (Hk (Z.to_nat n)). by rewrite Z2Nat.id in Hk by lia. }
  set (w4 := for_upto n (request_ipi p inband) w3) in *.
  destruct Hloop as (Hb4 & Hn4 & Hw4 & Ht4).
  smp_fields.
  destruct (virq =? 0) eqn:Ev.
  - apply Z.eqb_eq in Ev. unfold riscv_ipi_enable.
    rewrite Hb4, Ev, Hw4. cbn [Z.eqb].
    destruct (ipi_enable_warned w); smp_fields;
      rewrite Ht4, Ht1, <- ?app_assoc; by rewrite ?app_nil_r, ?Ev.
  - apply Z.eqb_neq in Ev.
    rewrite riscv_ipi_enable_events by congruence.
    unfold with_events. smp_fields.
    by rewrite Ht4, Ht1, Hb4, Hn4, <- !app_assoc.
Qed.

Lemma request_events_no_enable (virq inband : Z) (l : list Z) :
  List.filter is_enable (flat_map (request_events p virq inband) l) = [].
Proof.
  induction l as [|i l IH]; [done|]. cbn [flat_map].
  rewrite List.filter_app, IH, app_nil_r. unfold request_events.
  destruct (i <? inband); [|done].
  by destruct (request_percpu_irq p (virq + i) =? 0).
Qed.

Lemma request_events_requests_shared (virq : Z) (l : list Z) :
  Forall (fun i => 1 <= i) l ->
  List.filter is_request (flat_map (request_events p virq 1) l) = [].
Proof.
  induction 1 as [|i l Hi _ IH]; [done|]. cbn [flat_map].
  rewrite List.filter_app, IH, app_nil_r. unfold request_events.
  destruct (Z.ltb_spec i 1); [lia|done].
Qed.

Lemma enable_events_no_request (virq : Z) (l : list Z) :
  List.filter is_request
    (map (fun i => ev_enable_percpu_irq (virq + i)) l) = [].
Proof. induction l as [|i l IH]; [done|]. cbn. exact IH. Qed.

(** X8: A first registration with a valid line number makes, in this order:
    the warning when fewer than [IPI_MAX] lines are given; for each of
    the [min(nr, IPI_MAX)] lines the request (for the in-band lines only:
    the first line in a pipelined build, all of them otherwise) and the
    mark that hides the line; then the enabling of each line.  It leaves
    the fence key as asked and the range registered. *)
Theorem riscv_ipi_set_virq_range_trace (virq nr : Z)
    (use_for_rfence : bool) (w : world)
    (Hfresh : ipi_virq_base w = 0) (Hvirq : virq <> 0) :
  trace (riscv_ipi_set_virq_range p virq nr use_for_rfence w)
  = trace w
    ++ (if nr <? IPI_MAX then [ev_WARN WARN_nr_below_IPI_MAX] else [])
    ++ flat_map
         (request_events p virq
            (if CONFIG_IRQ_PIPELINE p then 1 else Z.min nr IPI_MAX))
         (seqZ 0 (Z.min nr IPI_MAX))
    ++ map (fun i => ev_enable_percpu_irq (virq + i))
           (seqZ 0 (Z.min nr IPI_MAX))
  /\ riscv_ipi_for_rfence
       (riscv_ipi_set_virq_range p virq nr use_for_rfence w)
     = use_for_rfence
  /\ riscv_ipi_have_virq_range
       (riscv_ipi_set_virq_range p virq nr use_for_rfence w) = true.
Proof.
  split; [|split].
  - rewrite riscv_ipi_set_virq_range_events by done.
    by destruct (Z.eqb_spec virq 0).
  - unfold riscv_ipi_set_virq_range. rewrite Hfresh. reflexivity.
  - unfold riscv_ipi_have_virq_range.
    destruct (riscv_ipi_set_virq_range_first p virq nr use_for_rfence w
                Hfresh) as (Hb & _).
    rewrite Hb. by destruct (Z.eqb_spec virq 0).
Qed.

(** X9: In a pipelined build a first registration of at least one line
    requests the first line of the range and no other: the in-band reasons
    share it. *)
Theorem riscv_ipi_set_virq_range_pipelined_request (virq nr : Z)
    (use_for_rfence : bool) (w : world)
    (Hpipe : CONFIG_IRQ_PIPELINE p = true)
    (Hfresh : ipi_virq_base w = 0) (Hnr : 0 < nr) :
  List.filter is_request
    (events_since w (riscv_ipi_set_virq_range p virq nr use_for_rfence w))
  = [ev_request_percpu_irq virq].
Proof.
  erewrite smp_events_since_app
    by (apply riscv_ipi_set_virq_range_events; exact Hfresh).
  rewrite Hpipe.
  set (n := Z.min nr IPI_MAX).
  assert (Hn : 0 < n) by (unfold n, IPI_MAX; lia).
  rewrite (seqZ_cons 0 n) at 1 by done. cbn [flat_map].
  rewrite !List.filter_app.
  assert (Htail : List.filter is_request
            (flat_map (request_events p virq 1) (seqZ (Z.succ 0) (Z.pred n)))
          = []).
  { apply request_events_requests_shared. apply Forall_seqZ. intros; lia. }
  rewrite Htail.
  assert (Hlast : List.filter is_request
            (if virq =? 0
             then if ipi_enable_warned w then []
                  else [ev_WARN WARN_ONCE_no_virq_base]
             else map (fun i => ev_enable_percpu_irq (virq + i)) (seqZ 0 n))
          = []).
  { destruct (virq =? 0); [by destruct (ipi_enable_warned w)|].
    apply enable_events_no_request. }
  rewrite Hlast.
  assert (Hwarn : List.filter is_request
            (if nr <? IPI_MAX then [ev_WARN WARN_nr_below_IPI_MAX] else [])
          = []) by (by destruct (nr <? IPI_MAX)).
  rewrite Hwarn. unfold request_events. cbn [Z.ltb Z.compare].
  rewrite Z.add_0_r.
  by destruct (request_percpu_irq p virq =? 0).
Qed.

(** X10: A first registration at line 0 is carried out like any other,
    and only the base stays 0.  It makes the warning for fewer than
    [IPI_MAX] lines, the requests and the hiding marks for the lines from
    0 on, and it overwrites [nr_ipi], the first [min(nr, IPI_MAX)]
    descriptors and the fence key.  With the base still 0, the enabling at
    its end enables no line and gives its once-only warning,
    [riscv_ipi_have_virq_range] answers no, and the one-shot guard is not
    armed: a later registration is taken as the first. *)
Theorem riscv_ipi_set_virq_range_zero (nr : Z) (use_for_rfence : bool)
    (w : world) (Hfresh : ipi_virq_base w = 0) :
  let w' := riscv_ipi_set_virq_range p 0 nr use_for_rfence w in
  events_since w w'
  = (if nr <? IPI_MAX then [ev_WARN WARN_nr_below_IPI_MAX] else [])
    ++ flat_map
         (request_events p 0
            (if CONFIG_IRQ_PIPELINE p then 1 else Z.min nr IPI_MAX))
         (seqZ 0 (Z.min nr IPI_MAX))
    ++ (if ipi_enable_warned w then [] else [ev_WARN WARN_ONCE_no_virq_base])
  /\ nr_ipi w' = Z.min nr IPI_MAX
  /\ (forall j : nat, Z.of_nat j < Z.min nr IPI_MAX ->
        (j < length (ipi_desc w))%nat ->
        ipi_desc w' !! j = Some (irq_to_desc p (Z.of_nat j)))
  /\ (forall j : nat, Z.min nr IPI_MAX <= Z.of_nat j ->
        ipi_desc w' !! j = ipi_desc w !! j)
  /\ riscv_ipi_for_rfence w' = use_for_rfence
  /\ ipi_virq_base w' = 0
  /\ riscv_ipi_have_virq_range w' = false
  /\ forall virq' nr' use_for_rfence',
       ipi_virq_base
         (riscv_ipi_set_virq_range p virq' nr' use_for_rfence' w')
       = virq'.
Proof.
  intros w'.
  destruct (riscv_ipi_set_virq_range_first p 0 nr use_for_rfence w Hfresh)
    as (Hb & Hn & _ & Hd & Hrest & _).
  fold w' in Hb, Hn, Hd, Hrest.
  split.
  { apply smp_events_since_app. subst w'.
    rewrite riscv_ipi_set_virq_range_events by exact Hfresh.
    reflexivity. }
  split; [exact Hn|].
  split; [intros j Hj Hlen; by rewrite (Hd j Hj Hlen), Z.add_0_l|].
  split; [exact Hrest|].
  split.
  { subst w'. unfold riscv_ipi_set_virq_range. rewrite Hfresh.
    reflexivity. }
  split; [exact Hb|].
  split; [unfold riscv_ipi_have_virq_range; by rewrite Hb|].
  intros virq' nr' rf'.
  by destruct (riscv_ipi_set_virq_range_first p virq' nr' rf' w' Hb).
Qed.

(** X11: With a range registered, [riscv_ipi_enable] enables the lines
    [ipi_virq_base], ..., [ipi_virq_base + nr_ipi - 1] in this order and
    does nothing else. *)
Theorem riscv_ipi_enable_lines (w : world) (Hbase : ipi_virq_base w <> 0) :
  riscv_ipi_enable w
  = with_events
      (map (fun i => ev_enable_percpu_irq (ipi_virq_base w + i))
           (seqZ 0 (nr_ipi w))) w.
Proof. by apply riscv_ipi_enable_events. Qed.

(** X12: With no range registered, [riscv_ipi_enable] enables nothing; it warns
    the first time only, so that a second call changes nothing. *)
Theorem riscv_ipi_enable_warns_once (w : world)
    (Hbase : ipi_virq_base w = 0) :
  events_since w (riscv_ipi_enable w)
  = (if ipi_enable_warned w then [] else [ev_WARN WARN_ONCE_no_virq_base])
  /\ ipi_enable_warned (riscv_ipi_enable w) = true
  /\ riscv_ipi_enable (riscv_ipi_enable w) = riscv_ipi_enable w.
Proof.
  assert (H1 : riscv_ipi_enable w
               = if ipi_enable_warned w then w
                 else log (ev_WARN WARN_ONCE_no_virq_base)
                        (set_ipi_enable_warned true w)).
  { unfold riscv_ipi_enable. by rewrite Hbase. }
  rewrite H1. destruct (ipi_enable_warned w) eqn:E.
  - unfold events_since. rewrite drop_all.
    split; [done|]. split; [done|]. exact H1.
  - split; [by apply smp_events_since_app|]. split; [done|].
    unfold riscv_ipi_enable. smp_fields. rewrite Hbase. reflexivity.
Qed.

End RegistrationMoreFacts.

Lemma riscv_ipi_set_virq_range_trace_witness :
  Smp.riscv_ipi_for_rfence
    (Smp.riscv_ipi_set_virq_range (Sample.smp_platform true false) 8 8 true
       (Sample.boot_world 15)) = true.
Proof.
  refine (proj1 (proj2 (riscv_ipi_set_virq_range_trace
            (Sample.smp_platform true false) 8 8 true (Sample.boot_world 15)
            eq_refl _))).
  discriminate.
Defined.

Lemma riscv_ipi_set_virq_range_pipelined_request_witness :
  List.filter Smp.is_request
    (Smp.events_since (Sample.boot_world 15)
       (Smp.riscv_ipi_set_virq_range (Sample.smp_platform true false) 8 8
          false (Sample.boot_world 15)))
  = [Smp.ev_request_percpu_irq 8].
Proof.
  apply (riscv_ipi_set_virq_range_pipelined_request
           (Sample.smp_platform true false) 8 8 false (Sample.boot_world 15));
    reflexivity.
Defined.

Lemma riscv_ipi_set_virq_range_zero_witness :
  Smp.events_since (Sample.boot_world 15)
    (Smp.riscv_ipi_set_virq_range (Sample.smp_platform true false) 0 8 false
       (Sample.boot_world 15))
  = (if 8 <? Smp.IPI_MAX then [Smp.ev_WARN Smp.WARN_nr_below_IPI_MAX]
     else [])
    ++ flat_map
         (Smp.request_events (Sample.smp_platform true false) 0
            (if Smp.CONFIG_IRQ_PIPELINE (Sample.smp_platform true false)
             then 1 else Z.min 8 Smp.IPI_MAX))
         (seqZ 0 (Z.min 8 Smp.IPI_MAX))
    ++ (if Smp.ipi_enable_warned (Sample.boot_world 15) then []
        else [Smp.ev_WARN Smp.WARN_ONCE_no_virq_base]).
Proof.
  apply (proj1 (riscv_ipi_set_virq_range_zero
                  (Sample.smp_platform true false) 8 false
                  (Sample.boot_world 15) eq_refl)).
Defined.

Lemma riscv_ipi_enable_lines_witness :
  Smp.riscv_ipi_enable (Sample.registered_world true)
  = Smp.with_events
      (map (fun i => Smp.ev_enable_percpu_irq
                       (Smp.ipi_virq_base (Sample.registered_world true) + i))
           (seqZ 0 (Smp.nr_ipi (Sample.registered_world true))))
      (Sample.registered_world true).
Proof.
  apply (riscv_ipi_enable_lines (Sample.registered_world true)).
  vm_compute. discriminate.
Defined.

Lemma riscv_ipi_enable_warns_once_witness :
  Smp.riscv_ipi_enable (Smp.riscv_ipi_enable (Sample.boot_world 15))
  = Smp.riscv_ipi_enable (Sample.boot_world 15).
Proof.
  apply (proj2 (proj2 (riscv_ipi_enable_warns_once (Sample.boot_world 15)
                         eq_refl))).
Defined.


(* ===================================================================== *)
(** ** Further facts about sending and receiving                          *)
(* ===================================================================== *)

Section SendReceiveMoreFacts.

Import Smp.

Variable p : platform.

Lemma filter_none {A : Type} (P : A -> Prop) `{!forall x, Decision (P x)}
    (l : list A) :
  Forall (fun x => ~ P x) l -> filter P l = [].
Proof.
  induction 1 as [|x l Hx _ IH]; [done|]. by rewrite filter_cons_False.
Qed.

Lemma filter_ext_Forall {A : Type} (P1 P2 : A -> Prop)
    `{!forall x, Decision (P1 x), !forall x, Decision (P2 x)} (l : list A) :
  Forall (fun x => P1 x <-> P2 x) l -> filter P1 l = filter P2 l.
Proof.
  induction 1 as [|x l Hx _ IH]; [done|].
  destruct (decide (P1 x)).
  - rewrite !filter_cons_True by tauto. by rewrite IH.
  - rewrite !filter_cons_False by tauto. by rewrite IH.
Qed.

(** The pending reasons from [lo] up, when the lowest of them is [k]. *)
Lemma pending_from_lowest (m k : Z) (d : nat) (lo : Z) :
  lo = k - Z.of_nat d -> 0 <= lo -> k < IPI_MAX ->
  Z.testbit m k = true ->
  (forall i, lo <= i < k -> Z.testbit m i = false) ->
  filter (fun r => Z.testbit m r = true) (seqZ lo (IPI_MAX - lo))
  = k :: filter (fun r => Z.testbit (Z.clearbit m k) r = true)
           (seqZ (k + 1) (IPI_MAX - (k + 1))).
Proof.
  revert lo. induction d as [|d IH]; intros lo Hlo Hge Hk Hset Hlow.
  - assert (lo = k) as -> by lia.
    rewrite seqZ_cons by lia. rewrite filter_cons_True by done.
    f_equal. replace (Z.succ k) with (k + 1) by lia.
    replace (Z.pred (IPI_MAX - k)) with (IPI_MAX - (k + 1)) by lia.
    apply filter_ext_Forall, Forall_seqZ. intros i Hi.
    by rewrite Z.clearbit_neq by lia.
  - rewrite seqZ_cons by lia.
    rewrite filter_cons_False by (rewrite Hlow by lia; done).
    replace (Z.pred (IPI_MAX - lo)) with (IPI_MAX - Z.succ lo) by lia.
    apply IH; try lia; try done. intros i Hi. apply Hlow. lia.
Qed.

Lemma __handle_IPI_ret_event (irq : Z) (w w1 : world) :
  __handle_IPI p irq w = Ret w1 ->
  exists e,
    __handle_IPI_event p (ipi_virq_base w) irq = Some e /\ w1 = log e w.
Proof.
  unfold __handle_IPI, __handle_IPI_event, ipi_stop, ipi_cpu_crash_stop.
  destruct (ipi_of_nr _) as [[]|];
    repeat match goal with
           | |- context [if ?b then _ else _] => destruct b
           end;
    intros [= <-]; by eexists.
Qed.

Lemma __handle_IPI_event_ret (irq : Z) (w : world) (e : event) :
  __handle_IPI_event p (ipi_virq_base w) irq = Some e ->
  __handle_IPI p irq w = Ret (log e w).
Proof.
  unfold __handle_IPI, __handle_IPI_event.
  destruct (ipi_of_nr _) as [[]|];
    repeat match goal with
           | |- context [if ?b then _ else _] => destruct b
           end;
    by intros [= <-].
Qed.

(** One turn of the drain loop that goes on, in full. *)
Lemma handle_IPI_iteration_full (w w1 : world) :
  clear_bit_this_cpu p
    (to_uint (ffs (ipi_messages w (smp_processor_id p)) - 1)) w
  >>= this_cpu_inc_ipi_counts p
        (to_uint (ffs (ipi_messages w (smp_processor_id p)) - 1))
  >>= __handle_IPI p
        (to_int (to_uint (ffs (ipi_messages w (smp_processor_id p)) - 1)))
  = Ret w1 ->
  exists (k : Z) (e : event),
    k = ffs (ipi_messages w (smp_processor_id p)) - 1
    /\ 0 <= k < IPI_MAX
    /\ Z.testbit (ipi_messages w (smp_processor_id p)) k = true
    /\ (forall i, 0 <= i < k ->
          Z.testbit (ipi_messages w (smp_processor_id p)) i = false)
    /\ __handle_IPI_event p (ipi_virq_base w) k = Some e
    /\ w1 = log e
              (set_ipi_counts
                 (<[smp_processor_id p :=
                      alter (fun c => to_uint (c + 1)) (Z.to_nat k)
                        (ipi_counts w (smp_processor_id p))]> (ipi_counts w))
                 (set_ipi_messages
                    (<[smp_processor_id p :=
                         Z.clearbit (ipi_messages w (smp_processor_id p)) k]>
                       (ipi_messages w)) w)).
Proof.
  set (m := ipi_messages w (smp_processor_id p)).
  unfold clear_bit_this_cpu, this_cpu_inc_ipi_counts.
  destruct (to_uint (ffs m - 1) <? BITS_PER_LONG) eqn:E64; [|done].
  cbn [bind].
  destruct (to_uint (ffs m - 1) <? IPI_MAX) eqn:E6; [|done].
  cbn [bind]. intros Hret.
  apply Z.ltb_lt in E6.
  destruct (decide (ffs m = 0)) as [Hz|Hnz].
  { rewrite ffs_zero in E6 by done. unfold IPI_MAX in E6. lia. }
  destruct (ffs_lowest m Hnz) as (Hk & Hu & Hset & Hlow).
  rewrite Hu in *.
  rewrite to_int_small in Hret by (unfold IPI_MAX in E6; lia).
  apply __handle_IPI_ret_event in Hret as (e & He & ->).
  exists (ffs m - 1), e. smp_fields. repeat split; try done; lia.
Qed.

(** What the drain loop has done when it returns, entered with no reason
    below [lo] pending. *)
Lemma handle_IPI_loop_run (fuel : nat) (lo : Z) (w w' : world) :
  0 <= lo <= IPI_MAX ->
  (forall i, 0 <= i < lo ->
     Z.testbit (ipi_messages w (smp_processor_id p)) i = false) ->
  handle_IPI_loop p fuel w = Some (Ret w') ->
  ipi_virq_base w' = ipi_virq_base w
  /\ cpu_online_mask w' = cpu_online_mask w
  /\ waiting_for_crash_ipi w' = waiting_for_crash_ipi w
  /\ (forall c, c <> smp_processor_id p ->
        ipi_messages w' c = ipi_messages w c
        /\ ipi_counts w' c = ipi_counts w c)
  /\ (forall j : nat,
        ipi_counts w' (smp_processor_id p) !! j
        = (fun c => if Z.testbit (ipi_messages w (smp_processor_id p))
                         (Z.of_nat j)
                    then to_uint (c + 1) else c)
          <$> ipi_counts w (smp_processor_id p) !! j)
  /\ (forall j, IPI_MAX <= j ->
        Z.testbit (ipi_messages w (smp_processor_id p)) j = false)
  /\ exists evs,
       trace w' = trace w ++ evs
       /\ Forall2 (fun e r => __handle_IPI_event p (ipi_virq_base w) r
                              = Some e)
            evs
            (filter (fun r => Z.testbit (ipi_messages w (smp_processor_id p))
                                r = true)
                    (seqZ lo (IPI_MAX - lo))).
Proof.
  revert lo w. induction fuel as [|fuel IH]; intros lo w Hlo Hclear;
    cbn [handle_IPI_loop];
    destruct (ipi_messages w (smp_processor_id p) =? 0) eqn:E0.
  1,3: intros [= <-]; apply Z.eqb_eq in E0; rewrite E0;
    (repeat split; try done);
    [ intros j; rewrite Z.bits_0;
      by destruct (ipi_counts w (smp_processor_id p) !! j)
    | intros j _; apply Z.bits_0
    | exists []; rewrite app_nil_r; split; [done|];
      rewrite filter_none; [constructor|];
      apply Forall_seqZ; intros i _; by rewrite Z.bits_0 ].
  - done.
  - destruct (_ >>= _ >>= _) as [w1| |] eqn:E; [|done|done].
    apply handle_IPI_iteration_full in E
      as (k & e & _ & Hk & Hset & Hlow & He & Hw1).
    set (m := ipi_messages w (smp_processor_id p)) in *.
    assert (lo <= k).
    { destruct (Z_lt_ge_dec k lo) as [Hlt|]; [|lia].
      rewrite Hclear in Hset by lia. done. }
    assert (Hm1 : ipi_messages w1 (smp_processor_id p) = Z.clearbit m k).
    { rewrite Hw1. smp_fields. by rewrite fn_lookup_insert. }
    assert (Hc1 : ipi_counts w1 (smp_processor_id p)
                  = alter (fun c => to_uint (c + 1)) (Z.to_nat k)
                      (ipi_counts w (smp_processor_id p))).
    { rewrite Hw1. smp_fields. by rewrite fn_lookup_insert. }
    intros Hrun.
    apply (IH (k + 1)) in Hrun
      as (Hb & Ho & Hwt & Hoth & Hcnt & Hhigh & evs & Htr & Hall);
      [|lia|].
    2:{ intros i Hi. rewrite Hm1.
        destruct (decide (i = k)) as [->|Hne]; [apply Z.clearbit_eq|].
        rewrite Z.clearbit_neq by lia. apply Hlow. lia. }
    rewrite Hm1 in Hcnt, Hhigh, Hall. rewrite Hc1 in Hcnt.
    assert (Hb1 : ipi_virq_base w1 = ipi_virq_base w) by (by rewrite Hw1).
    split; [by rewrite Hb, Hw1|]. split; [by rewrite Ho, Hw1|].
    split; [by rewrite Hwt, Hw1|].
    split.
    { intros c Hc. destruct (Hoth c Hc) as [-> ->]. rewrite Hw1.
      smp_fields. by rewrite !fn_lookup_insert_ne by done. }
    split.
    { intros j. rewrite Hcnt.
      destruct (decide (j = Z.to_nat k)) as [->|Hj].
      - rewrite list_lookup_alter_eq, Z2Nat.id, Z.clearbit_eq, Hset by lia.
        by destruct (ipi_counts w (smp_processor_id p) !! Z.to_nat k).
      - rewrite list_lookup_alter_ne by done.
        by rewrite Z.clearbit_neq by lia. }
    split.
    { intros j Hj. rewrite <- (Hhigh j Hj).
      symmetry. apply Z.clearbit_neq. lia. }
    exists (e :: evs). split.
    { rewrite Htr, Hw1. smp_fields. by rewrite <- app_assoc. }
    rewrite (pending_from_lowest m k (Z.to_nat (k - lo)) lo);
      [|lia|lia|lia|done|intros i Hi; apply Hlow; lia].
    constructor; [done|]. by rewrite <- Hb1.
Qed.

(** X13: [handle_IPI] always comes to an end, and when the handler of a
    pipelined build returns, this CPU's pending word is zero. *)
Theorem handle_IPI_settles (irq : Z) (w : world) :
  exists r,
    handle_IPI p irq w = Some r
    /\ (CONFIG_IRQ_PIPELINE p = true ->
        forall w', r = Ret w' -> ipi_messages w' (smp_processor_id p) = 0).
Proof.
  destruct (handle_IPI p irq w) as [r|] eqn:E;
    [|by destruct (handle_IPI_ends p irq w)].
  exists r. split; [done|]. intros Hpipe w' ->.
  unfold handle_IPI in E. rewrite Hpipe in E.
  by apply (handle_IPI_loop_drained p handle_IPI_fuel w).
Qed.

(** X14: When the handler of a pipelined build returns, each counter of this
    CPU whose reason was pending has gone up by one (modulo 2^32), every
    other counter is as it was, the other CPUs' words and counters are
    untouched, and so are the online mask and the registered base. *)
Theorem handle_IPI_counts (irq : Z) (w w' : world)
    (Hpipe : CONFIG_IRQ_PIPELINE p = true)
    (Hret : handle_IPI p irq w = Some (Ret w')) :
  (forall j : nat,
      ipi_counts w' (smp_processor_id p) !! j
      = (fun c => if Z.testbit (ipi_messages w (smp_processor_id p))
                       (Z.of_nat j)
                  then to_uint (c + 1) else c)
        <$> ipi_counts w (smp_processor_id p) !! j)
  /\ (forall c, c <> smp_processor_id p ->
        ipi_messages w' c = ipi_messages w c
        /\ ipi_counts w' c = ipi_counts w c)
  /\ cpu_online_mask w' = cpu_online_mask w
  /\ ipi_virq_base w' = ipi_virq_base w.
Proof.
  unfold handle_IPI in Hret. rewrite Hpipe in Hret.
  apply (handle_IPI_loop_run handle_IPI_fuel 0) in Hret
    as (Hb & Ho & _ & Hoth & Hcnt & _); [done|done|].
  intros i Hi. lia.
Qed.

(** X15: When the handler of a pipelined build returns, no bit from [IPI_MAX]
    on was pending, and [__handle_IPI] was called once for each pending
    reason, lowest first, with the reason number as its argument. *)
Theorem handle_IPI_calls (irq : Z) (w w' : world)
    (Hpipe : CONFIG_IRQ_PIPELINE p = true)
    (Hret : handle_IPI p irq w = Some (Ret w')) :
  (forall j, IPI_MAX <= j ->
     Z.testbit (ipi_messages w (smp_processor_id p)) j = false)
  /\ Forall2 (fun e r => __handle_IPI_event p (ipi_virq_base w) r = Some e)
       (events_since w w')
       (pending_reasons (ipi_messages w (smp_processor_id p))).
Proof.
  unfold handle_IPI in Hret. rewrite Hpipe in Hret.
  apply (handle_IPI_loop_run handle_IPI_fuel 0) in Hret
    as (_ & _ & _ & _ & _ & Hhigh & evs & Htr & Hall); [|done|].
  2:{ intros i Hi. lia. }
  split; [done|].
  rewrite (smp_events_since_app _ _ _ Htr).
  unfold pending_reasons. by rewrite Z.sub_0_r in Hall.
Qed.

(** X16: A send of an enumerated reason never faults and raises one line for
    the whole mask: the shared line 0 in a pipelined build, the reason's
    own line otherwise.  Only a pipelined build marks pending words, and
    it marks the reason's bit for the CPUs of the mask below [NR_CPUS]
    and for no other. *)
Theorem send_ipi_mask_effect (mask : Z) (op : ipi_message_type)
    (w : world) :
  exists w',
    send_ipi_mask p mask op w = Ret w'
    /\ events_since w w'
       = [ev_ipi_send_mask
            (default None
               (ipi_desc w
                  !! Z.to_nat (if CONFIG_IRQ_PIPELINE p then 0
                               else ipi_nr op)))
            mask]
    /\ forall c : nat,
         ipi_messages w' c
         = if CONFIG_IRQ_PIPELINE p
              && (bool_decide (c < NR_CPUS p)%nat && cpumask_test_cpu c mask)
           then Z.setbit (ipi_messages w c) (ipi_nr op)
           else ipi_messages w c.
Proof.
  destruct (send_ipi_mask_ret p mask op w)
    as (w' & Hr & Ht & _ & _ & _ & _ & Hm).
  exists w'. split; [done|]. split; [by apply smp_events_since_app|done].
Qed.

(** X17: Senders of one reason coalesce: a second send of the same reason to
    the same mask raises the line again but leaves every pending word as
    the first send left it. *)
Theorem send_ipi_mask_coalesces (mask : Z) (op : ipi_message_type)
    (w : world) :
  exists w1 w2,
    send_ipi_mask p mask op w = Ret w1
    /\ send_ipi_mask p mask op w1 = Ret w2
    /\ (forall c : nat, ipi_messages w2 c = ipi_messages w1 c)
    /\ length (List.filter is_ipi_send (events_since w w2)) = 2%nat.
Proof.
  destruct (send_ipi_mask_ret p mask op w)
    as (w1 & Hr1 & Ht1 & _ & _ & _ & _ & Hm1).
  destruct (send_ipi_mask_ret p mask op w1)
    as (w2 & Hr2 & Ht2 & _ & _ & _ & _ & Hm2).
  exists w1, w2. split; [done|]. split; [done|]. split.
  - intros c. rewrite Hm2, Hm1.
    destruct (CONFIG_IRQ_PIPELINE p
              && (bool_decide (c < NR_CPUS p)%nat && cpumask_test_cpu c mask));
      [apply setbit_idem | done].
  - erewrite smp_events_since_app
      by (rewrite Ht2, Ht1, <- app_assoc; reflexivity).
    done.
Qed.

End SendReceiveMoreFacts.

Lemma handle_IPI_settles_witness :
  exists r,
    Smp.handle_IPI (Sample.smp_platform true false) 8
      Sample.two_pending_world = Some r.
Proof.
  destruct (handle_IPI_settles (Sample.smp_platform true false) 8
              Sample.two_pending_world) as (r & Hr & _).
  by exists r.
Defined.

Lemma handle_IPI_counts_witness :
  Smp.ipi_counts Sample.two_pending_handled 0%nat !! 4%nat
  = (fun c => if Z.testbit (Smp.ipi_messages Sample.two_pending_world 0%nat)
                   (Z.of_nat 4)
              then Smp.to_uint (c + 1) else c)
    <$> Smp.ipi_counts Sample.two_pending_world 0%nat !! 4%nat.
Proof.
  apply (proj1 (handle_IPI_counts (Sample.smp_platform true false) 8
                  Sample.two_pending_world Sample.two_pending_handled
                  eq_refl ltac:(vm_compute; reflexivity))).
Defined.

Lemma handle_IPI_calls_witness :
  Forall2
    (fun e r =>
       Smp.__handle_IPI_event (Sample.smp_platform true false)
         (Smp.ipi_virq_base Sample.two_pending_world) r = Some e)
    (Smp.events_since Sample.two_pending_world Sample.two_pending_handled)
    (Smp.pending_reasons (Smp.ipi_messages Sample.two_pending_world 0%nat)).
Proof.
  apply (proj2 (handle_IPI_calls (Sample.smp_platform true false) 8
                  Sample.two_pending_world Sample.two_pending_handled
                  eq_refl ltac:(vm_compute; reflexivity))).
Defined.

Section RaiseStopMoreFacts.

Import Smp.

Variable p : platform.

Lemma shiftl_one_reason (r : Z) :
  0 <= r < IPI_MAX ->
  (Z.shiftl 1 r =? 0) = false
  /\ to_uint (ffs (Z.shiftl 1 r) - 1) = r
  /\ Z.clearbit (Z.shiftl 1 r) r = 0
  /\ to_int r = r.
Proof.
  unfold IPI_MAX. intros Hr.
  assert (r = 0 \/ r = 1 \/ r = 2 \/ r = 3 \/ r = 4 \/ r = 5)
    as [->|[->|[->|[->|[->| ->]]]]] by lia; by vm_compute.
Qed.

(** The drain loop on a word with one counted reason pending. *)
Lemma handle_IPI_loop_one_pending (r : Z) (e : event) (fuel : nat)
    (w : world) :
  0 <= r < IPI_MAX ->
  ipi_messages w (smp_processor_id p) = Z.shiftl 1 r ->
  __handle_IPI_event p (ipi_virq_base w) r = Some e ->
  handle_IPI_loop p (S (S fuel)) w
  = Some (Ret (log e
                 (set_ipi_counts
                    (<[smp_processor_id p :=
                         alter (fun c => to_uint (c + 1)) (Z.to_nat r)
                           (ipi_counts w (smp_processor_id p))]>
                       (ipi_counts w))
                    (set_ipi_messages
                       (<[smp_processor_id p := 0]> (ipi_messages w)) w)))).
Proof.
  intros Hr Hm He.
  destruct (shiftl_one_reason r Hr) as (Hnz & Hffs & Hclr & Hint).
  cbn [handle_IPI_loop]. rewrite Hm, Hnz, Hffs, Hint.
  unfold clear_bit_this_cpu at 1.
  destruct (Z.ltb_spec r BITS_PER_LONG);
    [|unfold BITS_PER_LONG, IPI_MAX in *; lia].
  cbn [bind]. unfold this_cpu_inc_ipi_counts at 1.
  destruct (Z.ltb_spec r IPI_MAX); [|lia].
  cbn [bind]. rewrite Hm, Hclr.
  erewrite __handle_IPI_event_ret by (smp_fields; exact He).
  smp_fields. rewrite fn_lookup_insert. reflexivity.
Qed.

(** X18: Raising IRQ work on a CPU with nothing pending and then taking the
    IPI, in a pipelined build: the shared line is raised for this CPU
    alone, the handler returns with nothing pending, and the IRQ-work
    counter has gone up by one. *)
Theorem arch_irq_work_raise_handled (irq : Z) (w : world)
    (Hpipe : CONFIG_IRQ_PIPELINE p = true)
    (Hnone : ipi_messages w (smp_processor_id p) = 0)
    (Hbase : 2 < ipi_virq_base w < 2 ^ 31) :
  exists w1 w2,
    arch_irq_work_raise p w = Ret w1
    /\ events_since w w1
       = [ev_ipi_send_mask (default None (ipi_desc w !! 0%nat))
            (cpumask_of (smp_processor_id p))]
    /\ handle_IPI p irq w1 = Some (Ret w2)
    /\ ipi_messages w2 (smp_processor_id p) = 0
    /\ ipi_counts w2 (smp_processor_id p)
       = alter (fun c => to_uint (c + 1)) (Z.to_nat (ipi_nr IPI_IRQ_WORK))
           (ipi_counts w (smp_processor_id p)).
Proof.
  assert (He : exists e,
            __handle_IPI_event p (ipi_virq_base w) (ipi_nr IPI_IRQ_WORK)
            = Some e).
  { unfold __handle_IPI_event. cbn [ipi_nr].
    rewrite to_int_small by lia.
    destruct (decide (ipi_virq_base w = 3)) as [->|H3]; [by eexists|].
    destruct (decide (ipi_virq_base w = 4)) as [->|H4]; [by eexists|].
    rewrite ipi_of_nr_neg by lia. by eexists. }
  destruct He as [e He].
  eexists _, _. split.
  { unfold arch_irq_work_raise, send_ipi_single, __send_ipi_single,
      __send_ipi_mask. rewrite Hpipe. reflexivity. }
  split.
  { apply smp_events_since_app. reflexivity. }
  split.
  { unfold handle_IPI, handle_IPI_fuel. rewrite Hpipe.
    apply (handle_IPI_loop_one_pending (ipi_nr IPI_IRQ_WORK) e).
    - done.
    - smp_fields. unfold set_bit_ipi_messages. smp_fields.
      by rewrite fn_lookup_insert, Hnone.
    - exact He. }
  smp_fields. unfold set_bit_ipi_messages. smp_fields.
  by rewrite !fn_lookup_insert.
Qed.

(** Clearing a CPU in a mask takes one off its weight when the CPU was
    in the mask and is one of the [NR_CPUS], and nothing otherwise. *)
Lemma cpumask_weight_clear (c : nat) (m : Z) :
  cpumask_weight p (cpumask_clear_cpu c m)
  = cpumask_weight p m
    - Z.b2z (bool_decide (c < NR_CPUS p)%nat && cpumask_test_cpu c m).
Proof.
  unfold cpumask_weight.
  assert (H : forall l : list nat, NoDup l ->
    (length (filter (fun x => cpumask_test_cpu x (cpumask_clear_cpu c m)
                              = true) l)
     + (if bool_decide (c ∈ l) && cpumask_test_cpu c m then 1 else 0)
     = length (filter (fun x => cpumask_test_cpu x m = true) l))%nat).
  { induction 1 as [|x l Hx Hnd IH]; [done|].
    destruct (decide (x = c)) as [->|Hne].
    - rewrite (bool_decide_eq_true_2 (c ∈ c :: l)) by apply list_elem_of_here.
      rewrite (bool_decide_eq_false_2 (c ∈ l)) in IH by done.
      cbn [andb] in IH. rewrite Nat.add_0_r in IH.
      rewrite filter_cons_False.
      2:{ unfold cpumask_test_cpu, cpumask_clear_cpu.
          by rewrite Z.clearbit_eq. }
      rewrite IH. cbn [andb].
      destruct (cpumask_test_cpu c m) eqn:Et.
      + rewrite filter_cons_True by done. cbn [length]. lia.
      + rewrite filter_cons_False by (by rewrite Et). lia.
    - assert (Hin : bool_decide (c ∈ x :: l) = bool_decide (c ∈ l)).
      { apply bool_decide_ext. rewrite elem_of_cons.
        split; [intros [?|?]; [congruence|done] | by right]. }
      rewrite Hin.
      assert (Hsame : cpumask_test_cpu x (cpumask_clear_cpu c m)
                      = cpumask_test_cpu x m).
      { unfold cpumask_test_cpu, cpumask_clear_cpu.
        apply Z.clearbit_neq. lia. }
      destruct (cpumask_test_cpu x m) eqn:Et.
      + rewrite !filter_cons_True by (by rewrite ?Hsame). cbn [length]. lia.
      + rewrite !filter_cons_False by (by rewrite ?Hsame, ?Et). exact IH. }
  specialize (H (seq 0 (NR_CPUS p)) (NoDup_seq 0 (NR_CPUS p))).
  assert (Hin : bool_decide (c ∈ seq 0 (NR_CPUS p))
                = bool_decide (c < NR_CPUS p)%nat).
  { apply bool_decide_ext. rewrite elem_of_seq. lia. }
  rewrite Hin in H.
  destruct (bool_decide (c < NR_CPUS p)%nat && cpumask_test_cpu c m);
    cbn [Z.b2z]; lia.
Qed.

Lemma cpumask_weight_bound (m : Z) :
  0 <= cpumask_weight p m <= Z.of_nat (NR_CPUS p).
Proof.
  unfold cpumask_weight.
  pose proof (length_filter (fun c => cpumask_test_cpu c m = true)
                (seq 0 (NR_CPUS p))) as H.
  rewrite length_seq in H. lia.
Qed.

(** X19: [num_other_online_cpus] counts the CPUs a stop IPI is sent to: the
    online mask with the calling CPU cleared. *)
Theorem num_other_online_cpus_targets (w : world)
    (Hcpu : (smp_processor_id p < NR_CPUS p)%nat)
    (Hfit : Z.of_nat (NR_CPUS p) < 2 ^ 32) :
  num_other_online_cpus p w
  = cpumask_weight p
      (cpumask_clear_cpu (smp_processor_id p) (cpu_online_mask w)).
Proof.
  unfold num_other_online_cpus, num_online_cpus, cpu_online.
  rewrite cpumask_weight_clear.
  rewrite (bool_decide_eq_true_2 _ Hcpu). cbn [andb].
  pose proof (cpumask_weight_bound (cpu_online_mask w)).
  pose proof (cpumask_weight_bound
                (cpumask_clear_cpu (smp_processor_id p) (cpu_online_mask w)))
    as Hc.
  rewrite cpumask_weight_clear, (bool_decide_eq_true_2 _ Hcpu) in Hc.
  cbn [andb] in Hc.
  unfold to_uint. apply Z.mod_small. lia.
Qed.

(** X20: In a build without the pipeline, the stop IPI takes the CPU out of
    the online mask and parks it: the handler does not return, the CPU is
    no longer online, and the online count is one less when the CPU was
    counted. *)
Theorem handle_IPI_stop_offline (w : world)
    (Hpipe : CONFIG_IRQ_PIPELINE p = false) :
  handle_IPI p (ipi_virq_base w + ipi_nr IPI_CPU_STOP) w
  = Some (Parked (set_cpu_offline (smp_processor_id p) w))
  /\ cpu_online (smp_processor_id p)
       (set_cpu_offline (smp_processor_id p) w) = false
  /\ num_online_cpus p (set_cpu_offline (smp_processor_id p) w)
     = num_online_cpus p w
       - Z.b2z (bool_decide (smp_processor_id p < NR_CPUS p)%nat
                && cpu_online (smp_processor_id p) w).
Proof.
  split; [|split].
  - unfold handle_IPI, __handle_IPI. rewrite Hpipe.
    replace (ipi_virq_base w + ipi_nr IPI_CPU_STOP - ipi_virq_base w)
      with 2 by (cbn [ipi_nr]; lia).
    reflexivity.
  - unfold cpu_online, set_cpu_offline, cpumask_test_cpu, cpumask_clear_cpu.
    smp_fields. apply Z.clearbit_eq.
  - unfold num_online_cpus, set_cpu_offline. smp_fields.
    apply cpumask_weight_clear.
Qed.

Lemma iter_udelay_1_deaf (k : nat) (w : world) :
  (forall t s, fst (remote_cpus p t s) = fst s) ->
  cpu_online_mask (Nat.iter k (udelay_1 p) w) = cpu_online_mask w.
Proof.
  intros Hdeaf. induction k as [|k IH]; [done|].
  rewrite Nat.iter_succ. unfold udelay_1 at 1.
  pose proof (Hdeaf (now_us (Nat.iter k (udelay_1 p) w))
                (cpu_online_mask (Nat.iter k (udelay_1 p) w),
                 waiting_for_crash_ipi (Nat.iter k (udelay_1 p) w))) as Hf.
  destruct (remote_cpus p _ _) as [online countdown].
  cbn [fst] in Hf. smp_fields. congruence.
Qed.

(** The state [smp_send_stop] waits from: the one its broadcast leaves. *)
Lemma smp_send_stop_broadcast (w : world) :
  exists w2,
    (if 1 <? num_online_cpus p w
     then send_ipi_mask p
            (cpumask_clear_cpu (smp_processor_id p) (cpu_online_mask w))
            IPI_CPU_STOP
            (if system_state p <=? SYSTEM_RUNNING
             then log ev_pr_crit_stopping w else w)
     else Ret w) = Ret w2
    /\ trace w2 =
         trace w
         ++ (if 1 <? num_online_cpus p w
             then (if system_state p <=? SYSTEM_RUNNING
                   then [ev_pr_crit_stopping] else [])
                  ++ [ev_ipi_send_mask
                        (default None
                           (ipi_desc w
                              !! Z.to_nat (if CONFIG_IRQ_PIPELINE p then 0
                                           else ipi_nr IPI_CPU_STOP)))
                        (cpumask_clear_cpu (smp_processor_id p)
                           (cpu_online_mask w))]
             else [])
    /\ cpu_online_mask w2 = cpu_online_mask w
    /\ now_us w2 = now_us w.
Proof.
  destruct (1 <? num_online_cpus p w).
  - set (w1 := if system_state p <=? SYSTEM_RUNNING then _ else w).
    destruct (send_ipi_mask_ret p
                (cpumask_clear_cpu (smp_processor_id p) (cpu_online_mask w))
                IPI_CPU_STOP w1) as (w2 & Hr & Ht & Ho & _ & _ & Hn & _).
    exists w2. split; [done|].
    assert (H1 : trace w1 = trace w ++
                   (if system_state p <=? SYSTEM_RUNNING
                    then [ev_pr_crit_stopping] else [])
                 /\ cpu_online_mask w1 = cpu_online_mask w
                 /\ now_us w1 = now_us w
                 /\ ipi_desc w1 = ipi_desc w).
    { subst w1. destruct (system_state p <=? SYSTEM_RUNNING);
        smp_fields; by rewrite ?app_nil_r. }
    destruct H1 as (Ht1 & Ho1 & Hn1 & Hd1).
    split; [|split; congruence].
    by rewrite Ht, Ht1, Hd1, <- app_assoc.
  - exists w. by rewrite app_nil_r.
Qed.

(** [smp_send_stop] as its broadcast followed by [k] polling steps. *)
Lemma smp_send_stop_run (w : world) :
  exists (w2 : world) (k : nat),
    trace w2 =
      trace w
      ++ (if 1 <? num_online_cpus p w
          then (if system_state p <=? SYSTEM_RUNNING
                then [ev_pr_crit_stopping] else [])
               ++ [ev_ipi_send_mask
                     (default None
                        (ipi_desc w
                           !! Z.to_nat (if CONFIG_IRQ_PIPELINE p then 0
                                        else ipi_nr IPI_CPU_STOP)))
                     (cpumask_clear_cpu (smp_processor_id p)
                        (cpu_online_mask w))]
          else [])
    /\ (num_online_cpus p w <= 1 -> w2 = w)
    /\ cpu_online_mask w2 = cpu_online_mask w
    /\ now_us w2 = now_us w
    /\ (k <= Z.to_nat USEC_PER_SEC)%nat
    /\ Forall (fun j => (1 <? num_online_cpus p (Nat.iter j (udelay_1 p) w2))
                        = true) (seq 0 k)
    /\ (k = Z.to_nat USEC_PER_SEC
        \/ (1 <? num_online_cpus p (Nat.iter k (udelay_1 p) w2)) = false)
    /\ smp_send_stop p w =
         Ret (if 1 <? num_online_cpus p (Nat.iter k (udelay_1 p) w2)
              then log (ev_pr_warn_failed_to_stop
                          (cpu_online_mask (Nat.iter k (udelay_1 p) w2)))
                       (Nat.iter k (udelay_1 p) w2)
              else Nat.iter k (udelay_1 p) w2).
Proof.
  destruct (smp_send_stop_broadcast w) as (w2 & Hr & Ht2 & Ho2 & Hn2).
  set (cond := fun w' : world => 1 <? num_online_cpus p w').
  destruct (busy_wait_spec p cond (Z.to_nat USEC_PER_SEC) w2)
    as (k & Hk & Hw3 & Hall & Hend).
  exists w2, k.
  split; [exact Ht2|].
  split.
  { intros Halone. destruct (Z.ltb_spec 1 (num_online_cpus p w)); [lia|].
    by injection Hr. }
  split; [exact Ho2|]. split; [exact Hn2|]. split; [exact Hk|].
  split; [exact Hall|].
  split; [by rewrite <- Hw3|].
  unfold smp_send_stop. rewrite Hr. cbn [bind]. fold cond. rewrite Hw3.
  unfold cond. cbn beta.
  destruct (1 <? num_online_cpus p (Nat.iter k (udelay_1 p) w2));
    reflexivity.
Qed.

(** X21: With at most one CPU online [smp_send_stop] does nothing at all: no
    IPI, no delay, no warning. *)
Theorem smp_send_stop_alone (w : world)
    (Halone : num_online_cpus p w <= 1) :
  smp_send_stop p w = Ret w.
Proof.
  destruct (smp_send_stop_run w)
    as (w2 & k & _ & Hw2 & _ & _ & _ & Hall & _ & Hrun).
  rewrite Hrun. rewrite (Hw2 Halone) in *.
  assert (Hc : (1 <? num_online_cpus p w) = false) by (by apply Z.ltb_ge).
  destruct k as [|k].
  - change (Nat.iter 0 (udelay_1 p) w) with w. by rewrite Hc.
  - cbn [seq] in Hall. apply Forall_inv in Hall.
    change (Nat.iter 0 (udelay_1 p) w) with w in Hall. congruence.
Qed.

(** X22: When the other CPUs never leave the online mask, [smp_send_stop]
    still returns: after exactly [USEC_PER_SEC] polling steps, with the
    online mask as it was and the warning that lists it as its last
    event. *)
Theorem smp_send_stop_timeout (w : world)
    (Hdeaf : forall t s, fst (remote_cpus p t s) = fst s)
    (Hmany : 1 < num_online_cpus p w) :
  exists w',
    smp_send_stop p w = Ret w'
    /\ now_us w' = now_us w + USEC_PER_SEC
    /\ cpu_online_mask w' = cpu_online_mask w
    /\ list.last (trace w')
       = Some (ev_pr_warn_failed_to_stop (cpu_online_mask w)).
Proof.
  destruct (smp_send_stop_run w)
    as (w2 & k & _ & _ & Ho2 & Hn2 & _ & _ & Hend & Hrun).
  destruct (iter_udelay_1_same p k w2) as [_ Hnow].
  pose proof (iter_udelay_1_deaf k w2 Hdeaf) as Ho3.
  assert (Hc : (1 <? num_online_cpus p (Nat.iter k (udelay_1 p) w2)) = true).
  { unfold num_online_cpus. rewrite Ho3, Ho2. by apply Z.ltb_lt. }
  rewrite Hc in Hrun. destruct Hend as [Hk|Hend]; [|congruence].
  eexists. split; [exact Hrun|]. smp_fields.
  split; [rewrite Hnow, Hn2, Hk; unfold USEC_PER_SEC; lia|].
  split; [congruence|].
  by rewrite last_snoc, Ho3, Ho2.
Qed.

(** X23: When the other CPUs are out of the online mask within a microsecond,
    [smp_send_stop] returns after at most one polling step and logs no
    warning: its events are the broadcast alone. *)
Theorem smp_send_stop_prompt (w : world)
    (Hprompt : forall t s, cpumask_weight p (fst (remote_cpus p t s)) <= 1) :
  exists w',
    smp_send_stop p w = Ret w'
    /\ now_us w <= now_us w' <= now_us w + 1
    /\ events_since w w'
       = (if 1 <? num_online_cpus p w
          then (if system_state p <=? SYSTEM_RUNNING
                then [ev_pr_crit_stopping] else [])
               ++ [ev_ipi_send_mask
                     (default None
                        (ipi_desc w
                           !! Z.to_nat (if CONFIG_IRQ_PIPELINE p then 0
                                        else ipi_nr IPI_CPU_STOP)))
                     (cpumask_clear_cpu (smp_processor_id p)
                        (cpu_online_mask w))]
          else []).
Proof.
  destruct (smp_send_stop_run w)
    as (w2 & k & Ht2 & _ & Ho2 & Hn2 & Hk & Hall & Hend & Hrun).
  destruct (iter_udelay_1_same p k w2) as [Hsame Hnow].
  assert (Hone : (1 <? num_online_cpus p (udelay_1 p w2)) = false).
  { unfold num_online_cpus, udelay_1.
    pose proof (Hprompt (now_us w2)
                  (cpu_online_mask w2, waiting_for_crash_ipi w2)) as Hp.
    destruct (remote_cpus p _ _) as [online countdown]. cbn [fst] in Hp.
    smp_fields. by apply Z.ltb_ge. }
  assert (Hk1 : (k <= 1)%nat).
  { destruct k as [|[|k]]; [lia|lia|exfalso].
    cbn [seq] in Hall. apply Forall_inv_tail, Forall_inv in Hall.
    change (Nat.iter 1 (udelay_1 p) w2) with (udelay_1 p w2) in Hall.
    congruence. }
  destruct Hend as [Hkn|Hend]; [unfold USEC_PER_SEC in Hkn; lia|].
  rewrite Hend in Hrun.
  eexists. split; [exact Hrun|]. split; [lia|].
  apply smp_events_since_app.
  destruct Hsame as (_ & _ & _ & _ & _ & _ & Ht3). by rewrite Ht3, Ht2.
Qed.

(** X24: A first [crash_smp_send_stop] with other CPUs online logs the
    announcement and the crash-stop IPI, waits at most [USEC_PER_SEC]
    microseconds, and ends with the warning for its targets exactly when
    [smp_crash_stop_failed] then answers yes; it answers yes only after
    the whole timeout. *)
Theorem crash_smp_send_stop_outcome (w : world)
    (Hfresh : cpus_stopped w = 0)
    (Hothers : num_other_online_cpus p w <> 0) :
  exists w1,
    crash_smp_send_stop p w = Ret w1
    /\ events_since w w1
       = [ev_pr_crit_stopping;
          ev_ipi_send_mask
            (default None
               (ipi_desc w
                  !! Z.to_nat (if CONFIG_IRQ_PIPELINE p then 0
                               else ipi_nr IPI_CPU_CRASH_STOP)))
            (cpumask_clear_cpu (smp_processor_id p) (cpu_online_mask w))]
         ++ (if smp_crash_stop_failed w1
             then [ev_pr_warn_failed_to_stop
                     (cpumask_clear_cpu (smp_processor_id p)
                        (cpu_online_mask w))]
             else [])
    /\ now_us w <= now_us w1 <= now_us w + USEC_PER_SEC
    /\ (now_us w1 = now_us w + USEC_PER_SEC
        \/ smp_crash_stop_failed w1 = false).
Proof.
  unfold crash_smp_send_stop. rewrite Hfresh. cbn [Z.eqb negb].
  change (num_other_online_cpus p (set_cpus_stopped 1 w))
    with (num_other_online_cpus p w).
  destruct (Z.eqb_spec (num_other_online_cpus p w) 0) as [|_]; [done|].
  set (w3 := log ev_pr_crit_stopping _).
  set (mask := cpumask_clear_cpu (smp_processor_id p) _).
  destruct (send_ipi_mask_ret p mask IPI_CPU_CRASH_STOP w3)
    as (w4 & Hr & Ht & _ & _ & _ & Hn4 & _).
  rewrite Hr. cbn [bind].
  set (cond := fun w' : world => 0 <? waiting_for_crash_ipi w').
  destruct (busy_wait_spec p cond (Z.to_nat USEC_PER_SEC) w4)
    as (k & Hk & Hw5 & _ & Hend).
  destruct (iter_udelay_1_same p k w4) as [Hsame Hnow].
  rewrite <- Hw5 in Hsame, Hnow.
  set (w5 := busy_wait p cond (Z.to_nat USEC_PER_SEC) w4) in *.
  destruct Hsame as (_ & _ & _ & _ & _ & _ & Ht5).
  assert (Htr : trace w5 =
            trace w ++ [ev_pr_crit_stopping;
                        ev_ipi_send_mask
                          (default None
                             (ipi_desc w
                                !! Z.to_nat
                                     (if CONFIG_IRQ_PIPELINE p then 0
                                      else ipi_nr IPI_CPU_CRASH_STOP)))
                          mask]).
  { rewrite Ht5, Ht. subst w3. smp_fields. by rewrite <- app_assoc. }
  assert (Hn5 : now_us w5 = now_us w + Z.of_nat k)
    by (rewrite Hnow, Hn4; reflexivity).
  assert (Hcase : Z.of_nat k = USEC_PER_SEC \/ cond w5 = false).
  { destruct Hend as [->|Hend]; [left|by right].
    by rewrite Z2Nat.id by (by unfold USEC_PER_SEC). }
  assert (Hle : Z.of_nat k <= USEC_PER_SEC)
    by (unfold USEC_PER_SEC in *; lia).
  fold (cond w5). destruct (cond w5) eqn:Ec.
  - eexists. split; [reflexivity|].
    unfold smp_crash_stop_failed. smp_fields. fold (cond w5). rewrite Ec.
    split; [apply smp_events_since_app; smp_fields;
            by rewrite Htr, <- app_assoc|].
    split; [lia|]. left. destruct Hcase as [Hc|Hc]; [lia|congruence].
  - exists w5. split; [reflexivity|].
    unfold smp_crash_stop_failed. fold (cond w5). rewrite Ec.
    split; [apply smp_events_since_app; by rewrite Htr, app_nil_r|].
    split; [lia|]. by right.
Qed.

End RaiseStopMoreFacts.

Lemma arch_irq_work_raise_handled_witness :
  exists w1 w2 : Smp.world,
    Smp.arch_irq_work_raise (Sample.smp_platform true false)
      (Sample.registered_world true) = Smp.Ret w1
    /\ Smp.handle_IPI (Sample.smp_platform true false) 8 w1
       = Some (Smp.Ret w2)
    /\ Smp.ipi_messages w2 0%nat = 0.
Proof.
  destruct (arch_irq_work_raise_handled (Sample.smp_platform true false) 8
              (Sample.registered_world true) eq_refl
              ltac:(vm_compute; reflexivity)
              ltac:(vm_compute; split; reflexivity))
    as (w1 & w2 & H1 & _ & H2 & H3 & _).
  exists w1, w2. repeat split; assumption.
Defined.

Lemma num_other_online_cpus_targets_witness :
  Smp.num_other_online_cpus (Sample.smp_platform true false)
    (Sample.registered_world true)
  = Smp.cpumask_weight (Sample.smp_platform true false)
      (Smp.cpumask_clear_cpu 0%nat
         (Smp.cpu_online_mask (Sample.registered_world true))).
Proof.
  apply (num_other_online_cpus_targets (Sample.smp_platform true false)
           (Sample.registered_world true)
           ltac:(vm_compute; lia) ltac:(vm_compute; reflexivity)).
Defined.

Lemma handle_IPI_stop_offline_witness :
  Smp.handle_IPI (Sample.smp_platform false false)
    (Smp.ipi_virq_base (Sample.registered_world false)
     + Smp.ipi_nr Smp.IPI_CPU_STOP)
    (Sample.registered_world false)
  = Some (Smp.Parked
            (Smp.set_cpu_offline 0%nat (Sample.registered_world false))).
Proof.
  apply (proj1 (handle_IPI_stop_offline (Sample.smp_platform false false)
                  (Sample.registered_world false) eq_refl)).
Defined.

Lemma smp_send_stop_alone_witness :
  Smp.smp_send_stop (Sample.smp_platform true false) (Sample.boot_world 1)
  = Smp.Ret (Sample.boot_world 1).
Proof.
  apply (smp_send_stop_alone (Sample.smp_platform true false)
           (Sample.boot_world 1)).
  vm_compute. discriminate.
Defined.

Lemma smp_send_stop_timeout_witness :
  exists w' : Smp.world,
    Smp.smp_send_stop (Sample.deaf_platform true) (Sample.boot_world 15)
    = Smp.Ret w'
    /\ Smp.now_us w' = Smp.USEC_PER_SEC
    /\ list.last (Smp.trace w') = Some (Smp.ev_pr_warn_failed_to_stop 15).
Proof.
  destruct (smp_send_stop_timeout (Sample.deaf_platform true)
              (Sample.boot_world 15)
              ltac:(intros t s; reflexivity)
              ltac:(vm_compute; reflexivity))
    as (w' & H1 & H2 & _ & H3).
  exists w'. repeat split; assumption.
Defined.

Lemma smp_send_stop_prompt_witness :
  exists w' : Smp.world,
    Smp.smp_send_stop (Sample.prompt_platform true) (Sample.boot_world 15)
    = Smp.Ret w'
    /\ Smp.now_us w' <= 1.
Proof.
  assert (Hprompt : forall (t : Z) (s : Z * Z),
            Smp.cpumask_weight (Sample.prompt_platform true)
              (fst (Smp.remote_cpus (Sample.prompt_platform true) t s)) <= 1).
  { intros t [m c]. unfold Smp.cpumask_weight.
    cbn [Smp.remote_cpus Smp.NR_CPUS Sample.prompt_platform fst seq].
    assert (Hhi : forall x : nat, x <> 0%nat ->
              Smp.cpumask_test_cpu x (Z.land m 1) <> true).
    { intros x Hx. unfold Smp.cpumask_test_cpu.
      rewrite Z.land_spec, (Z.bits_above_log2 1 (Z.of_nat x));
        [by rewrite andb_false_r | lia | cbn; lia]. }
    rewrite filter_cons.
    rewrite (filter_cons_False _ 1%nat) by (apply Hhi; lia).
    rewrite (filter_cons_False _ 2%nat) by (apply Hhi; lia).
    rewrite (filter_cons_False _ 3%nat) by (apply Hhi; lia).
    rewrite filter_nil. destruct (decide _); cbn [length]; lia. }
  destruct (smp_send_stop_prompt (Sample.prompt_platform true)
              (Sample.boot_world 15) Hprompt)
    as (w' & H1 & H2 & _).
  exists w'. split; [assumption|]. exact (proj2 H2).
Defined.

Lemma crash_smp_send_stop_outcome_witness :
  exists w1 : Smp.world,
    Smp.crash_smp_send_stop (Sample.smp_platform true false)
      (Sample.registered_world true) = Smp.Ret w1
    /\ (Smp.now_us w1
        = Smp.now_us (Sample.registered_world true) + Smp.USEC_PER_SEC
        \/ Smp.smp_crash_stop_failed w1 = false).
Proof.
  destruct (crash_smp_send_stop_outcome (Sample.smp_platform true false)
              (Sample.registered_world true)
              ltac:(vm_compute; reflexivity)
              ltac:(vm_compute; discriminate))
    as (w1 & H1 & _ & _ & H2).
  exists w1. split; assumption.
Defined.


(* ===================================================================== *)
(** ** The single-CPU entry points                                        *)
(* ===================================================================== *)

Section SingleSendFacts.

Import Smp.

Variable p : platform.

Lemma cpumask_of_test (cpu c : nat) :
  cpumask_test_cpu c (cpumask_of cpu) = bool_decide (c = cpu).
Proof.
  unfold cpumask_test_cpu, cpumask_of.
  rewrite Z.shiftl_1_l, Z.pow2_bits_eqb by lia.
  case_bool_decide as H.
  - subst c. apply Z.eqb_refl.
  - apply Z.eqb_neq. lia.
Qed.

(** The loop over a one-CPU mask runs its body for that CPU alone. *)
Lemma for_each_cpu_one (cpu : nat) (body : nat -> world -> world)
    (w : world) :
  (cpu < NR_CPUS p)%nat ->
  for_each_cpu p (cpumask_of cpu) body w = body cpu w.
Proof.
  intros Hcpu. unfold for_each_cpu.
  assert (H : forall (l : list nat) (w0 : world), NoDup l ->
    fold_left (fun w' c => if cpumask_test_cpu c (cpumask_of cpu)
                           then body c w' else w') l w0
    = if bool_decide (cpu ∈ l) then body cpu w0 else w0).
  { induction l as [|a l IH]; intros w0 Hnd; cbn [fold_left].
    - by rewrite bool_decide_eq_false_2 by apply not_elem_of_nil.
    - apply list.NoDup_cons in Hnd as [Ha Hnd]. rewrite IH by done.
      rewrite cpumask_of_test. destruct (decide (a = cpu)) as [Hac|Hac].
      + subst a. rewrite (bool_decide_eq_true_2 (cpu = cpu)) by done.
        rewrite (bool_decide_eq_false_2 (cpu ∈ l)) by done.
        by rewrite bool_decide_eq_true_2 by apply list_elem_of_here.
      + rewrite (bool_decide_eq_false_2 (a = cpu)) by done.
        apply (f_equal (fun b : bool => if b then body cpu w0 else w0)).
        apply bool_decide_ext. rewrite elem_of_cons.
        split; [by right | intros [?|?]; [congruence|done]]. }
  rewrite H by apply NoDup_seq.
  by rewrite bool_decide_eq_true_2 by (apply elem_of_seq; lia).
Qed.

(** X25: For one of the [NR_CPUS] CPUs, a send to the CPU is the send to the
    mask that holds this CPU alone, in both builds; so the single-CPU
    entry points are the mask entry points at that mask. *)
Theorem send_ipi_single_as_mask (cpu : nat) (op : ipi_message_type)
    (w : world) (Hcpu : (cpu < NR_CPUS p)%nat) :
  send_ipi_single p cpu op w = send_ipi_mask p (cpumask_of cpu) op w
  /\ arch_send_call_function_single_ipi p cpu w
     = arch_send_call_function_ipi_mask p (cpumask_of cpu) w
  /\ arch_smp_send_reschedule p cpu w
     = send_ipi_mask p (cpumask_of cpu) IPI_RESCHEDULE w
  /\ tick_broadcast p (cpumask_of cpu) w = send_ipi_single p cpu IPI_TIMER w.
Proof.
  assert (H : forall op', send_ipi_single p cpu op' w
                          = send_ipi_mask p (cpumask_of cpu) op' w).
  { intros op'. unfold send_ipi_single, send_ipi_mask, __send_ipi_single.
    by rewrite for_each_cpu_one by done. }
  unfold arch_send_call_function_single_ipi,
    arch_send_call_function_ipi_mask, arch_smp_send_reschedule,
    tick_broadcast.
  by rewrite !H.
Qed.

End SingleSendFacts.

Lemma send_ipi_single_as_mask_witness :
  Smp.arch_smp_send_reschedule (Sample.smp_platform true false) 2
    (Sample.registered_world true)
  = Smp.send_ipi_mask (Sample.smp_platform true false) (Smp.cpumask_of 2)
      Smp.IPI_RESCHEDULE (Sample.registered_world true).
Proof.
  apply (proj1 (proj2 (proj2 (send_ipi_single_as_mask
           (Sample.smp_platform true false) 2 Smp.IPI_RESCHEDULE
           (Sample.registered_world true) ltac:(vm_compute; lia))))).
Defined.
